(** * ESP8266 WiFi range extender: the connectivity supervisor

    A shallow embedding of [rangeextend.ino] (the sketch compiled when
    [LWIP_FEATURES && !LWIP_IPV6]) and the properties of its supervisor:
    the link watchdog, the memory guard, the reachability probe, the
    status cycle, the LED indicator and the status page.

    The sketch is a single sequential control loop over a handful of
    globals.  Every function of the sketch becomes a computation in a
    small monad that threads a [World]: the globals, the function-local
    statics, the answers of the outside world (the WiFi driver, lwIP's
    NAPT, the heap, the clock, TCP connects, HTTP requests) and a trace of
    the calls the sketch makes.  [ESP.restart()] does not return: it is
    the monad's second outcome. *)

From Stdlib Require Import ZArith Bool List String Lia DecimalString.
Import ListNotations.

Open Scope Z_scope.

(** ** Machine integers

    On the ESP8266 [int] is 32-bit two's complement and [unsigned long]
    and [uint32_t] are 32-bit.  Values are kept in [Z] and every
    arithmetic result is wrapped explicitly. *)

Definition INT_MAX : Z := 2147483647.
Definition INT_MIN : Z := -2147483648.

Definition wrap_uint32 (z : Z) : Z := z mod 2 ^ 32.
Definition wrap_int32 (z : Z) : Z := (z + 2 ^ 31) mod 2 ^ 32 - 2 ^ 31.

(** [a - b] on [unsigned long]: the wrap-around-safe elapsed time. *)
Definition usub (a b : Z) : Z := wrap_uint32 (a - b).

(** ** Types of the ESP8266 Arduino core and lwIP used by the sketch *)

Inductive wl_status_t : Type :=
| WL_NO_SHIELD
| WL_IDLE_STATUS
| WL_NO_SSID_AVAIL
| WL_SCAN_COMPLETED
| WL_CONNECTED
| WL_CONNECT_FAILED
| WL_CONNECTION_LOST
| WL_WRONG_PASSWORD
| WL_DISCONNECTED.

Definition is_WL_CONNECTED (s : wl_status_t) : bool :=
  match s with WL_CONNECTED => true | _ => false end.

Inductive WiFiMode_t : Type := WIFI_OFF | WIFI_STA | WIFI_AP | WIFI_AP_STA.

Definition is_WIFI_AP_STA (m : WiFiMode_t) : bool :=
  match m with WIFI_AP_STA => true | _ => false end.

Inductive PinLevel : Type := LOW | HIGH.

(** lwIP's [err_t]: [ERR_OK] is 0, every failure is another value. *)
Definition ERR_OK : Z := 0.

(** What [server.handleClient()] finds waiting: nothing, a request for
    ["/"], or a request for any other path. *)
Inductive Request : Type := GetRoot | GetOther.

(** ** Configuration (lines 26-42) *)

Definition MAIN_SSID : string := EmptyString.
Definition MAIN_PASS : string := EmptyString.
Definition AP_SSID : string := "WiFi_Extender"%string.
Definition AP_PASS : string := "123456789"%string.

Definition RECONNECT_INTERVAL : Z := 15000.
Definition STATUS_INTERVAL : Z := 30000.
Definition REBOOT_INTERVAL : Z := 12 * 60 * 60 * 1000.
Definition INTERNET_CHECK_INTERVAL : Z := 60000.
Definition CONNECTION_WATCHDOG : Z := 10000.

(** ** The world *)

(** The file-scope globals of the sketch (lines 49-56). *)
Record Globals : Type := mkGlobals {
  stationOK : bool;
  naptOK : bool;
  internetOK : bool;
  lastCheck : Z;
  lastWatchdog : Z;
  lastMemoryCheck : Z;
  bootTime : Z;
  reconnectCount : Z
}.

(** The function-local statics: [failCount] of [connectionWatchdog],
    [lastBlink] and [ledState] of [updateLED]. *)
Record Statics : Type := mkStatics {
  failCount : Z;
  lastBlink : Z;
  ledState : bool
}.

(** The outside world answers each kind of call from its own stream:
    the [n]-th call of a kind gets the stream's [n]-th answer. *)
Record Env : Type := mkEnv {
  wifi_status_at : nat -> wl_status_t;     (* WiFi.status() *)
  wifi_mode_at : nat -> WiFiMode_t;        (* WiFi.getMode() *)
  softAPConfig_at : nat -> bool;           (* WiFi.softAPConfig(..) *)
  softAP_at : nat -> bool;                 (* WiFi.softAP(..) *)
  napt_init_at : nat -> Z;                 (* ip_napt_init(..) *)
  napt_enable_at : nat -> Z;               (* ip_napt_enable_no(..) *)
  heap_at : nat -> Z;                      (* ESP.getFreeHeap() *)
  connect_at : nat -> bool;                (* client.connect(..) *)
  millis_at : nat -> Z;                    (* millis() *)
  stations_at : nat -> Z;                  (* WiFi.softAPgetStationNum() *)
  request_at : nat -> option Request       (* server.handleClient() *)
}.

(** How many answers of each stream have been consumed. *)
Record Cursor : Type := mkCursor {
  n_status : nat;
  n_mode : nat;
  n_softAPConfig : nat;
  n_softAP : nat;
  n_napt_init : nat;
  n_napt_enable : nat;
  n_heap : nat;
  n_connect : nat;
  n_millis : nat;
  n_stations : nat;
  n_request : nat
}.

(** The calls the sketch makes on the outside world, in order. *)
Inductive Event : Type :=
| EvSerialBegin (baud : Z)
| EvSerial (text : string)       (* Serial.print/println/printf: the literal or the format *)
| EvSerialValue                  (* Serial.println of a value read from the driver *)
| EvDelay (ms : Z)
| EvYield
| EvPinMode
| EvDigitalWrite (level : PinLevel)
| EvWiFiSetup (call : string)    (* persistent, setAutoReconnect, setSleepMode, setPhyMode *)
| EvWiFiMode (m : WiFiMode_t)
| EvWiFiBegin (ssid pass : string)
| EvWiFiDisconnect
| EvSoftAPConfig
| EvSoftAP (ssid pass : string) (channel : Z) (hidden : bool) (max_conn : Z)
| EvSetDns
| EvNaptInit (max_nat max_portmap : Z)
| EvNaptEnable (enable : Z)
| EvClientTimeout (ms : Z)
| EvClientConnect (host : string) (port : Z)
| EvClientStop
| EvServerBegin                  (* server.on, server.onNotFound, server.begin *)
| EvServerSend (code : Z) (content_type body : string)
| EvRestart.

Record World : Type := mkWorld {
  glob : Globals;
  stat : Statics;
  env : Env;
  cur : Cursor;
  trace : list Event
}.

(** *** Field updates *)

Definition with_stationOK (b : bool) (g : Globals) : Globals :=
  mkGlobals b (naptOK g) (internetOK g) (lastCheck g) (lastWatchdog g)
            (lastMemoryCheck g) (bootTime g) (reconnectCount g).
Definition with_naptOK (b : bool) (g : Globals) : Globals :=
  mkGlobals (stationOK g) b (internetOK g) (lastCheck g) (lastWatchdog g)
            (lastMemoryCheck g) (bootTime g) (reconnectCount g).
Definition with_internetOK (b : bool) (g : Globals) : Globals :=
  mkGlobals (stationOK g) (naptOK g) b (lastCheck g) (lastWatchdog g)
            (lastMemoryCheck g) (bootTime g) (reconnectCount g).
Definition with_lastCheck (t : Z) (g : Globals) : Globals :=
  mkGlobals (stationOK g) (naptOK g) (internetOK g) t (lastWatchdog g)
            (lastMemoryCheck g) (bootTime g) (reconnectCount g).
Definition with_lastWatchdog (t : Z) (g : Globals) : Globals :=
  mkGlobals (stationOK g) (naptOK g) (internetOK g) (lastCheck g) t
            (lastMemoryCheck g) (bootTime g) (reconnectCount g).
Definition with_lastMemoryCheck (t : Z) (g : Globals) : Globals :=
  mkGlobals (stationOK g) (naptOK g) (internetOK g) (lastCheck g)
            (lastWatchdog g) t (bootTime g) (reconnectCount g).
Definition with_bootTime (t : Z) (g : Globals) : Globals :=
  mkGlobals (stationOK g) (naptOK g) (internetOK g) (lastCheck g)
            (lastWatchdog g) (lastMemoryCheck g) t (reconnectCount g).
Definition with_reconnectCount (n : Z) (g : Globals) : Globals :=
  mkGlobals (stationOK g) (naptOK g) (internetOK g) (lastCheck g)
            (lastWatchdog g) (lastMemoryCheck g) (bootTime g) n.

Definition with_failCount (n : Z) (s : Statics) : Statics :=
  mkStatics n (lastBlink s) (ledState s).
Definition with_lastBlink (t : Z) (s : Statics) : Statics :=
  mkStatics (failCount s) t (ledState s).
Definition with_ledState (b : bool) (s : Statics) : Statics :=
  mkStatics (failCount s) (lastBlink s) b.

Definition next_status (c : Cursor) : Cursor :=
  mkCursor (S (n_status c)) (n_mode c) (n_softAPConfig c) (n_softAP c)
           (n_napt_init c) (n_napt_enable c) (n_heap c) (n_connect c)
           (n_millis c) (n_stations c) (n_request c).
Definition next_mode (c : Cursor) : Cursor :=
  mkCursor (n_status c) (S (n_mode c)) (n_softAPConfig c) (n_softAP c)
           (n_napt_init c) (n_napt_enable c) (n_heap c) (n_connect c)
           (n_millis c) (n_stations c) (n_request c).
Definition next_softAPConfig (c : Cursor) : Cursor :=
  mkCursor (n_status c) (n_mode c) (S (n_softAPConfig c)) (n_softAP c)
           (n_napt_init c) (n_napt_enable c) (n_heap c) (n_connect c)
           (n_millis c) (n_stations c) (n_request c).
Definition next_softAP (c : Cursor) : Cursor :=
  mkCursor (n_status c) (n_mode c) (n_softAPConfig c) (S (n_softAP c))
           (n_napt_init c) (n_napt_enable c) (n_heap c) (n_connect c)
           (n_millis c) (n_stations c) (n_request c).
Definition next_napt_init (c : Cursor) : Cursor :=
  mkCursor (n_status c) (n_mode c) (n_softAPConfig c) (n_softAP c)
           (S (n_napt_init c)) (n_napt_enable c) (n_heap c) (n_connect c)
           (n_millis c) (n_stations c) (n_request c).
Definition next_napt_enable (c : Cursor) : Cursor :=
  mkCursor (n_status c) (n_mode c) (n_softAPConfig c) (n_softAP c)
           (n_napt_init c) (S (n_napt_enable c)) (n_heap c) (n_connect c)
           (n_millis c) (n_stations c) (n_request c).
Definition next_heap (c : Cursor) : Cursor :=
  mkCursor (n_status c) (n_mode c) (n_softAPConfig c) (n_softAP c)
           (n_napt_init c) (n_napt_enable c) (S (n_heap c)) (n_connect c)
           (n_millis c) (n_stations c) (n_request c).
Definition next_connect (c : Cursor) : Cursor :=
  mkCursor (n_status c) (n_mode c) (n_softAPConfig c) (n_softAP c)
           (n_napt_init c) (n_napt_enable c) (n_heap c) (S (n_connect c))
           (n_millis c) (n_stations c) (n_request c).
Definition next_millis (c : Cursor) : Cursor :=
  mkCursor (n_status c) (n_mode c) (n_softAPConfig c) (n_softAP c)
           (n_napt_init c) (n_napt_enable c) (n_heap c) (n_connect c)
           (S (n_millis c)) (n_stations c) (n_request c).
Definition next_stations (c : Cursor) : Cursor :=
  mkCursor (n_status c) (n_mode c) (n_softAPConfig c) (n_softAP c)
           (n_napt_init c) (n_napt_enable c) (n_heap c) (n_connect c)
           (n_millis c) (S (n_stations c)) (n_request c).
Definition next_request (c : Cursor) : Cursor :=
  mkCursor (n_status c) (n_mode c) (n_softAPConfig c) (n_softAP c)
           (n_napt_init c) (n_napt_enable c) (n_heap c) (n_connect c)
           (n_millis c) (n_stations c) (S (n_request c)).

Definition set_glob (g : Globals) (w : World) : World :=
  mkWorld g (stat w) (env w) (cur w) (trace w).
Definition set_stat (s : Statics) (w : World) : World :=
  mkWorld (glob w) s (env w) (cur w) (trace w).
Definition set_cur (c : Cursor) (w : World) : World :=
  mkWorld (glob w) (stat w) (env w) c (trace w).
Definition log (e : Event) (w : World) : World :=
  mkWorld (glob w) (stat w) (env w) (cur w) (trace w ++ [e]).

(** ** The monad of the sketch *)

(** A call either returns a value in a new world, or the chip restarts
    ([ESP.restart()]) and nothing after the call runs. *)
Inductive Outcome (A : Type) : Type :=
| Ret (a : A) (w : World)
| Reboot (w : World).
Arguments Ret {A} a w.
Arguments Reboot {A} w.

Definition M (A : Type) : Type := World -> Outcome A.

Definition ret {A} (a : A) : M A := fun w => Ret a w.

Definition bind {A B} (m : M A) (k : A -> M B) : M B :=
  fun w => match m w with
           | Ret a w' => k a w'
           | Reboot w' => Reboot w'
           end.

Declare Scope monad_scope.
Delimit Scope monad_scope with monad.
Notation "x <- c1 ;; c2" := (bind c1 (fun x => c2))
  (at level 61, c1 at next level, right associativity) : monad_scope.
Notation "c1 ;; c2" := (bind c1 (fun _ => c2))
  (at level 61, right associativity) : monad_scope.
Open Scope monad_scope.

(** A C [if] without [else]. *)
Definition when (b : bool) (m : M unit) : M unit := if b then m else ret tt.

(** The world an outcome ends in, and whether it is a restart. *)
Definition world_of {A} (o : Outcome A) : World :=
  match o with Ret _ w => w | Reboot w => w end.
Definition restarted {A} (o : Outcome A) : bool :=
  match o with Ret _ _ => false | Reboot _ => true end.

(** *** Globals and statics *)

Definition gets {A} (f : Globals -> A) : M A := fun w => Ret (f (glob w)) w.
Definition modify (f : Globals -> Globals) : M unit :=
  fun w => Ret tt (set_glob (f (glob w)) w).
Definition gets_static {A} (f : Statics -> A) : M A :=
  fun w => Ret (f (stat w)) w.
Definition modify_static (f : Statics -> Statics) : M unit :=
  fun w => Ret tt (set_stat (f (stat w)) w).

(** *** Calls that only act *)

Definition emit (e : Event) : M unit := fun w => Ret tt (log e w).

Definition Serial_print (s : string) : M unit := emit (EvSerial s).
Definition Serial_println (s : string) : M unit := emit (EvSerial s).
Definition Serial_printf (fmt : string) : M unit := emit (EvSerial fmt).
Definition Serial_println_value : M unit := emit EvSerialValue.
Definition delay (ms : Z) : M unit := emit (EvDelay ms).
Definition yield : M unit := emit EvYield.
Definition digitalWrite (l : PinLevel) : M unit := emit (EvDigitalWrite l).
Definition WiFi_mode (m : WiFiMode_t) : M unit := emit (EvWiFiMode m).
Definition WiFi_begin (ssid pass : string) : M unit := emit (EvWiFiBegin ssid pass).
Definition WiFi_disconnect : M unit := emit EvWiFiDisconnect.
Definition client_setTimeout (ms : Z) : M unit := emit (EvClientTimeout ms).
Definition client_stop : M unit := emit EvClientStop.
Definition server_send (code : Z) (ctype body : string) : M unit :=
  emit (EvServerSend code ctype body).

(** [ESP.restart()]: recorded, and nothing runs after it. *)
Definition ESP_restart : M unit := fun w => Reboot (log EvRestart w).

(** *** Calls that ask the outside world *)

Definition WiFi_status : M wl_status_t :=
  fun w => Ret (wifi_status_at (env w) (n_status (cur w)))
               (set_cur (next_status (cur w)) w).
Definition WiFi_getMode : M WiFiMode_t :=
  fun w => Ret (wifi_mode_at (env w) (n_mode (cur w)))
               (set_cur (next_mode (cur w)) w).
Definition WiFi_softAPConfig : M bool :=
  fun w => Ret (softAPConfig_at (env w) (n_softAPConfig (cur w)))
               (log EvSoftAPConfig (set_cur (next_softAPConfig (cur w)) w)).
Definition WiFi_softAP (ssid pass : string) (ch : Z) (hidden : bool) (maxc : Z)
  : M bool :=
  fun w => Ret (softAP_at (env w) (n_softAP (cur w)))
               (log (EvSoftAP ssid pass ch hidden maxc)
                    (set_cur (next_softAP (cur w)) w)).
Definition ip_napt_init (max_nat max_portmap : Z) : M Z :=
  fun w => Ret (napt_init_at (env w) (n_napt_init (cur w)))
               (log (EvNaptInit max_nat max_portmap)
                    (set_cur (next_napt_init (cur w)) w)).
Definition ip_napt_enable_no (enable : Z) : M Z :=
  fun w => Ret (napt_enable_at (env w) (n_napt_enable (cur w)))
               (log (EvNaptEnable enable)
                    (set_cur (next_napt_enable (cur w)) w)).
(** [ESP.getFreeHeap()] returns a [uint32_t]. *)
Definition ESP_getFreeHeap : M Z :=
  fun w => Ret (wrap_uint32 (heap_at (env w) (n_heap (cur w))))
               (set_cur (next_heap (cur w)) w).
Definition client_connect (host : string) (port : Z) : M bool :=
  fun w => Ret (connect_at (env w) (n_connect (cur w)))
               (log (EvClientConnect host port)
                    (set_cur (next_connect (cur w)) w)).
(** [millis()] returns an [unsigned long]. *)
Definition millis : M Z :=
  fun w => Ret (wrap_uint32 (millis_at (env w) (n_millis (cur w))))
               (set_cur (next_millis (cur w)) w).
Definition WiFi_softAPgetStationNum : M Z :=
  fun w => Ret (stations_at (env w) (n_stations (cur w)))
               (set_cur (next_stations (cur w)) w).
Definition server_pending : M (option Request) :=
  fun w => Ret (request_at (env w) (n_request (cur w)))
               (set_cur (next_request (cur w)) w).

(** A call whose result the sketch drops. *)
Definition ignore {A} (m : M A) : M unit := _ <- m ;; ret tt.

(** ** Core functions *)

(** The polling loop of [connectToRouter] (lines 72-75):
    [for (i = 0; i < 20 && WiFi.status() != WL_CONNECTED; i++)].
    [n] is the number of iterations still allowed; the status is only
    asked while [i < 20]. *)
Fixpoint await_connection (n : nat) : M unit :=
  match n with
  | O => ret tt
  | S n' =>
      st <- WiFi_status ;;
      if is_WL_CONNECTED st then ret tt
      else delay 500 ;; Serial_print "." ;; await_connection n'
  end.

(** [connectToRouter] (lines 62-88). *)
Definition connectToRouter : M bool :=
  m <- WiFi_getMode ;;
  when (negb (is_WIFI_AP_STA m)) (WiFi_mode WIFI_AP_STA ;; delay 100) ;;
  WiFi_begin MAIN_SSID MAIN_PASS ;;
  Serial_print "Connecting to router" ;;
  await_connection 20 ;;
  st <- WiFi_status ;;
  if is_WL_CONNECTED st then
    modify (with_stationOK true) ;;
    Serial_println " OK!" ;;
    Serial_print "IP: " ;;
    Serial_println_value ;;
    ret true
  else
    modify (with_stationOK false) ;;
    Serial_println " FAILED!" ;;
    ret false.

(** [startAccessPoint] (lines 90-117). *)
Definition startAccessPoint : M bool :=
  WiFi_mode WIFI_AP_STA ;;
  cfg <- WiFi_softAPConfig ;;
  if negb cfg then Serial_println "AP config failed" ;; ret false
  else
    ap <- WiFi_softAP AP_SSID AP_PASS 6 false 4 ;;
    if negb ap then Serial_println "AP start failed" ;; ret false
    else
      delay 1000 ;;
      emit EvSetDns ;;
      Serial_print "AP started: " ;;
      Serial_println AP_SSID ;;
      Serial_print "AP IP: " ;;
      Serial_println_value ;;
      Serial_println "AP is visible and ready for connections" ;;
      Serial_println "DNS configured for Android compatibility" ;;
      ret true.

(** The condition [ip_napt_init(a, b) == ERR_OK &&
    ip_napt_enable_no(SOFTAP_IF, 1) == ERR_OK] of lines 125 and 134:
    the table is only enabled when its initialisation succeeded. *)
Definition napt_init_and_enable (max_nat max_portmap : Z) : M bool :=
  r <- ip_napt_init max_nat max_portmap ;;
  if r =? ERR_OK then
    e <- ip_napt_enable_no 1 ;;
    ret (e =? ERR_OK)
  else ret false.

(** [enableNAPT] (lines 119-142). *)
Definition enableNAPT : M bool :=
  st <- gets stationOK ;;
  if negb st then ret false
  else
    delay 500 ;;
    ok <- napt_init_and_enable 300 5 ;;
    if ok then
      modify (with_naptOK true) ;;
      Serial_println "Internet sharing enabled (memory optimized)" ;;
      ret true
    else
      modify (with_naptOK false) ;;
      Serial_println "NAPT failed - trying minimal config..." ;;
      delay 1000 ;;
      ok2 <- napt_init_and_enable 200 3 ;;
      if ok2 then
        modify (with_naptOK true) ;;
        Serial_println "Internet sharing enabled (minimal config)" ;;
        ret true
      else
        Serial_println "NAPT initialization failed completely" ;;
        ret false.

(** The endpoints of the reachability probe (lines 154-155). *)
Definition testServers : list string :=
  ["8.8.8.8"; "1.1.1.1"; "google.com"]%string.
Definition testPorts : list Z := [53; 53; 80].

(** The loop of [testInternet] (lines 157-165): [true] when it left
    through the [return true] of a successful connect, [false] when it
    ran off the end of the endpoint list. *)
Fixpoint try_servers (endpoints : list (string * Z)) : M bool :=
  match endpoints with
  | [] => ret false
  | (host, port) :: rest =>
      ok <- client_connect host port ;;
      if ok then
        client_stop ;;
        modify (with_internetOK true) ;;
        Serial_printf "Internet test OK (via %s)\n" ;;
        ret true
      else
        delay 1000 ;;
        try_servers rest
  end.

(** [testInternet] (lines 144-170). *)
Definition testInternet : M bool :=
  st <- gets stationOK ;;
  na <- gets naptOK ;;
  if negb st || negb na then
    modify (with_internetOK false) ;;
    ret false
  else
    client_setTimeout 5000 ;;
    found <- try_servers (combine testServers testPorts) ;;
    if found then ret true
    else
      modify (with_internetOK false) ;;
      Serial_println "Internet test failed on all servers" ;;
      ret false.

(** [connectionWatchdog] (lines 172-199). *)
Definition connectionWatchdog : M unit :=
  st <- WiFi_status ;;
  if negb (is_WL_CONNECTED st) then
    modify_static (fun s => with_failCount (wrap_int32 (failCount s + 1)) s) ;;
    modify (with_stationOK false) ;;
    modify (with_naptOK false) ;;
    modify (with_internetOK false) ;;
    fc <- gets_static failCount ;;
    when (fc >=? 3)
      (Serial_printf "Connection watchdog: %d failures, forcing reconnect\n" ;;
       WiFi_disconnect ;;
       delay 1000 ;;
       ignore connectToRouter ;;
       st' <- gets stationOK ;;
       when st' (ignore enableNAPT) ;;
       modify_static (with_failCount 0) ;;
       modify (fun g => with_reconnectCount (wrap_int32 (reconnectCount g + 1)) g))
  else
    modify_static (with_failCount 0) ;;
    st' <- gets stationOK ;;
    when (negb st')
      (modify (with_stationOK true) ;;
       na <- gets naptOK ;;
       when (negb na) (ignore enableNAPT)).

(** The three literals of [checkMemory]: the trigger of the cleanup
    (line 205), the bound a reading must exceed for NAPT to be re-enabled
    (line 220) and the bound below which the chip restarts (line 226). *)
Definition LOW_MEMORY : Z := 8000.
Definition REENABLE_MEMORY : Z := 6000.
Definition CRITICAL_MEMORY : Z := 4000.

(** [checkMemory] (lines 201-231).  [freeHeap] is an [int]; the two later
    readings are compared as [uint32_t]. *)
Definition checkMemory : M unit :=
  h <- ESP_getFreeHeap ;;
  let freeHeap := wrap_int32 h in
  when (freeHeap <? LOW_MEMORY)
    (Serial_printf "Low memory: %d bytes - aggressive cleanup\n" ;;
     na <- gets naptOK ;;
     when na
       (Serial_println "Disabling NAPT to free memory" ;;
        modify (with_naptOK false) ;;
        delay 1000) ;;
     yield ;;
     delay 100 ;;
     st <- gets stationOK ;;
     na' <- gets naptOK ;;
     when (st && negb na')
       (h2 <- ESP_getFreeHeap ;;
        when (h2 >? REENABLE_MEMORY)
          (Serial_println "Re-enabling NAPT with minimal memory" ;;
           ignore enableNAPT)) ;;
     h3 <- ESP_getFreeHeap ;;
     when (h3 <? CRITICAL_MEMORY)
       (Serial_println "Critical memory - emergency restart" ;;
        ESP_restart)).

(** [checkAPStatus] (lines 233-250). *)
Definition checkAPStatus : M unit :=
  m <- WiFi_getMode ;;
  when (negb (is_WIFI_AP_STA m))
    (Serial_println "AP mode lost - restarting AP" ;;
     WiFi_mode WIFI_AP_STA ;;
     delay 100 ;;
     ignore startAccessPoint ;;
     st <- WiFi_status ;;
     when (negb (is_WL_CONNECTED st))
       (Serial_println "Router connection lost - reconnecting" ;;
        ignore connectToRouter ;;
        ok <- gets stationOK ;;
        when ok (ignore enableNAPT))).

(** One arm of [updateLED]: toggle the LED when more than [period]
    milliseconds passed since the last toggle (lines 262-266, 269-273 and
    276-280 differ only in the period). *)
Definition blink_every (period now : Z) : M unit :=
  lb <- gets_static lastBlink ;;
  when (usub now lb >? period)
    (modify_static (fun s => with_ledState (negb (ledState s)) s) ;;
     ls <- gets_static ledState ;;
     digitalWrite (if ls then LOW else HIGH) ;;
     modify_static (with_lastBlink now)).

(** [updateLED] (lines 252-282). *)
Definition updateLED : M unit :=
  now <- millis ;;
  st <- gets stationOK ;;
  na <- gets naptOK ;;
  io <- gets internetOK ;;
  if st && na && io then digitalWrite LOW
  else if st && na then blink_every 1000 now
  else if st then blink_every 300 now
  else blink_every 100 now.

(** ** Web interface *)

(** [String(n)] of an integer: its decimal digits. *)
Definition String_of_int (n : Z) : string := NilZero.string_of_int (Z.to_int n).

(** [handleRoot] (lines 288-321). *)
Definition handleRoot : M unit :=
  let html := "<!DOCTYPE html><html><head><meta charset='UTF-8'><meta name='viewport' content='width=device-width,initial-scale=1'><meta http-equiv='refresh' content='30'><title>WiFi Extender</title>"%string in
  let html := append html "<style>body{font-family:Arial;margin:20px;background:#f0f0f0}.info{background:white;padding:15px;margin:10px 0;border-radius:5px}" in
  let html := append html ".ok{background:#d4f4dd;color:#0f5132}.error{background:#f8d7da;color:#721c24}.warning{background:#fff3cd;color:#856404}</style></head><body>" in
  let html := append html "<h1>WiFi Extender</h1>" in
  st <- gets stationOK ;;
  na <- gets naptOK ;;
  io <- gets internetOK ;;
  let html :=
    if st && na && io then append html "<div class='info ok'>✅ Internet Working</div>"
    else if st && na then append html "<div class='info warning'>⚡ Testing Internet</div>"
    else append html "<div class='info error'>❌ No Connection</div>" in
  let html := append html "<div class='info'><strong>Network:</strong> " in
  let html := append html AP_SSID in
  let html := append html "<br><strong>Password:</strong> " in
  let html := append html AP_PASS in
  let html := append html "<br><strong>Clients:</strong> " in
  clients <- WiFi_softAPgetStationNum ;;
  let html := append html (String_of_int clients) in
  let html := append html "<br><strong>Memory:</strong> " in
  heap <- ESP_getFreeHeap ;;
  let html := append html (String_of_int heap) in
  let html := append html " bytes<br><strong>Router:</strong> " in
  let html := append html (if st then "Connected" else "Disconnected") in
  let html := append html "</div>" in
  let html := append html "<div class='info'><strong>LED:</strong><br>Solid=Working, Slow blink=No internet, Fast=Connecting</div>" in
  let html := append html "</body></html>" in
  server_send 200 "text/html" html.

(** [handleNotFound] (lines 323-325). *)
Definition handleNotFound : M unit :=
  server_send 404 "text/plain" "Not found".

(** [server.handleClient()] with the routes [setup] registers (lines
    375-376): a waiting request for ["/"] runs [handleRoot], one for any
    other path runs [handleNotFound]. *)
Definition server_handleClient : M unit :=
  r <- server_pending ;;
  match r with
  | None => ret tt
  | Some GetRoot => handleRoot
  | Some GetOther => handleNotFound
  end.

(** ** Main functions *)

(** [setup] (lines 331-383).  [MAIN_SSID] is the empty string, so the
    credentials warning of lines 342-344 is not printed. *)
Definition setup : M unit :=
  emit (EvSerialBegin 115200) ;;
  delay 100 ;;
  Serial_println "\nWiFi Range Extender - Memory Optimized" ;;
  Serial_println "======================================" ;;
  now <- millis ;;
  modify (with_bootTime now) ;;
  emit EvPinMode ;;
  digitalWrite HIGH ;;
  when (String.eqb MAIN_SSID "YOUR_ROUTER_SSID")
    (Serial_println "⚠️ Update WiFi credentials in code!") ;;
  emit (EvWiFiSetup "persistent(false)") ;;
  emit (EvWiFiSetup "setAutoReconnect(true)") ;;
  emit (EvWiFiSetup "setSleepMode(WIFI_NONE_SLEEP)") ;;
  emit (EvWiFiSetup "setPhyMode(WIFI_PHY_MODE_11G)") ;;
  Serial_println "Starting Access Point..." ;;
  ap <- startAccessPoint ;;
  if negb ap then Serial_println "CRITICAL: AP failed!"
  else
    ignore WiFi_softAPgetStationNum ;;
    Serial_printf "AP Status: %s\n" ;;
    Serial_printf "AP MAC: %s\n" ;;
    Serial_println "Connecting to main router..." ;;
    ignore connectToRouter ;;
    st <- gets stationOK ;;
    (if st then ignore enableNAPT
     else Serial_println "Running in AP-only mode (no internet sharing)") ;;
    emit EvServerBegin ;;
    Serial_println "Setup complete!" ;;
    Serial_printf "Connect to: %s (password: %s)\n" ;;
    Serial_printf "Web interface: http://%s/\n" ;;
    Serial_println "======================================".

(** The periodic tasks of [loop] (the body of the [if] of lines
    404-430), run when the status timer fires with the clock at [now]. *)
Definition statusCycle (now : Z) : M unit :=
  modify (with_lastCheck now) ;;
  checkAPStatus ;;
  st <- gets stationOK ;;
  na <- gets naptOK ;;
  when (st && na) (ignore testInternet) ;;
  ignore WiFi_softAPgetStationNum ;;
  ignore ESP_getFreeHeap ;;
  Serial_printf "Status: Router=%s NAPT=%s Internet=%s Clients=%d Memory=%d Reconnects=%d\n" ;;
  rc <- gets reconnectCount ;;
  when (rc >? 10)
    (Serial_println "Too many reconnects - emergency restart" ;;
     delay 1000 ;;
     ESP_restart).

(** [loop] (lines 385-440). *)
Definition loop : M unit :=
  server_handleClient ;;
  updateLED ;;
  now <- millis ;;
  lw <- gets lastWatchdog ;;
  when (usub now lw >? CONNECTION_WATCHDOG)
    (connectionWatchdog ;;
     modify (with_lastWatchdog now)) ;;
  lm <- gets lastMemoryCheck ;;
  when (usub now lm >? 10000)
    (checkMemory ;;
     modify (with_lastMemoryCheck now)) ;;
  lc <- gets lastCheck ;;
  when (usub now lc >? STATUS_INTERVAL) (statusCycle now) ;;
  bt <- gets bootTime ;;
  when (usub now bt >? REBOOT_INTERVAL)
    (Serial_println "12-hour maintenance reboot..." ;;
     delay 1000 ;;
     ESP_restart) ;;
  yield.

(** The world at power-up, before [setup]: the initialisers of lines
    49-56 and of the statics, nothing asked of the outside world yet. *)
Definition boot (e : Env) : World :=
  mkWorld (mkGlobals false false false 0 0 0 0 0)
          (mkStatics 0 0 false)
          e
          (mkCursor 0 0 0 0 0 0 0 0 0 0 0)
          [].

(** [n] iterations of [loop]. *)
Fixpoint loops (n : nat) : M unit :=
  match n with
  | O => ret tt
  | S n' => loop ;; loops n'
  end.

(** * Observations and concrete worlds *)

(** ** Observing a run *)

(** The world a computation leaves behind, whether it returned or
    restarted the chip. *)
Definition after {A} (m : M A) (w : World) : World := world_of (m w).

(** The events a computation added to the trace of [w]. *)
Definition emitted {A} (m : M A) (w : World) : list Event :=
  skipn (List.length (trace w)) (trace (after m w)).

Definition is_disconnect (e : Event) : bool :=
  match e with EvWiFiDisconnect => true | _ => false end.
Definition is_begin (e : Event) : bool :=
  match e with EvWiFiBegin _ _ => true | _ => false end.
Definition is_restart (e : Event) : bool :=
  match e with EvRestart => true | _ => false end.

(** How many events of a list satisfy [p]. *)
Definition count (p : Event -> bool) (l : list Event) : nat :=
  List.length (filter p l).

(** The endpoints of the [client.connect] calls in a list of events. *)
Fixpoint connects (l : list Event) : list (string * Z) :=
  match l with
  | [] => []
  | EvClientConnect host port :: l' => (host, port) :: connects l'
  | _ :: l' => connects l'
  end.

(** Events that are neither a [WiFi.begin], nor a [WiFi.disconnect], nor
    a restart. *)
Definition calm (evs : list Event) : Prop :=
  count is_begin evs = 0%nat
  /\ count is_disconnect evs = 0%nat
  /\ count is_restart evs = 0%nat.

(** ** The forwarding subsystem *)

(** Whether lwIP accepts one NAPT configuration: the [i]-th
    [ip_napt_init] and the [j]-th [ip_napt_enable_no] both answer
    [ERR_OK]. *)
Definition napt_try (e : Env) (i j : nat) : bool :=
  (napt_init_at e i =? ERR_OK) && (napt_enable_at e j =? ERR_OK).

(** Whether [enableNAPT] gets forwarding up from cursor position
    [(i, j)]: with the primary configuration, or else with the reduced
    one. *)
Definition napt_accepts (e : Env) (i j : nat) : bool :=
  napt_try e i j
  || napt_try e (S i) (if napt_init_at e i =? ERR_OK then S j else j).

(** ** The memory guard *)

(** The [i]-th free-heap reading taken from world [w] on, as the
    [uint32_t] that [ESP.getFreeHeap()] returns. *)
Definition reading (w : World) (i : nat) : Z :=
  wrap_uint32 (heap_at (env w) (n_heap (cur w) + i)).

(** Whether the cycle of [checkMemory] started in [w] reaches the
    re-enable call of line 222: the link flag is up and the reading taken
    after the settle delay exceeds [REENABLE_MEMORY]. *)
Definition retries_napt (w : World) : bool :=
  stationOK (glob w) && (reading w 1 >? REENABLE_MEMORY).

(** The reading line 226 compares against [CRITICAL_MEMORY]: the third
    of the cycle when line 220 took one, else the second. *)
Definition final_reading (w : World) : Z :=
  reading w (if stationOK (glob w) then 2 else 1).

(** What the cycle emits when it sheds forwarding (lines 210-212). *)
Definition shed_events (w : World) : list Event :=
  if naptOK (glob w)
  then [EvSerial "Disabling NAPT to free memory"; EvDelay 1000]
  else [].

(** What the cycle emits when it ends in a restart (lines 227-228). *)
Definition restart_events (w : World) : list Event :=
  if final_reading w <? CRITICAL_MEMORY
  then [EvSerial "Critical memory - emergency restart"; EvRestart]
  else [].

(** ** The link watchdog and the status cycle *)

(** The link driver answers the watchdog's next [WiFi.status()] with
    something other than [WL_CONNECTED]. *)
Definition link_down (w : World) : Prop :=
  is_WL_CONNECTED (wifi_status_at (env w) (n_status (cur w))) = false.

(** What the watchdog's own counters are in [w'] is what they were in
    [w]: anything may have run in between that leaves [failCount] (a
    static of [connectionWatchdog]) and [reconnectCount] alone. *)
Definition carries_counters (w w' : World) : Prop :=
  failCount (stat w') = failCount (stat w)
  /\ reconnectCount (glob w') = reconnectCount (glob w).

(** The timestamps and [reconnectCount]: the globals that only [setup],
    [loop] and the watchdog's forced reconnect write. *)
Definition bookkeeping (g : Globals) : Z * Z * Z * Z * Z :=
  (lastCheck g, lastWatchdog g, lastMemoryCheck g, bootTime g, reconnectCount g).

(** The four timestamps alone. *)
Definition timers (g : Globals) : Z * Z * Z * Z :=
  (lastCheck g, lastWatchdog g, lastMemoryCheck g, bootTime g).

(** ** The flag hierarchy

    [naptOK] should imply [stationOK], and [internetOK] should imply
    [naptOK]. *)

Definition forwarding_needs_link (g : Globals) : Prop :=
  naptOK g = true -> stationOK g = true.
Definition reachable_needs_forwarding (g : Globals) : Prop :=
  internetOK g = true -> naptOK g = true.

(** ** Concrete worlds *)

(** A stream of answers given by its first few values. *)
Definition answers {A} (l : list A) (d : A) : nat -> A := fun n => nth n l d.

(** An outside world in which everything works: the link is up, the
    mode is kept, lwIP accepts NAPT, 40000 bytes are free, every endpoint
    connects, no HTTP request arrives.  The other environments differ
    from it in the streams named in their definitions. *)
Definition healthy_env : Env :=
  mkEnv (fun _ => WL_CONNECTED) (fun _ => WIFI_AP_STA) (fun _ => true)
        (fun _ => true) (fun _ => ERR_OK) (fun _ => ERR_OK) (fun _ => 40000)
        (fun _ => true) (fun _ => 0) (fun _ => 0) (fun _ => None).

Definition env_with_heap (heap : nat -> Z) : Env :=
  mkEnv (fun _ => WL_CONNECTED) (fun _ => WIFI_AP_STA) (fun _ => true)
        (fun _ => true) (fun _ => ERR_OK) (fun _ => ERR_OK) heap
        (fun _ => true) (fun _ => 0) (fun _ => 0) (fun _ => None).

Definition env_with_connects (conn : nat -> bool) : Env :=
  mkEnv (fun _ => WL_CONNECTED) (fun _ => WIFI_AP_STA) (fun _ => true)
        (fun _ => true) (fun _ => ERR_OK) (fun _ => ERR_OK) (fun _ => 40000)
        conn (fun _ => 0) (fun _ => 0) (fun _ => None).

(** The link is gone and stays gone. *)
Definition env_link_lost : Env :=
  mkEnv (fun _ => WL_DISCONNECTED) (fun _ => WIFI_AP_STA) (fun _ => true)
        (fun _ => true) (fun _ => ERR_OK) (fun _ => ERR_OK) (fun _ => 40000)
        (fun _ => true) (fun _ => 0) (fun _ => 0) (fun _ => None).

(** A world with the given flags in which nothing has been asked or
    called yet and every counter and timestamp is 0. *)
Definition world_with (st na io : bool) (e : Env) : World :=
  mkWorld (mkGlobals st na io 0 0 0 0 0) (mkStatics 0 0 false) e
          (mkCursor 0 0 0 0 0 0 0 0 0 0 0) [].

(** Boot to a memory dip.  [setup] succeeds at 100 ms; the first [loop]
    iteration, at 31 s, finds the internet reachable; the second, at
    42 s, reads 7000 free bytes, then 5000 after shedding NAPT, then 5000
    again; the third, at 73 s, runs the next status cycle. *)
Definition env_memory_dip : Env :=
  mkEnv (fun _ => WL_CONNECTED) (fun _ => WIFI_AP_STA) (fun _ => true)
        (fun _ => true) (fun _ => ERR_OK) (fun _ => ERR_OK)
        (answers [40000; 40000; 7000; 5000; 5000] 40000)
        (fun _ => true)
        (answers [100; 200; 31000; 31100; 42000; 42100; 73000] 73000)
        (fun _ => 0) (fun _ => None).

(** Boot to a lost mode and a lost link.  [setup] succeeds at 100 ms; the
    first [loop] iteration, at 31 s, still finds the link up in the
    watchdog, then finds the WiFi mode changed in [checkAPStatus], and from
    then on the link driver reports [WL_DISCONNECTED]. *)
Definition env_mode_lost : Env :=
  mkEnv (answers [WL_CONNECTED; WL_CONNECTED; WL_CONNECTED] WL_DISCONNECTED)
        (answers [WIFI_AP_STA; WIFI_STA] WIFI_AP_STA)
        (fun _ => true) (fun _ => true) (fun _ => ERR_OK) (fun _ => ERR_OK)
        (fun _ => 40000) (fun _ => true)
        (answers [100; 200; 31000] 31000)
        (fun _ => 0) (fun _ => None).

(** The link and the mode are both lost as [checkAPStatus] runs. *)
Definition env_mode_and_link_lost : Env :=
  mkEnv (fun _ => WL_DISCONNECTED) (answers [WIFI_STA] WIFI_AP_STA)
        (fun _ => true) (fun _ => true) (fun _ => ERR_OK) (fun _ => ERR_OK)
        (fun _ => 40000) (fun _ => true) (fun _ => 0) (fun _ => 0)
        (fun _ => None).

(** All flags up; the heap dips to 7000 and stays at 5000 after
    forwarding is shed. *)
Definition world_memory_dip : World :=
  world_with true true true (env_with_heap (answers [7000; 5000; 5000] 40000)).

(** All flags up; the mode and the link are lost. *)
Definition world_mode_lost : World :=
  world_with true true true env_mode_and_link_lost.

(** All flags up; the first reading is 3000, the readings after
    forwarding is shed are 5000. *)
Definition world_emergency_recovers : World :=
  world_with true true true (env_with_heap (answers [3000; 5000; 5000] 40000)).

(** Link and forwarding up; one cycle reads 7000, 5000, 5000, the next
    reads 9000. *)
Definition world_shed_then_healthy : World :=
  world_with true true false
             (env_with_heap (answers [7000; 5000; 5000; 9000] 40000)).

(** Link and forwarding up; every reading is 7000. *)
Definition world_between_bounds : World :=
  world_with true true false (env_with_heap (fun _ => 7000)).

(** Link and forwarding up; a cycle reads 7000, then 7500. *)
Definition world_low_memory : World :=
  world_with true true false (env_with_heap (answers [7000; 7500; 7500] 40000)).

(** Link and forwarding up; the first endpoint refuses, the second
    connects. *)
Definition world_second_endpoint : World :=
  world_with true true false (env_with_connects (answers [false; true] true)).

(** All flags up; the link is gone and stays gone. *)
Definition world_link_lost : World :=
  world_with true true true env_link_lost.

(** A call to the forwarding subsystem of lwIP. *)
Definition is_napt_call (e : Event) : bool :=
  match e with
  | EvNaptInit _ _ => true
  | EvNaptEnable _ => true
  | _ => false
  end.

(** Boot to a memory dip that passes.  [setup] succeeds at 100 ms; the
    first [loop] iteration, at 31 s, finds the internet reachable; the
    second, at 42 s, reads 7000 free bytes, then 5000 after shedding NAPT,
    then 5000 again; from then on the heap reads 40000 and the link stays
    up: the third iteration, at 53 s, and the fourth, at 64 s, run the
    watchdog and the memory check, the fourth the status cycle too. *)
Definition env_memory_recovers : Env :=
  mkEnv (fun _ => WL_CONNECTED) (fun _ => WIFI_AP_STA) (fun _ => true)
        (fun _ => true) (fun _ => ERR_OK) (fun _ => ERR_OK)
        (answers [40000; 40000; 7000; 5000; 5000] 40000)
        (fun _ => true)
        (answers [100; 200; 31000; 31100; 42000; 42100; 53000; 53100;
                  64000; 64100] 64100)
        (fun _ => 0) (fun _ => None).

(** ** Frames and invariants *)

(** [m] relates every world it is run in to the world it leaves behind,
    on return and on restart alike, by [R]. *)
Definition within (R : World -> World -> Prop) {A} (m : M A) : Prop :=
  forall w : World, R w (after m w).

(** Nothing but the cursor and the trace differs. *)
Definition only_io (w w' : World) : Prop :=
  glob w' = glob w /\ stat w' = stat w /\ env w' = env w.

(** Nothing but the three flags, the cursor and the trace differs. *)
Definition only_flags (w w' : World) : Prop :=
  bookkeeping (glob w') = bookkeeping (glob w)
  /\ stat w' = stat w
  /\ env w' = env w.

(** The timestamps and the blink phase are the same: what the watchdog
    leaves alone. *)
Definition watchdog_frame (w w' : World) : Prop :=
  timers (glob w') = timers (glob w)
  /\ lastBlink (stat w') = lastBlink (stat w)
  /\ ledState (stat w') = ledState (stat w)
  /\ env w' = env w.

(** Everything but the three flags and [lastCheck] is the same: what the
    status cycle leaves alone. *)
Definition status_frame (w w' : World) : Prop :=
  lastWatchdog (glob w') = lastWatchdog (glob w)
  /\ lastMemoryCheck (glob w') = lastMemoryCheck (glob w)
  /\ bootTime (glob w') = bootTime (glob w)
  /\ reconnectCount (glob w') = reconnectCount (glob w)
  /\ stat w' = stat w
  /\ env w' = env w.

(** [bootTime] is the same: what [loop] leaves alone. *)
Definition boot_frame (w w' : World) : Prop :=
  bootTime (glob w') = bootTime (glob w) /\ env w' = env w.

(** The miss counter of the watchdog is 0, 1 or 2. *)
Definition failCount_in_range (w : World) : Prop :=
  0 <= failCount (stat w) <= 2.

(** [P] survives: what a computation keeps when it holds before. *)
Definition kept (P : World -> Prop) (w w' : World) : Prop := P w -> P w'.

(** The milliseconds a list of events spends in [delay]. *)
Fixpoint total_delay (l : list Event) : Z :=
  match l with
  | [] => 0
  | EvDelay ms :: l' => ms + total_delay l'
  | _ :: l' => total_delay l'
  end.

Definition is_server_begin (e : Event) : bool :=
  match e with EvServerBegin => true | _ => false end.

(** Whether the access point comes up from world [w]: the next
    [WiFi.softAPConfig] and the next [WiFi.softAP] both succeed. *)
Definition access_point_starts (w : World) : bool :=
  softAPConfig_at (env w) (n_softAPConfig (cur w))
  && softAP_at (env w) (n_softAP (cur w)).

(** The trace only grows, and only by events that satisfy [p]. *)
Definition emits_only (p : Event -> bool) (w w' : World) : Prop :=
  exists evs : list Event, trace w' = trace w ++ evs /\ forallb p evs = true.

(** Neither [ESP.restart()], nor [WiFi.disconnect()], nor the start of
    the web server. *)
Definition plain (e : Event) : bool :=
  negb (is_restart e) && negb (is_disconnect e) && negb (is_server_begin e).

(** The clock reading a [loop] iteration started in [w] works with: the
    second [millis()] of the iteration (the first is [updateLED]'s). *)
Definition loop_clock (w : World) : Z :=
  wrap_uint32 (millis_at (env w) (S (n_millis (cur w)))).

(** Ready to run the status cycle with [reconnectCount] at 11: the clock
    reads 31 s. *)
Definition world_over_ceiling : World :=
  mkWorld (mkGlobals true true false 0 0 0 0 11) (mkStatics 0 0 false)
          (mkEnv (fun _ => WL_CONNECTED) (fun _ => WIFI_AP_STA) (fun _ => true)
                 (fun _ => true) (fun _ => ERR_OK) (fun _ => ERR_OK)
                 (fun _ => 40000) (fun _ => true) (answers [31000; 31000] 31000)
                 (fun _ => 0) (fun _ => None))
          (mkCursor 0 0 0 0 0 0 0 0 0 0 0) [].

(** Healthy in every respect, 12 hours and one second after boot. *)
Definition world_half_day : World :=
  mkWorld (mkGlobals true true true 43195000 43195000 43195000 0 0)
          (mkStatics 0 0 false)
          (mkEnv (fun _ => WL_CONNECTED) (fun _ => WIFI_AP_STA) (fun _ => true)
                 (fun _ => true) (fun _ => ERR_OK) (fun _ => ERR_OK)
                 (fun _ => 40000) (fun _ => true) (fun _ => 43201000)
                 (fun _ => 0) (fun _ => None))
          (mkCursor 0 0 0 0 0 0 0 0 0 0 0) [].

(** ** Connecting *)

(** How many of the next [n] answers to [WiFi.status()], from the
    [i]-th on, are not [WL_CONNECTED] before the first that is. *)
Fixpoint misses (e : Env) (i n : nat) : nat :=
  match n with
  | O => O
  | S n' =>
      if is_WL_CONNECTED (wifi_status_at e i) then O
      else S (misses e (S i) n')
  end.

(** How many times the polling loop of [connectToRouter] asks for the
    status when it may iterate [n] times: once per miss and once more for
    the answer that ends the loop, but never more than [n] times. *)
Definition polls (e : Env) (i n : nat) : nat := Nat.min (S (misses e i n)) n.

(** The cursor after [k] more status answers were consumed. *)
Definition advance_status (k : nat) (c : Cursor) : Cursor :=
  mkCursor (n_status c + k) (n_mode c) (n_softAPConfig c) (n_softAP c)
           (n_napt_init c) (n_napt_enable c) (n_heap c) (n_connect c)
           (n_millis c) (n_stations c) (n_request c).

(** The link comes up at the third poll. *)
Definition world_connects_slowly : World :=
  mkWorld (mkGlobals false false false 0 0 0 0 0) (mkStatics 0 0 false)
          (mkEnv (answers [WL_DISCONNECTED; WL_IDLE_STATUS] WL_CONNECTED)
                 (fun _ => WIFI_STA) (fun _ => true)
                 (fun _ => true) (fun _ => ERR_OK) (fun _ => ERR_OK)
                 (fun _ => 40000) (fun _ => true) (fun _ => 0)
                 (fun _ => 0) (fun _ => None))
          (mkCursor 0 0 0 0 0 0 0 0 0 0 0) [].

(** The reduced NAPT configuration of line 134. *)
Definition is_reduced_napt_init (e : Event) : bool :=
  match e with
  | EvNaptInit max_nat max_portmap => (max_nat =? 200) && (max_portmap =? 3)
  | _ => false
  end.

Definition is_softAP (e : Event) : bool :=
  match e with EvSoftAP _ _ _ _ _ => true | _ => false end.

(** The link driver answers the watchdog's next [WiFi.status()] with
    [WL_CONNECTED]. *)
Definition link_up (w : World) : Prop :=
  is_WL_CONNECTED (wifi_status_at (env w) (n_status (cur w))) = true.

(** All flags up; the link is reported down twice, then up again. *)
Definition world_link_flaps : World :=
  world_with true true true
    (mkEnv (answers [WL_DISCONNECTED; WL_CONNECTION_LOST] WL_CONNECTED)
           (fun _ => WIFI_AP_STA) (fun _ => true) (fun _ => true)
           (fun _ => ERR_OK) (fun _ => ERR_OK) (fun _ => 40000)
           (fun _ => true) (fun _ => 0) (fun _ => 0) (fun _ => None)).

(** ** The indicator *)

(** The blink period the flags select in [updateLED]; [None] is the
    solid light of the fully working state. *)
Definition blink_period (g : Globals) : option Z :=
  if stationOK g && naptOK g && internetOK g then None
  else if stationOK g && naptOK g then Some 1000
  else if stationOK g then Some 300
  else Some 100.

(** The clock reading [updateLED] takes in [w]. *)
Definition led_clock (w : World) : Z :=
  wrap_uint32 (millis_at (env w) (n_millis (cur w))).

(** ** The status page *)

(** The fixed opening of the page (lines 290-293). *)
Definition page_head : string :=
  append (append (append
    "<!DOCTYPE html><html><head><meta charset='UTF-8'><meta name='viewport' content='width=device-width,initial-scale=1'><meta http-equiv='refresh' content='30'><title>WiFi Extender</title>"
    "<style>body{font-family:Arial;margin:20px;background:#f0f0f0}.info{background:white;padding:15px;margin:10px 0;border-radius:5px}")
    ".ok{background:#d4f4dd;color:#0f5132}.error{background:#f8d7da;color:#721c24}.warning{background:#fff3cd;color:#856404}</style></head><body>")
    "<h1>WiFi Extender</h1>".

(** The banner the flags select (lines 296-302). *)
Definition status_banner (g : Globals) : string :=
  if stationOK g && naptOK g && internetOK g
  then "<div class='info ok'>✅ Internet Working</div>"
  else if stationOK g && naptOK g
  then "<div class='info warning'>⚡ Testing Internet</div>"
  else "<div class='info error'>❌ No Connection</div>".

(** A request for the status page is waiting. *)
Definition world_page_requested : World :=
  world_with true true true
    (mkEnv (fun _ => WL_CONNECTED) (fun _ => WIFI_AP_STA) (fun _ => true)
           (fun _ => true) (fun _ => ERR_OK) (fun _ => ERR_OK)
           (fun _ => 40000) (fun _ => true) (fun _ => 0) (fun _ => 2)
           (answers [Some GetRoot; Some GetOther] None)).

(** Power-up with an access point that cannot be configured. *)
Definition env_no_access_point : Env :=
  mkEnv (fun _ => WL_CONNECTED) (fun _ => WIFI_AP_STA) (fun _ => false)
        (fun _ => true) (fun _ => ERR_OK) (fun _ => ERR_OK) (fun _ => 40000)
        (fun _ => true) (fun _ => 0) (fun _ => 0) (fun _ => None).

(** [lastWatchdog] is the same. *)
Definition lastWatchdog_frame (w w' : World) : Prop :=
  lastWatchdog (glob w') = lastWatchdog (glob w).

(** Healthy, with every timer last fired at 5 s and the clock at 6 s. *)
Definition world_idle : World :=
  mkWorld (mkGlobals true true true 5000 5000 5000 0 0) (mkStatics 0 5900 false)
          (mkEnv (fun _ => WL_CONNECTED) (fun _ => WIFI_AP_STA) (fun _ => true)
                 (fun _ => true) (fun _ => ERR_OK) (fun _ => ERR_OK)
                 (fun _ => 40000) (fun _ => true) (fun _ => 6000)
                 (fun _ => 0) (fun _ => None))
          (mkCursor 0 0 0 0 0 0 0 0 0 0 0) [].

(** The clock has wrapped: the watchdog last ran 5 s before the 32-bit
    counter overflowed, and the clock now reads 7 s after it. *)
Definition world_clock_wrapped : World :=
  mkWorld (mkGlobals true true true 4294962296 4294962296 4294962296 0 0)
          (mkStatics 0 0 false)
          (mkEnv (fun _ => WL_CONNECTED) (fun _ => WIFI_AP_STA) (fun _ => true)
                 (fun _ => true) (fun _ => ERR_OK) (fun _ => ERR_OK)
                 (fun _ => 40000) (fun _ => true) (fun _ => 7000)
                 (fun _ => 0) (fun _ => None))
          (mkCursor 0 0 0 0 0 0 0 0 0 0 0) [].

(** Anything but the start of the web server. *)
Definition no_server_begin (e : Event) : bool := negb (is_server_begin e).

(** [reconnectCount] is the same. *)
Definition reconnectCount_frame (w w' : World) : Prop :=
  reconnectCount (glob w') = reconnectCount (glob w).

(** The calls one attempt at a NAPT configuration makes (lines 125 and
    134): [ip_napt_init], and [ip_napt_enable_no] only when the
    initialisation answered [ERR_OK]. *)
Definition napt_calls (max_nat max_portmap init_answer : Z) : list Event :=
  EvNaptInit max_nat max_portmap
  :: (if init_answer =? ERR_OK then [EvNaptEnable 1] else []).

(** * Properties *)

(** ** Lists and machine integers *)

Lemma count_app p l1 l2 : count p (l1 ++ l2) = (count p l1 + count p l2)%nat.
Proof. unfold count. now rewrite filter_app, length_app. Qed.

Lemma skipn_length_app {A} (l1 l2 : list A) :
  skipn (List.length l1) (l1 ++ l2) = l2.
Proof. induction l1 as [|x l1 IH]; simpl; auto. Qed.

Lemma skipn_length_same {A} (l : list A) : skipn (List.length l) l = [].
Proof. induction l as [|x l IH]; simpl; auto. Qed.

(** Wrapping does nothing to a value that is already in range. *)
Lemma wrap_int32_small z : INT_MIN <= z <= INT_MAX -> wrap_int32 z = z.
Proof.
  unfold wrap_int32, INT_MIN, INT_MAX. intros H.
  rewrite Z.mod_small; lia.
Qed.

(** Unfolding of the monad and of the primitive calls, leaving the
    arithmetic and the strings alone. *)
Ltac run :=
  cbv beta iota zeta delta
      [bind ret when ignore gets modify gets_static modify_static emit
       Serial_print Serial_println Serial_printf Serial_println_value
       delay yield digitalWrite WiFi_mode WiFi_begin WiFi_disconnect
       client_setTimeout client_stop server_send ESP_restart
       WiFi_status WiFi_getMode WiFi_softAPConfig WiFi_softAP
       ip_napt_init ip_napt_enable_no ESP_getFreeHeap client_connect millis
       WiFi_softAPgetStationNum server_pending
       set_glob set_stat set_cur log
       with_stationOK with_naptOK with_internetOK with_lastCheck
       with_lastWatchdog with_lastMemoryCheck with_bootTime
       with_reconnectCount with_failCount with_lastBlink with_ledState
       next_status next_mode next_softAPConfig next_softAP next_napt_init
       next_napt_enable next_heap next_connect next_millis next_stations
       next_request after];
  cbn [glob stat env cur trace
       stationOK naptOK internetOK lastCheck lastWatchdog lastMemoryCheck
       bootTime reconnectCount failCount lastBlink ledState
       n_status n_mode n_softAPConfig n_softAP n_napt_init n_napt_enable
       n_heap n_connect n_millis n_stations n_request
       world_of restarted negb andb orb].

(** ** The forwarding subsystem *)

(** [enableNAPT] with the link flag down: nothing happens. *)
Lemma enableNAPT_link_down w :
  stationOK (glob w) = false -> enableNAPT w = Ret false w.
Proof. intros H. unfold enableNAPT. run. rewrite H. reflexivity. Qed.

(** [enableNAPT] with the link flag up: it returns, sets [naptOK] to what
    lwIP accepted, asks nothing but lwIP and touches nothing else. *)
Lemma enableNAPT_link_up w :
  stationOK (glob w) = true ->
  exists c evs,
    enableNAPT w =
      Ret (napt_accepts (env w) (n_napt_init (cur w)) (n_napt_enable (cur w)))
          (mkWorld
             (with_naptOK
                (napt_accepts (env w) (n_napt_init (cur w)) (n_napt_enable (cur w)))
                (glob w))
             (stat w) (env w) c (trace w ++ evs))
    /\ n_heap c = n_heap (cur w)
    /\ n_status c = n_status (cur w)
    /\ n_connect c = n_connect (cur w)
    /\ hd_error evs = Some (EvDelay 500)
    /\ nth_error evs 1 = Some (EvNaptInit 300 5)
    /\ count is_begin evs = 0%nat
    /\ count is_disconnect evs = 0%nat
    /\ count is_restart evs = 0%nat
    /\ connects evs = [].
Proof.
  intros H. destruct w as [g s e c t].
  destruct g as [st na io lc lw lm bt rc]. cbn in H. subst st.
  unfold enableNAPT, napt_accepts, napt_try, napt_init_and_enable. run.
  destruct (napt_init_at e (n_napt_init c) =? ERR_OK); run;
    [destruct (napt_enable_at e (n_napt_enable c) =? ERR_OK); run|];
    try (destruct (napt_init_at e (S (n_napt_init c)) =? ERR_OK); run;
         [match goal with
          | |- context [napt_enable_at e ?j =? ERR_OK] =>
              destruct (napt_enable_at e j =? ERR_OK)
          end; run|]);
    rewrite <- ?app_assoc; cbn [app];
    eexists; eexists; (split; [reflexivity|]); cbn; repeat split; reflexivity.
Qed.

(** ** The reachability probe *)

(** The probing loop over any list of endpoints: it returns, connects to
    a prefix of the list in order, and stops at the first endpoint that
    connects; only then does it set [internetOK]. *)
Lemma try_servers_prefix (endpoints : list (string * Z)) :
  forall w : World,
    exists (b : bool) (k : nat) (c : Cursor) (evs : list Event),
      try_servers endpoints w
      = Ret b (mkWorld (if b then with_internetOK true (glob w) else glob w)
                       (stat w) (env w) c (trace w ++ evs))
      /\ connects evs = firstn k endpoints
      /\ (k <= List.length endpoints)%nat
      /\ (b = false -> k = List.length endpoints)
      /\ n_connect c = (n_connect (cur w) + k)%nat.
Proof.
  induction endpoints as [|[host port] rest IH]; intros w.
  - exists false, 0%nat, (cur w), []. cbn [try_servers]. run.
    rewrite app_nil_r, Nat.add_0_r. destruct w. repeat split. cbn. lia.
  - cbn [try_servers]. run.
    destruct (connect_at (env w) (n_connect (cur w))); run.
    + exists true, 1%nat. eexists. eexists.
      rewrite <- ?app_assoc. cbn [app].
      split; [reflexivity|]. cbn. rewrite Nat.add_1_r.
      repeat split; try lia; discriminate.
    + match goal with
      | |- context [try_servers rest ?W] =>
          destruct (IH W) as (b & k & c & evs & E & H1 & H2 & H3 & H4)
      end.
      rewrite E. cbn [glob stat env cur trace n_connect] in *.
      exists b, (S k), c, ([EvClientConnect host port; EvDelay 1000] ++ evs).
      rewrite <- ?app_assoc. cbn [app].
      split; [reflexivity|]. cbn [connects firstn List.length].
      rewrite H1, H4. repeat split; try lia.
      intros Hb. rewrite (H3 Hb). reflexivity.
Qed.

(** The guard of lines 145-148. *)
Lemma testInternet_guard (w : World) :
  stationOK (glob w) = false \/ naptOK (glob w) = false ->
  testInternet w = Ret false (set_glob (with_internetOK false (glob w)) w).
Proof.
  intros H.
  destruct w as [g s e c t]. destruct g as [st na io lc lw lm bt rc].
  cbn in H. unfold testInternet. run.
  destruct H as [H | H]; subst; [|destruct st]; reflexivity.
Qed.

(** C10.  When the link flag or the forwarding flag is down,
    [testInternet] clears [internetOK] and returns [false]; the world is
    otherwise the one it was called in: no connect answer is consumed and
    no event, so no connection attempt, is added to the trace. *)
Theorem testInternet_without_prerequisites :
  forall w : World,
    stationOK (glob w) = false \/ naptOK (glob w) = false ->
    testInternet w = Ret false (set_glob (with_internetOK false (glob w)) w)
    /\ internetOK (glob (after testInternet w)) = false
    /\ emitted testInternet w = []
    /\ n_connect (cur (after testInternet w)) = n_connect (cur w).
Proof.
  intros w H. pose proof (testInternet_guard w H) as E.
  split; [exact E|].
  unfold emitted, after. rewrite E. run.
  repeat split. apply skipn_length_same.
Qed.

(** C7.  With both prerequisite flags up, [testInternet] connects to
    the first [k] endpoints of (8.8.8.8,53), (1.1.1.1,53), (google.com,80)
    in that order and to nothing else; every attempt before the [k]-th
    failed; when the [k]-th succeeds the probe stops there, sets
    [internetOK] and returns [true]; it returns [false], with [internetOK]
    cleared, only after all three failed. *)
Theorem testInternet_first_success_wins :
  forall w : World,
    stationOK (glob w) = true ->
    naptOK (glob w) = true ->
    let answer (i : nat) := connect_at (env w) (n_connect (cur w) + i) in
    exists (ok : bool) (k : nat) (w' : World),
      testInternet w = Ret ok w'
      /\ connects (emitted testInternet w)
         = firstn k [("8.8.8.8"%string, 53); ("1.1.1.1"%string, 53);
                     ("google.com"%string, 80)]
      /\ (1 <= k <= 3)%nat
      /\ (forall i : nat, (i + 1 < k)%nat -> answer i = false)
      /\ n_connect (cur w') = (n_connect (cur w) + k)%nat
      /\ internetOK (glob w') = ok
      /\ (ok = true -> answer (k - 1)%nat = true)
      /\ (ok = false -> k = 3%nat /\ answer 2%nat = false)
      /\ stationOK (glob w') = true
      /\ naptOK (glob w') = true.
Proof.
  intros w Hst Hna answer.
  assert (A0 : answer 0%nat = connect_at (env w) (n_connect (cur w)))
    by (unfold answer; now rewrite Nat.add_0_r).
  assert (A1 : answer 1%nat = connect_at (env w) (S (n_connect (cur w))))
    by (unfold answer; now rewrite Nat.add_1_r).
  assert (A2 : answer 2%nat = connect_at (env w) (S (S (n_connect (cur w)))))
    by (unfold answer; now rewrite Nat.add_succ_r, Nat.add_1_r).
  clearbody answer.
  destruct w as [g s e c t]. destruct g as [st na io lc lw lm bt rc].
  cbn in Hst, Hna, A0, A1, A2. subst st na.
  unfold emitted, testInternet, testServers, testPorts.
  cbn [combine try_servers]. run.
  assert (Fin : forall (ok : bool) (k : nat) (c' : Cursor) (evs : list Event),
             connects evs
             = firstn k [("8.8.8.8"%string, 53); ("1.1.1.1"%string, 53);
                         ("google.com"%string, 80)] ->
             (1 <= k <= 3)%nat ->
             (forall i : nat, (i + 1 < k)%nat -> answer i = false) ->
             n_connect c' = (n_connect c + k)%nat ->
             (ok = true -> answer (k - 1)%nat = true) ->
             (ok = false -> k = 3%nat /\ answer 2%nat = false) ->
             exists (ok0 : bool) (k0 : nat) (w' : World),
               Ret ok (mkWorld (mkGlobals true true ok lc lw lm bt rc) s e c'
                               (t ++ evs)) = Ret ok0 w'
               /\ connects (skipn (List.length t) (t ++ evs))
                  = firstn k0 [("8.8.8.8"%string, 53); ("1.1.1.1"%string, 53);
                               ("google.com"%string, 80)]
               /\ (1 <= k0 <= 3)%nat
               /\ (forall i : nat, (i + 1 < k0)%nat -> answer i = false)
               /\ n_connect (cur w') = (n_connect c + k0)%nat
               /\ internetOK (glob w') = ok0
               /\ (ok0 = true -> answer (k0 - 1)%nat = true)
               /\ (ok0 = false -> k0 = 3%nat /\ answer 2%nat = false)
               /\ stationOK (glob w') = true
               /\ naptOK (glob w') = true).
  { intros ok k c' evs H1 H2 H3 H4 H5 H6.
    exists ok, k, (mkWorld (mkGlobals true true ok lc lw lm bt rc) s e c'
                           (t ++ evs)).
    rewrite skipn_length_app. cbn. repeat split; auto; try lia; now apply H6. }
  rewrite <- A0. destruct (answer 0%nat) eqn:E0; run.
  { rewrite <- ?app_assoc. cbn [app]. apply (Fin true 1%nat); cbn;
      try reflexivity; try lia; intros; auto; lia. }
  rewrite <- A1. destruct (answer 1%nat) eqn:E1; run.
  { rewrite <- ?app_assoc. cbn [app]. apply (Fin true 2%nat); cbn;
      try reflexivity; try lia; intros; auto.
    assert (i = 0%nat) by lia. subst i. assumption. }
  assert (F01 : forall i : nat, (i + 1 < 3)%nat -> answer i = false).
  { intros i Hi. assert (Hc : i = 0%nat \/ i = 1%nat) by lia.
    destruct Hc; subst i; assumption. }
  rewrite <- A2. destruct (answer 2%nat) eqn:E2; run.
  { rewrite <- ?app_assoc. cbn [app]. apply (Fin true 3%nat); cbn;
      try reflexivity; try lia; intros; auto; discriminate. }
  rewrite <- ?app_assoc. cbn [app]. apply (Fin false 3%nat); cbn;
    try reflexivity; try lia; intros; auto; discriminate.
Qed.

(** ** The indicator and the status page *)

(** C9.  [updateLED] and [handleRoot] return without restarting and leave
    every global (the three flags, the four timestamps, [reconnectCount])
    and [failCount] as they were; [handleRoot] leaves the blink phase
    alone too. *)
Theorem updateLED_handleRoot_frame :
  forall w : World,
    (exists w' : World,
        updateLED w = Ret tt w'
        /\ glob w' = glob w
        /\ failCount (stat w') = failCount (stat w)
        /\ env w' = env w)
    /\ (exists w' : World,
          handleRoot w = Ret tt w'
          /\ glob w' = glob w
          /\ stat w' = stat w
          /\ env w' = env w).
Proof.
  intros w. split.
  - unfold updateLED, blink_every. run.
    destruct (stationOK (glob w)), (naptOK (glob w)), (internetOK (glob w));
      run;
      try match goal with
        | |- context [usub ?a ?b >? ?p] => destruct (usub a b >? p)
        end;
      run; eexists; repeat split.
  - unfold handleRoot. run. eexists; repeat split.
Qed.

(** ** The memory guard *)

(** A first reading of [LOW_MEMORY] or more: the cycle only takes that
    reading. *)
Lemma checkMemory_healthy w :
  LOW_MEMORY <= wrap_int32 (reading w 0) ->
  checkMemory w = Ret tt (set_cur (next_heap (cur w)) w).
Proof.
  unfold reading. rewrite Nat.add_0_r. intros H.
  unfold checkMemory. run.
  apply Z.ltb_ge in H. rewrite H. reflexivity.
Qed.

(** A first reading below [LOW_MEMORY]: the whole cycle. *)
Lemma checkMemory_low w :
  wrap_int32 (reading w 0) < LOW_MEMORY ->
  exists (c : Cursor) (evs : list Event),
    checkMemory w
    = (if final_reading w <? CRITICAL_MEMORY then Reboot else Ret tt)
        (mkWorld
           (with_naptOK
              (retries_napt w
               && napt_accepts (env w) (n_napt_init (cur w))
                               (n_napt_enable (cur w)))
              (glob w))
           (stat w) (env w) c
           (trace w
            ++ [EvSerial "Low memory: %d bytes - aggressive cleanup\n"]
            ++ shed_events w
            ++ [EvYield; EvDelay 100]
            ++ evs
            ++ restart_events w))
    /\ (retries_napt w = true ->
        firstn 3 evs
        = [EvSerial "Re-enabling NAPT with minimal memory"; EvDelay 500;
           EvNaptInit 300 5])
    /\ (retries_napt w = false -> evs = [])
    /\ count is_restart evs = 0%nat.
Proof.
  destruct w as [g s e c t]. destruct g as [st na io lc lw lm bt rc].
  unfold restart_events, shed_events, retries_napt, final_reading, reading.
  cbn [glob stat env cur trace stationOK naptOK].
  destruct na, st;
    rewrite ?Nat.add_0_r, ?Nat.add_1_r;
    replace (n_heap c + 2)%nat with (S (S (n_heap c))) by lia;
    intros H; apply Z.ltb_lt in H;
    unfold checkMemory; run; rewrite H; run;
    try (destruct (wrap_uint32 (heap_at e (S (n_heap c))) >? REENABLE_MEMORY);
         run;
         [match goal with
          | |- context [enableNAPT ?W] =>
              destruct (enableNAPT_link_up W eq_refl)
                as (c' & evs & E & Hh & _ & _ & E0 & E1 & _ & _ & Hr & _)
          end;
          rewrite E; run; cbn in Hh; rewrite Hh;
          destruct evs as [|e0 [|e1 evs]]; try discriminate;
          cbn in E0, E1; inversion E0; inversion E1; subst e0 e1;
          eexists;
          exists (EvSerial "Re-enabling NAPT with minimal memory"
                  :: EvDelay 500 :: EvNaptInit 300 5 :: evs)
         |]);
    try (eexists; exists []);
    match goal with
    | |- context [?x <? CRITICAL_MEMORY] => destruct (x <? CRITICAL_MEMORY)
    end;
    run; rewrite <- ?app_assoc; cbn [app andb]; rewrite ?app_nil_r;
    (split; [reflexivity|]);
    (split; [intros; (reflexivity || discriminate)|]);
    (split; [intros; (reflexivity || discriminate)|]);
    (exact Hr || reflexivity).
Qed.

(** The same cycle, seen through what it leaves behind. *)
Lemma checkMemory_low_observed w :
  wrap_int32 (reading w 0) < LOW_MEMORY ->
  exists evs : list Event,
    emitted checkMemory w
    = [EvSerial "Low memory: %d bytes - aggressive cleanup\n"]
      ++ shed_events w ++ [EvYield; EvDelay 100] ++ evs ++ restart_events w
    /\ restarted (checkMemory w) = (final_reading w <? CRITICAL_MEMORY)
    /\ glob (after checkMemory w)
       = with_naptOK
           (retries_napt w
            && napt_accepts (env w) (n_napt_init (cur w)) (n_napt_enable (cur w)))
           (glob w)
    /\ ((retries_napt w = true
         /\ exists rest : list Event,
             evs = EvSerial "Re-enabling NAPT with minimal memory"
                   :: EvDelay 500 :: EvNaptInit 300 5 :: rest
             /\ count is_restart rest = 0%nat)
        \/ (retries_napt w = false /\ evs = [])).
Proof.
  intros H.
  destruct (checkMemory_low w H) as (c & evs & E & F1 & F2 & F3).
  exists evs. unfold emitted, after. rewrite E.
  destruct (final_reading w <? CRITICAL_MEMORY);
    cbn [world_of restarted trace glob]; rewrite skipn_length_app;
    (split; [reflexivity|]); (split; [reflexivity|]); (split; [reflexivity|]);
    (destruct (retries_napt w);
     [left; split; [reflexivity|]; specialize (F1 eq_refl);
      destruct evs as [|e0 [|e1 [|e2 rest]]]; try discriminate;
      cbn in F1; inversion F1; subst; exists rest; split; [reflexivity|];
      exact F3
     |right; split; [reflexivity|]; now apply F2]).
Qed.

Lemma checkMemory_healthy_observed w :
  LOW_MEMORY <= wrap_int32 (reading w 0) ->
  emitted checkMemory w = []
  /\ restarted (checkMemory w) = false
  /\ glob (after checkMemory w) = glob w.
Proof.
  intros H. unfold emitted, after. rewrite (checkMemory_healthy w H).
  cbn. repeat split. apply skipn_length_same.
Qed.

(** C3, as the code has it.  A memory-check cycle calls [ESP.restart()]
    exactly when its first reading, as the [int] of line 203, is below
    [LOW_MEMORY] (8000) and the last reading of the cycle, the one line 226
    takes after forwarding was shed and the re-enable step ran, is below
    [CRITICAL_MEMORY] (4000).  [naptOK] and [internetOK] play no part, and
    [stationOK] only decides whether the last reading is the third or the
    second of the cycle. *)
Theorem checkMemory_restart_iff :
  forall w : World,
    restarted (checkMemory w)
    = (wrap_int32 (reading w 0) <? LOW_MEMORY)
      && (final_reading w <? CRITICAL_MEMORY).
Proof.
  intros w.
  destruct (Z.ltb_spec (wrap_int32 (reading w 0)) LOW_MEMORY) as [H | H].
  - destruct (checkMemory_low_observed w H) as (evs & _ & R & _).
    rewrite R. reflexivity.
  - destruct (checkMemory_healthy_observed w H) as (_ & R & _).
    rewrite R. reflexivity.
Qed.

(** A reading that stays in the emergency tier through the cycle always
    restarts the chip, whatever the three flags are. *)
Lemma checkMemory_persistent_emergency w :
  (forall i : nat, 0 <= heap_at (env w) (n_heap (cur w) + i) < CRITICAL_MEMORY) ->
  restarted (checkMemory w) = true.
Proof.
  intros H.
  assert (R : forall i, reading w i = heap_at (env w) (n_heap (cur w) + i)).
  { intros i. unfold reading, wrap_uint32. specialize (H i).
    unfold CRITICAL_MEMORY in H. apply Z.mod_small. lia. }
  pose proof (H 0%nat) as H0.
  pose proof (H (if stationOK (glob w) then 2 else 1)%nat) as H1.
  assert (L : wrap_int32 (reading w 0) < LOW_MEMORY).
  { rewrite R. unfold CRITICAL_MEMORY, LOW_MEMORY in *.
    rewrite wrap_int32_small by (unfold INT_MIN, INT_MAX; lia). lia. }
  destruct (checkMemory_low_observed w L) as (evs & _ & E & _).
  rewrite E. unfold final_reading. rewrite R. apply Z.ltb_lt. lia.
Qed.

(** The low-memory branch.  In a cycle whose first reading is below
    [LOW_MEMORY]: forwarding ends the cycle enabled exactly when the link
    flag is up, the reading after the settle delay exceeds
    [REENABLE_MEMORY] and lwIP accepts the primary or the reduced NAPT
    configuration, whatever [naptOK] was before; if [naptOK] was set, the
    cycle first shed forwarding (and waited the settle delay); and
    [enableNAPT] is called in the cycle exactly when the link flag is up
    and that reading exceeds [REENABLE_MEMORY]. *)
Lemma checkMemory_low_sheds_and_retries :
  forall w : World,
    wrap_int32 (reading w 0) < LOW_MEMORY ->
    naptOK (glob (after checkMemory w))
    = stationOK (glob w)
      && (reading w 1 >? REENABLE_MEMORY)
      && napt_accepts (env w) (n_napt_init (cur w)) (n_napt_enable (cur w))
    /\ (naptOK (glob w) = true ->
        firstn 3 (emitted checkMemory w)
        = [EvSerial "Low memory: %d bytes - aggressive cleanup\n";
           EvSerial "Disabling NAPT to free memory"; EvDelay 1000])
    /\ (In (EvNaptInit 300 5) (emitted checkMemory w)
        <-> stationOK (glob w) = true /\ REENABLE_MEMORY < reading w 1)
    /\ stationOK (glob (after checkMemory w)) = stationOK (glob w)
    /\ internetOK (glob (after checkMemory w)) = internetOK (glob w).
Proof.
  intros w H.
  destruct (checkMemory_low_observed w H) as (evs & Em & _ & G & D).
  rewrite G, Em. cbn [naptOK stationOK internetOK with_naptOK].
  split; [reflexivity|]. split.
  { intros Hn. unfold shed_events. rewrite Hn. reflexivity. }
  split; [|split; reflexivity].
  assert (Q : retries_napt w = true
              <-> stationOK (glob w) = true /\ REENABLE_MEMORY < reading w 1).
  { unfold retries_napt. rewrite andb_true_iff, Z.gtb_ltb, Z.ltb_lt. tauto. }
  rewrite <- Q. unfold shed_events, restart_events.
  destruct D as [(R & rest & -> & _) | (R & ->)]; rewrite R.
  - split; [reflexivity|]. intros _.
    destruct (naptOK (glob w)); cbn; tauto.
  - split; [|discriminate]. intros HI.
    destruct (naptOK (glob w)), (final_reading w <? CRITICAL_MEMORY);
      cbn in HI; repeat (destruct HI as [HI | HI]; [discriminate|]);
      contradiction.
Qed.

(** C5, as the code has it.  With the link flag up, a cycle reaches the
    re-enable step exactly when its first reading is below [LOW_MEMORY]
    and the reading after the settle delay exceeds [REENABLE_MEMORY]; and
    that bound (6000) lies strictly below the trigger (8000) and strictly
    above the restart bound (4000). *)
Theorem reenable_bound_below_trigger :
  forall w : World,
    stationOK (glob w) = true ->
    (In (EvSerial "Re-enabling NAPT with minimal memory") (emitted checkMemory w)
     <-> wrap_int32 (reading w 0) < LOW_MEMORY /\ REENABLE_MEMORY < reading w 1)
    /\ CRITICAL_MEMORY < REENABLE_MEMORY < LOW_MEMORY.
Proof.
  intros w Hst. split; [|unfold CRITICAL_MEMORY, REENABLE_MEMORY, LOW_MEMORY; lia].
  destruct (Z.lt_ge_cases (wrap_int32 (reading w 0)) LOW_MEMORY) as [H | H].
  - destruct (checkMemory_low_observed w H) as (evs & Em & _ & _ & D).
    rewrite Em.
    assert (Q : retries_napt w = true <-> REENABLE_MEMORY < reading w 1).
    { unfold retries_napt. rewrite Hst. cbn [andb].
      rewrite Z.gtb_ltb, Z.ltb_lt. tauto. }
    unfold shed_events, restart_events.
    destruct D as [(R & rest & -> & _) | (R & ->)].
    + split; [intros _; split; [exact H | now apply Q]|]. intros _.
      destruct (naptOK (glob w)); cbn; tauto.
    + split.
      * intros HI.
        destruct (naptOK (glob w)), (final_reading w <? CRITICAL_MEMORY);
          cbn in HI; repeat (destruct HI as [HI | HI]; [discriminate|]);
          contradiction.
      * intros [_ HR]. apply Q in HR. congruence.
  - destruct (checkMemory_healthy_observed w H) as (Em & _).
    rewrite Em. split; [intros []|]. intros [HL _]. lia.
Qed.

(** ** The link: connecting and the access point *)

Lemma calm_app evs1 evs2 : calm evs1 -> calm evs2 -> calm (evs1 ++ evs2).
Proof.
  unfold calm. intros (A1 & A2 & A3) (B1 & B2 & B3).
  rewrite !count_app, A1, A2, A3, B1, B2, B3. auto.
Qed.

(** The polling loop returns, asks only for the link status and only
    waits and prints. *)
Lemma await_connection_spec (n : nat) :
  forall w : World,
    exists (c : Cursor) (evs : list Event),
      await_connection n w
      = Ret tt (mkWorld (glob w) (stat w) (env w) c (trace w ++ evs))
      /\ calm evs.
Proof.
  induction n as [|n IH]; intros w.
  - exists (cur w), []. cbn [await_connection]. run.
    rewrite app_nil_r. destruct w; split; [reflexivity|].
    repeat split.
  - cbn [await_connection]. run.
    destruct (is_WL_CONNECTED (wifi_status_at (env w) (n_status (cur w)))); run.
    + eexists. exists []. rewrite app_nil_r. split; [reflexivity|].
      repeat split.
    + match goal with
      | |- context [await_connection n ?W] =>
          destruct (IH W) as (c & evs & E & Hc)
      end.
      rewrite E. cbn [glob stat env cur trace].
      exists c, ([EvDelay 500; EvSerial "."] ++ evs).
      rewrite <- !app_assoc. split; [reflexivity|].
      apply calm_app; [repeat split | exact Hc].
Qed.

(** [connectToRouter] returns, sets [stationOK] to its result, calls
    [WiFi.begin] exactly once and never [WiFi.disconnect]. *)
Lemma connectToRouter_spec (w : World) :
  exists (b : bool) (c : Cursor) (evs : list Event),
    connectToRouter w
    = Ret b (mkWorld (with_stationOK b (glob w)) (stat w) (env w) c
                     (trace w ++ evs))
    /\ count is_begin evs = 1%nat
    /\ count is_disconnect evs = 0%nat
    /\ count is_restart evs = 0%nat.
Proof.
  unfold connectToRouter. run.
  destruct (is_WIFI_AP_STA (wifi_mode_at (env w) (n_mode (cur w)))); run;
    match goal with
    | |- context [await_connection 20 ?W] =>
        destruct (await_connection_spec 20 W) as (c & evs & E & H1 & H2 & H3)
    end;
    rewrite E; run;
    match goal with
    | |- context [is_WL_CONNECTED ?x] => destruct (is_WL_CONNECTED x)
    end;
    run; rewrite <- ?app_assoc; cbn [app];
    eexists; eexists; eexists; (split; [reflexivity|]);
    unfold count in *;
    cbn [filter is_begin is_disconnect is_restart];
    rewrite ?filter_app; cbn [filter is_begin is_disconnect is_restart];
    cbn [List.length]; rewrite ?length_app, ?H1, ?H2, ?H3; repeat split.
Qed.

(** [startAccessPoint] returns and touches neither globals nor statics. *)
Lemma startAccessPoint_spec (w : World) :
  exists (b : bool) (c : Cursor) (evs : list Event),
    startAccessPoint w
    = Ret b (mkWorld (glob w) (stat w) (env w) c (trace w ++ evs))
    /\ calm evs.
Proof.
  unfold startAccessPoint. run.
  destruct (softAPConfig_at (env w) (n_softAPConfig (cur w))); run;
    [destruct (softAP_at (env w) (n_softAP (cur w))); run|];
    rewrite <- ?app_assoc; cbn [app];
    eexists; eexists; eexists; (split; [reflexivity|]); repeat split.
Qed.

(** ** The link watchdog *)

(** A miss that does not yet reach the threshold of 3: the flags are
    cleared, the miss is counted, and nothing is called. *)
Lemma watchdog_miss (w : World) :
  link_down w ->
  wrap_int32 (failCount (stat w) + 1) < 3 ->
  connectionWatchdog w
  = Ret tt
      (mkWorld
         (with_stationOK false
            (with_naptOK false (with_internetOK false (glob w))))
         (with_failCount (wrap_int32 (failCount (stat w) + 1)) (stat w))
         (env w) (next_status (cur w)) (trace w)).
Proof.
  unfold link_down. intros D H.
  unfold connectionWatchdog. run. rewrite D. run.
  apply Z.ltb_lt in H. rewrite Z.geb_leb, Z.leb_antisym, H. reflexivity.
Qed.

(** A miss that reaches the threshold: one forced reconnect. *)
Lemma watchdog_forced_reconnect (w : World) :
  link_down w ->
  3 <= wrap_int32 (failCount (stat w) + 1) ->
  exists (g : Globals) (c : Cursor) (evs : list Event),
    connectionWatchdog w
    = Ret tt
        (mkWorld g (with_failCount 0 (stat w)) (env w) c
           (trace w
            ++ [EvSerial "Connection watchdog: %d failures, forcing reconnect\n";
                EvWiFiDisconnect; EvDelay 1000]
            ++ evs))
    /\ reconnectCount g = wrap_int32 (reconnectCount (glob w) + 1)
    /\ count is_begin evs = 1%nat
    /\ count is_disconnect evs = 0%nat
    /\ count is_restart evs = 0%nat
    /\ (naptOK g = true -> stationOK g = true)
    /\ internetOK g = false
    /\ timers g = timers (glob w).
Proof.
  unfold link_down. intros D H.
  unfold connectionWatchdog. run. rewrite D. run.
  apply Z.geb_le in H. rewrite H. run.
  match goal with
  | |- context [connectToRouter ?W] =>
      destruct (connectToRouter_spec W) as (b & c & evs & E & B1 & B2 & B3)
  end.
  rewrite E. run. destruct b; run.
  - match goal with
    | |- context [enableNAPT ?W] =>
        destruct (enableNAPT_link_up W eq_refl)
          as (c' & evs' & E' & _ & _ & _ & _ & _ & N1 & N2 & N3 & _)
    end.
    rewrite E'. run. rewrite <- ?app_assoc. cbn [app].
    eexists. exists c', (evs ++ evs'). split; [reflexivity|]. cbn.
    rewrite !count_app, B1, B2, B3, N1, N2, N3. repeat split.
  - rewrite <- ?app_assoc. cbn [app].
    eexists. exists c, evs. split; [reflexivity|]. cbn.
    repeat split; auto; discriminate.
Qed.

(** A cycle that finds the link up: the miss counter is reset, the link
    flag ends set, and no reconnect is forced. *)
Lemma watchdog_link_up (w : World) :
  is_WL_CONNECTED (wifi_status_at (env w) (n_status (cur w))) = true ->
  exists (g : Globals) (c : Cursor) (evs : list Event),
    connectionWatchdog w
    = Ret tt (mkWorld g (with_failCount 0 (stat w)) (env w) c (trace w ++ evs))
    /\ stationOK g = true
    /\ reconnectCount g = reconnectCount (glob w)
    /\ calm evs
    /\ timers g = timers (glob w).
Proof.
  intros U. destruct w as [g s e c t].
  destruct g as [st na io lc lw lm bt rc]. cbn in U.
  unfold connectionWatchdog. run. rewrite U. run.
  destruct st; run; [|destruct na; run].
  - eexists. eexists. exists []. rewrite app_nil_r.
    split; [reflexivity|]. repeat split.
  - eexists. eexists. exists []. rewrite app_nil_r.
    split; [reflexivity|]. repeat split.
  - match goal with
    | |- context [enableNAPT ?W] =>
        destruct (enableNAPT_link_up W eq_refl)
          as (c' & evs' & E' & _ & _ & _ & _ & _ & N1 & N2 & N3 & _)
    end.
    rewrite E'. run. eexists. exists c', evs'.
    split; [reflexivity|]. repeat split; assumption.
Qed.

(** The miss counter stays within 0..2 between cycles: a third miss in
    a row is answered by the forced reconnect, which resets it. *)
Lemma watchdog_failCount_range (w : World) :
  0 <= failCount (stat w) <= 2 ->
  0 <= failCount (stat (after connectionWatchdog w)) <= 2.
Proof.
  intros R. unfold after.
  destruct (is_WL_CONNECTED (wifi_status_at (env w) (n_status (cur w)))) eqn:U.
  - destruct (watchdog_link_up w U) as (g & c & evs & E & _).
    rewrite E. cbn. lia.
  - assert (W : wrap_int32 (failCount (stat w) + 1) = failCount (stat w) + 1)
      by (apply wrap_int32_small; unfold INT_MIN, INT_MAX; lia).
    destruct (Z.lt_ge_cases (wrap_int32 (failCount (stat w) + 1)) 3) as [H | H].
    + rewrite (watchdog_miss w U H). cbn. lia.
    + destruct (watchdog_forced_reconnect w U H) as (g & c & evs & E & _).
      rewrite E. cbn. lia.
Qed.

(** C2.  Take a run of three watchdog cycles that starts with the miss
    counter at 0 (as at boot, after a cycle that found the link up, and
    after a forced reconnect), in each of which the link driver answers
    the watchdog's status query with not-connected; whatever runs between
    the cycles leaves the watchdog's two counters alone.  Then the first
    two cycles call nothing (no event at all) and count the misses 1 and
    2; the third cycle calls [WiFi.disconnect()], waits 1000 ms and makes
    a fresh connect attempt with exactly one [WiFi.begin], and that is the
    only disconnect and the only connect of the run; after it the miss
    counter is 0 whether or not the connect succeeded, and
    [reconnectCount] is one more than before the run.  No cycle restarts
    the chip. *)
Theorem three_misses_force_one_reconnect :
  forall w0 w1 w2 : World,
    failCount (stat w0) = 0 ->
    INT_MIN <= reconnectCount (glob w0) < INT_MAX ->
    link_down w0 ->
    carries_counters (after connectionWatchdog w0) w1 ->
    link_down w1 ->
    carries_counters (after connectionWatchdog w1) w2 ->
    link_down w2 ->
    (restarted (connectionWatchdog w0) = false
     /\ emitted connectionWatchdog w0 = []
     /\ failCount (stat (after connectionWatchdog w0)) = 1)
    /\ (restarted (connectionWatchdog w1) = false
        /\ emitted connectionWatchdog w1 = []
        /\ failCount (stat (after connectionWatchdog w1)) = 2)
    /\ (restarted (connectionWatchdog w2) = false
        /\ (exists evs : list Event,
               emitted connectionWatchdog w2
               = [EvSerial "Connection watchdog: %d failures, forcing reconnect\n";
                  EvWiFiDisconnect; EvDelay 1000] ++ evs
               /\ count is_begin evs = 1%nat
               /\ count is_disconnect evs = 0%nat)
        /\ count is_disconnect (emitted connectionWatchdog w2) = 1%nat
        /\ count is_begin (emitted connectionWatchdog w2) = 1%nat
        /\ failCount (stat (after connectionWatchdog w2)) = 0
        /\ reconnectCount (glob (after connectionWatchdog w2))
           = reconnectCount (glob w0) + 1).
Proof.
  intros w0 w1 w2 F0 R0 D0 [C1f C1r] D1 [C2f C2r] D2.
  assert (M0 := watchdog_miss w0 D0).
  rewrite F0 in M0. specialize (M0 ltac:(vm_compute; reflexivity)).
  unfold after in *. rewrite M0 in *. cbn in C1f, C1r.
  assert (M1 := watchdog_miss w1 D1).
  rewrite C1f in M1. specialize (M1 ltac:(vm_compute; reflexivity)).
  rewrite M1 in *. cbn in C2f, C2r.
  destruct (watchdog_forced_reconnect w2 D2) as
    (g & c & evs & E & Rc & B1 & B2 & _).
  { rewrite C2f. vm_compute. discriminate. }
  unfold emitted, after. rewrite M0, M1, E.
  cbn [world_of restarted trace stat glob failCount with_failCount].
  rewrite !skipn_length_same, skipn_length_app.
  split; [repeat split|]. split; [repeat split|].
  split; [reflexivity|]. split; [exists evs; repeat split; assumption|].
  rewrite !count_app, B1, B2.
  split; [reflexivity|]. split; [reflexivity|]. split; [reflexivity|].
  rewrite Rc, C2r, C1r. apply wrap_int32_small.
  unfold INT_MIN, INT_MAX in *. lia.
Qed.

(** ** The status cycle *)

(** [testInternet] returns, whatever the flags, and only writes
    [internetOK]. *)
Lemma testInternet_spec (w : World) :
  exists (b : bool) (c : Cursor) (evs : list Event),
    testInternet w
    = Ret b (mkWorld (with_internetOK b (glob w)) (stat w) (env w) c
                     (trace w ++ evs))
    /\ calm evs.
Proof.
  destruct w as [g s e c t]. destruct g as [st na io lc lw lm bt rc].
  unfold testInternet, testServers, testPorts. cbn [combine try_servers]. run.
  destruct st, na; run;
    try (exists false; eexists; exists []; rewrite app_nil_r;
         split; [reflexivity|]; repeat split).
  destruct (connect_at e (n_connect c)); run;
    [|destruct (connect_at e (S (n_connect c))); run;
      [|destruct (connect_at e (S (S (n_connect c)))); run]];
    rewrite <- ?app_assoc; cbn [app];
    eexists; eexists; eexists; (split; [reflexivity|]); repeat split.
Qed.

(** [checkAPStatus] returns; it may write [stationOK] and [naptOK], and
    nothing else of the globals and statics. *)
Lemma checkAPStatus_spec (w : World) :
  exists (g : Globals) (c : Cursor) (evs : list Event),
    checkAPStatus w = Ret tt (mkWorld g (stat w) (env w) c (trace w ++ evs))
    /\ bookkeeping g = bookkeeping (glob w)
    /\ internetOK g = internetOK (glob w)
    /\ count is_restart evs = 0%nat
    /\ count is_disconnect evs = 0%nat.
Proof.
  unfold checkAPStatus. run.
  destruct (is_WIFI_AP_STA (wifi_mode_at (env w) (n_mode (cur w)))); run.
  { eexists. eexists. exists []. rewrite app_nil_r.
    destruct w; split; [reflexivity|]. repeat split. }
  match goal with
  | |- context [startAccessPoint ?W] =>
      destruct (startAccessPoint_spec W) as (b & c & evs & E & _ & A2 & A3)
  end.
  rewrite E. run.
  destruct (is_WL_CONNECTED (wifi_status_at (env w) (n_status c))); run.
  { rewrite <- ?app_assoc. cbn [app].
    eexists. eexists. eexists. split; [destruct w; reflexivity|].
    unfold count in *.
    cbn [filter is_restart is_disconnect List.length].
    rewrite A2, A3. repeat split. }
  match goal with
  | |- context [connectToRouter ?W] =>
      destruct (connectToRouter_spec W) as (b' & c' & evs' & E' & _ & B2 & B3)
  end.
  rewrite E'. run. destruct b'; run.
  - match goal with
    | |- context [enableNAPT ?W] =>
        destruct (enableNAPT_link_up W eq_refl)
          as (c2 & evs2 & E2 & _ & _ & _ & _ & _ & _ & N2 & N3 & _)
    end.
    rewrite E2. run. rewrite <- ?app_assoc. cbn [app].
    eexists. eexists. eexists. split; [reflexivity|].
    unfold count in *.
    cbn [filter is_restart is_disconnect List.length].
    rewrite !filter_app.
    cbn [filter is_restart is_disconnect List.length].
    rewrite !filter_app, !length_app, A2, A3, B2, B3, N2, N3.
    repeat split.
  - rewrite <- ?app_assoc. cbn [app].
    eexists. eexists. eexists. split; [reflexivity|].
    unfold count in *.
    cbn [filter is_restart is_disconnect List.length].
    rewrite !filter_app.
    cbn [filter is_restart is_disconnect List.length].
    rewrite !length_app, A2, A3, B2, B3.
    repeat split.
Qed.

(** The status cycle, seen through what it leaves behind. *)
Lemma statusCycle_observed :
  forall (now : Z) (w : World),
    restarted (statusCycle now w) = (reconnectCount (glob w) >? 10)
    /\ count is_restart (emitted (statusCycle now) w)
       = (if reconnectCount (glob w) >? 10 then 1%nat else 0%nat)
    /\ (exists evs : list Event,
           emitted (statusCycle now) w
           = evs
             ++ (if reconnectCount (glob w) >? 10
                 then [EvSerial "Too many reconnects - emergency restart";
                       EvDelay 1000; EvRestart]
                 else []))
    /\ reconnectCount (glob (after (statusCycle now) w))
       = reconnectCount (glob w).
Proof.
  intros now w. unfold emitted, after, statusCycle. run.
  match goal with
  | |- context [checkAPStatus ?W] =>
      destruct (checkAPStatus_spec W) as (g & c & evs & E & Bk & _ & A1 & _)
  end.
  rewrite E. clear E. run.
  assert (Rc : reconnectCount g = reconnectCount (glob w)).
  { unfold bookkeeping in Bk. cbn in Bk. now inversion Bk. }
  clear Bk.
  destruct (stationOK g && naptOK g); run.
  - match goal with
    | |- context [testInternet ?W] =>
        destruct (testInternet_spec W) as (b & c' & evs' & E' & _ & _ & T3)
    end.
    rewrite E'. clear E'. run. rewrite Rc.
    destruct (reconnectCount (glob w) >? 10); run;
      rewrite <- ?app_assoc; rewrite skipn_length_app;
      rewrite !count_app, A1, T3;
      (split; [reflexivity|]); (split; [reflexivity|]);
      (split; [|(reflexivity || exact Rc)]);
      exists (evs ++ evs'
              ++ [EvSerial "Status: Router=%s NAPT=%s Internet=%s Clients=%d Memory=%d Reconnects=%d\n"]);
      rewrite <- ?app_assoc, ?app_nil_r; reflexivity.
  - rewrite Rc.
    destruct (reconnectCount (glob w) >? 10); run;
      rewrite <- ?app_assoc; rewrite skipn_length_app;
      rewrite !count_app, A1;
      (split; [reflexivity|]); (split; [reflexivity|]);
      (split; [|(reflexivity || exact Rc)]);
      exists (evs
              ++ [EvSerial "Status: Router=%s NAPT=%s Internet=%s Clients=%d Memory=%d Reconnects=%d\n"]);
      rewrite <- ?app_assoc, ?app_nil_r; reflexivity.
Qed.

(** C8.  The status cycle restarts the chip exactly when
    [reconnectCount] exceeds 10 as the cycle starts: above 10 the cycle
    ends in the one [ESP.restart()] call it makes, announced and delayed
    as in lines 426-428; at 10 or below it returns without any restart.
    The cycle itself never changes [reconnectCount]. *)
Theorem statusCycle_restart_iff :
  forall (now : Z) (w : World),
    restarted (statusCycle now w) = (reconnectCount (glob w) >? 10)
    /\ count is_restart (emitted (statusCycle now) w)
       = (if reconnectCount (glob w) >? 10 then 1%nat else 0%nat)
    /\ (exists evs : list Event,
           emitted (statusCycle now) w
           = evs
             ++ (if reconnectCount (glob w) >? 10
                 then [EvSerial "Too many reconnects - emergency restart";
                       EvDelay 1000; EvRestart]
                 else []))
    /\ reconnectCount (glob (after (statusCycle now) w))
       = reconnectCount (glob w).
Proof. exact statusCycle_observed. Qed.

(** ** One iteration of [loop] *)

(** [server.handleClient()] returns and only sends a page. *)
Lemma server_handleClient_spec (w : World) :
  exists (c : Cursor) (evs : list Event),
    server_handleClient w
    = Ret tt (mkWorld (glob w) (stat w) (env w) c (trace w ++ evs))
    /\ n_millis c = n_millis (cur w).
Proof.
  unfold server_handleClient, handleRoot, handleNotFound. run.
  destruct (request_at (env w) (n_request (cur w))) as [[|]|]; run.
  - eexists. eexists. split; reflexivity.
  - eexists. eexists. split; reflexivity.
  - exists (next_request (cur w)), []. rewrite app_nil_r. split; reflexivity.
Qed.

(** [updateLED] returns, reads the clock once and only writes its own
    statics. *)
Lemma updateLED_spec (w : World) :
  exists (s' : Statics) (evs : list Event),
    updateLED w
    = Ret tt (mkWorld (glob w) s' (env w) (next_millis (cur w)) (trace w ++ evs))
    /\ failCount s' = failCount (stat w).
Proof.
  unfold updateLED, blink_every. run.
  destruct (stationOK (glob w)), (naptOK (glob w)), (internetOK (glob w));
    run;
    try match goal with
      | |- context [usub ?a ?b >? ?p] => destruct (usub a b >? p)
      end;
    run;
    try (eexists; eexists; split; reflexivity);
    exists (stat w), []; rewrite app_nil_r; destruct w as [g [fc lb ls] e c t];
    split; reflexivity.
Qed.

(** Every watchdog cycle returns, leaves the timestamps alone and adds at
    most one to [reconnectCount]. *)
Lemma connectionWatchdog_spec (w : World) :
  exists (g : Globals) (s' : Statics) (c : Cursor) (evs : list Event),
    connectionWatchdog w = Ret tt (mkWorld g s' (env w) c (trace w ++ evs))
    /\ timers g = timers (glob w)
    /\ (reconnectCount g = reconnectCount (glob w)
        \/ reconnectCount g = wrap_int32 (reconnectCount (glob w) + 1)).
Proof.
  destruct (is_WL_CONNECTED (wifi_status_at (env w) (n_status (cur w)))) eqn:U.
  - destruct (watchdog_link_up w U) as (g & c & evs & E & _ & R & _ & T).
    exists g, (with_failCount 0 (stat w)), c, evs. auto.
  - destruct (Z.lt_ge_cases (wrap_int32 (failCount (stat w) + 1)) 3) as [H | H].
    + rewrite (watchdog_miss w U H).
      eexists. eexists. eexists. exists []. rewrite app_nil_r.
      split; [reflexivity|]. split; [reflexivity|]. left. reflexivity.
    + destruct (watchdog_forced_reconnect w U H)
        as (g & c & evs & E & R & _ & _ & _ & _ & _ & T).
      rewrite E. eexists. eexists. eexists. eexists.
      split; [reflexivity|]. auto.
Qed.

(** Every memory-check cycle either restarts the chip or returns with
    the timestamps, [reconnectCount] and the statics as they were. *)
Lemma checkMemory_spec (w : World) :
  (exists w' : World, checkMemory w = Reboot w')
  \/ (exists (g : Globals) (c : Cursor) (evs : list Event),
         checkMemory w = Ret tt (mkWorld g (stat w) (env w) c (trace w ++ evs))
         /\ bookkeeping g = bookkeeping (glob w)).
Proof.
  destruct (Z.lt_ge_cases (wrap_int32 (reading w 0)) LOW_MEMORY) as [H | H].
  - destruct (checkMemory_low w H) as (c & evs & E & _).
    rewrite E. destruct (final_reading w <? CRITICAL_MEMORY).
    + left. eexists. reflexivity.
    + right. eexists. eexists. eexists. split; [reflexivity|]. reflexivity.
  - right. rewrite (checkMemory_healthy w H).
    exists (glob w), (next_heap (cur w)), []. rewrite app_nil_r.
    split; reflexivity.
Qed.

(** An outcome whose restart flag is set is a restart. *)
Lemma restarted_true_inv {A} (o : Outcome A) :
  restarted o = true -> exists w' : World, o = Reboot w'.
Proof. destruct o; [discriminate | eauto]. Qed.

(** The next status cycle, seen from [loop]: an iteration that starts
    with [reconnectCount] above 10 and whose clock reading makes the status
    timer due ends in a restart, whatever the watchdog and the memory
    guard do before the status cycle runs. *)
Lemma loop_restarts_over_ceiling (w : World) :
  10 < reconnectCount (glob w) < INT_MAX ->
  STATUS_INTERVAL
  < usub (wrap_uint32 (millis_at (env w) (S (n_millis (cur w)))))
         (lastCheck (glob w)) ->
  restarted (loop w) = true.
Proof.
  intros [Lo Hi] Due. apply Z.gtb_lt in Due.
  assert (Over : forall g : Globals,
             reconnectCount g = reconnectCount (glob w)
             \/ reconnectCount g = wrap_int32 (reconnectCount (glob w) + 1) ->
             (reconnectCount g >? 10) = true).
  { intros g [R | R]; rewrite R; apply Z.gtb_lt; [lia|].
    rewrite wrap_int32_small; unfold INT_MIN, INT_MAX in *; lia. }
  assert (Status : forall (now : Z) (w1 : World),
             (reconnectCount (glob w1) >? 10) = true ->
             exists w2 : World, statusCycle now w1 = Reboot w2).
  { intros now w1 R. apply restarted_true_inv.
    destruct (statusCycle_observed now w1) as (E & _). now rewrite E. }
  unfold loop. run.
  destruct (server_handleClient_spec w) as (c1 & evs1 & E1 & M1).
  rewrite E1. run.
  match goal with
  | |- context [updateLED ?W] =>
      destruct (updateLED_spec W) as (s2 & evs2 & E2 & _)
  end.
  rewrite E2. run. rewrite M1.
  set (now := wrap_uint32 (millis_at (env w) (S (n_millis (cur w))))) in *.
  destruct (usub now (lastWatchdog (glob w)) >? CONNECTION_WATCHDOG); run.
  - match goal with
    | |- context [connectionWatchdog ?W] =>
        destruct (connectionWatchdog_spec W) as (g3 & s3 & c3 & evs3 & E3 & T3 & R3)
    end.
    rewrite E3. run. cbn in T3, R3.
    unfold timers in T3. injection T3 as T31 T32 T33 T34.
    rewrite T33.
    destruct (usub now (lastMemoryCheck (glob w)) >? 10000); run.
    + match goal with
      | |- context [checkMemory ?W] =>
          destruct (checkMemory_spec W)
            as [(w4 & E4) | (g4 & c4 & evs4 & E4 & B4)]
      end; rewrite E4; run; [reflexivity|].
      unfold bookkeeping in B4. cbn in B4.
      injection B4 as B41 B42 B43 B44 B45.
      rewrite B41, T31, Due. run.
      match goal with
      | |- context [statusCycle now ?W] =>
          destruct (Status now W) as (w5 & E5)
      end.
      { cbn. rewrite B45. now apply Over. }
      rewrite E5. reflexivity.
    + rewrite T31, Due. run.
      match goal with
      | |- context [statusCycle now ?W] =>
          destruct (Status now W) as (w5 & E5)
      end.
      { cbn. now apply Over. }
      rewrite E5. reflexivity.
  - destruct (usub now (lastMemoryCheck (glob w)) >? 10000); run.
    + match goal with
      | |- context [checkMemory ?W] =>
          destruct (checkMemory_spec W)
            as [(w4 & E4) | (g4 & c4 & evs4 & E4 & B4)]
      end; rewrite E4; run; [reflexivity|].
      unfold bookkeeping in B4. cbn in B4.
      injection B4 as B41 B42 B43 B44 B45.
      rewrite B41, Due. run.
      match goal with
      | |- context [statusCycle now ?W] =>
          destruct (Status now W) as (w5 & E5)
      end.
      { cbn. rewrite B45. apply Over. now left. }
      rewrite E5. reflexivity.
    + rewrite Due. run.
      match goal with
      | |- context [statusCycle now ?W] =>
          destruct (Status now W) as (w5 & E5)
      end.
      { cbn. apply Over. now left. }
      rewrite E5. reflexivity.
Qed.

(** ** The flag hierarchy

    The watchdog and the probe keep it; the memory guard and the
    access-point check do not. *)

(** [enableNAPT] is the only writer of [naptOK := true], and it sets
    nothing when the link flag is down. *)
Lemma enableNAPT_needs_link (w : World) :
  naptOK (glob w) = false ->
  naptOK (glob (after enableNAPT w)) = true ->
  stationOK (glob w) = true.
Proof.
  intros Hn H. destruct (stationOK (glob w)) eqn:Hs; [reflexivity|].
  unfold after in H. rewrite (enableNAPT_link_down w Hs) in H.
  cbn in H. congruence.
Qed.



(** The probe ends with [internetOK] implying both other flags. *)
Lemma testInternet_reachable_needs_forwarding (w : World) :
  reachable_needs_forwarding (glob (after testInternet w))
  /\ (internetOK (glob (after testInternet w)) = true ->
      stationOK (glob (after testInternet w)) = true).
Proof.
  unfold reachable_needs_forwarding.
  enough (internetOK (glob (after testInternet w)) = true ->
          naptOK (glob (after testInternet w)) = true
          /\ stationOK (glob (after testInternet w)) = true)
    by (split; intros H0; now destruct (H H0)).
  intros H.
  destruct (stationOK (glob w)) eqn:Hs; [destruct (naptOK (glob w)) eqn:Hn|].
  - destruct (testInternet_spec w) as (b & c & evs & E & _).
    unfold after in *. rewrite E in *. cbn in *. auto.
  - unfold after in H. rewrite (testInternet_guard w (or_intror Hn)) in H.
    discriminate.
  - unfold after in H. rewrite (testInternet_guard w (or_introl Hs)) in H.
    discriminate.
Qed.

(** The memory guard keeps [naptOK] implying [stationOK]. *)
Lemma checkMemory_forwarding_needs_link (w : World) :
  forwarding_needs_link (glob w) ->
  forwarding_needs_link (glob (after checkMemory w)).
Proof.
  unfold forwarding_needs_link. intros I.
  destruct (Z.lt_ge_cases (wrap_int32 (reading w 0)) LOW_MEMORY) as [H | H].
  - destruct (checkMemory_low_observed w H) as (evs & _ & _ & G & _).
    rewrite G. cbn. unfold retries_napt. intros A.
    apply andb_true_iff in A. destruct A as [A _].
    apply andb_true_iff in A. tauto.
  - destruct (checkMemory_healthy_observed w H) as (_ & _ & G).
    rewrite G. exact I.
Qed.

(** ** Where the code leaves the flag hierarchy *)

(** C1 at its failing input.  With all three flags up, a memory-check
    cycle that reads 7000, then 5000, 5000 returns with [naptOK] cleared
    and [internetOK] still set.  The same state is reached from power-up:
    after [setup] and two [loop] iterations in [env_memory_dip] the flags
    are (up, down, up), and they still are after the third iteration,
    whose status cycle skips the probe because [naptOK] is down. *)
Theorem checkMemory_leaves_internetOK_stale :
  restarted (checkMemory world_memory_dip) = false
  /\ glob (after checkMemory world_memory_dip)
     = mkGlobals true false true 0 0 0 0 0
  /\ glob (after (setup ;; loops 1) (boot env_memory_dip))
     = mkGlobals true true true 31000 31000 31000 100 0
  /\ restarted ((setup ;; loops 2) (boot env_memory_dip)) = false
  /\ glob (after (setup ;; loops 2) (boot env_memory_dip))
     = mkGlobals true false true 31000 42000 42000 100 0
  /\ restarted ((setup ;; loops 3) (boot env_memory_dip)) = false
  /\ glob (after (setup ;; loops 3) (boot env_memory_dip))
     = mkGlobals true false true 73000 73000 73000 100 0.
Proof. vm_compute. repeat split. Qed.

(** C6 at its failing input.  With the link and forwarding flags up,
    [checkAPStatus] finding the mode lost and the link down reconnects;
    when the connect fails it returns with [stationOK] cleared and
    [naptOK] still set.  The same state is reached from power-up: after
    [setup] and one [loop] iteration in [env_mode_lost] the flags are
    (down, up, down). *)
Theorem checkAPStatus_leaves_naptOK_stale :
  restarted (checkAPStatus world_mode_lost) = false
  /\ glob (after checkAPStatus world_mode_lost)
     = mkGlobals false true true 0 0 0 0 0
  /\ glob (after setup (boot env_mode_lost))
     = mkGlobals true true false 0 0 0 100 0
  /\ restarted ((setup ;; loops 1) (boot env_mode_lost)) = false
  /\ glob (after (setup ;; loops 1) (boot env_mode_lost))
     = mkGlobals false true false 31000 31000 31000 100 0.
Proof. vm_compute. repeat split. Qed.

(** ** What the memory guard does not do *)

(** C3 as stated fails: a cycle whose first reading is 3000, in the
    emergency tier, and whose later readings are 5000 (forwarding was
    shed in between) returns without calling [ESP.restart()]. *)
Lemma emergency_reading_without_restart :
  reading world_emergency_recovers 0 < CRITICAL_MEMORY
  /\ restarted (checkMemory world_emergency_recovers) = false
  /\ count is_restart (emitted checkMemory world_emergency_recovers) = 0%nat.
Proof. vm_compute. repeat split. Qed.

(** C4 at its failing input.  Forwarding is shed in a cycle that reads
    7000, 5000, 5000: the cycle clears [naptOK] and calls nothing of lwIP.
    The next cycle reads 9000, a healthy reading, with the link flag up:
    it takes that one reading and returns, and forwarding is still
    disabled after it, because the re-enable step of line 220 sits inside
    the low-memory branch.  The same from power-up in
    [env_memory_recovers]: forwarding is shed in the second [loop]
    iteration and is still disabled after the third and the fourth, whose
    memory checks read 40000 with the link up; the only calls to lwIP in
    the whole run are the two [setup] made. *)
Theorem healthy_reading_without_reenable :
  naptOK (glob world_shed_then_healthy) = true
  /\ wrap_int32 (reading world_shed_then_healthy 0) < LOW_MEMORY
  /\ emitted checkMemory world_shed_then_healthy
     = [EvSerial "Low memory: %d bytes - aggressive cleanup\n";
        EvSerial "Disabling NAPT to free memory";
        EvDelay 1000; EvYield; EvDelay 100]
  /\ naptOK (glob (after checkMemory world_shed_then_healthy)) = false
  /\ stationOK (glob (after checkMemory world_shed_then_healthy)) = true
  /\ reading (after checkMemory world_shed_then_healthy) 0 = 9000
  /\ emitted checkMemory (after checkMemory world_shed_then_healthy) = []
  /\ naptOK (glob (after checkMemory
                         (after checkMemory world_shed_then_healthy))) = false
  /\ glob (after (setup ;; loops 1) (boot env_memory_recovers))
     = mkGlobals true true true 31000 31000 31000 100 0
  /\ glob (after (setup ;; loops 2) (boot env_memory_recovers))
     = mkGlobals true false true 31000 42000 42000 100 0
  /\ reading (after (setup ;; loops 2) (boot env_memory_recovers)) 0 = 40000
  /\ glob (after (setup ;; loops 3) (boot env_memory_recovers))
     = mkGlobals true false true 31000 53000 53000 100 0
  /\ restarted ((setup ;; loops 4) (boot env_memory_recovers)) = false
  /\ glob (after (setup ;; loops 4) (boot env_memory_recovers))
     = mkGlobals true false true 64000 64000 64000 100 0
  /\ filter is_napt_call
            (trace (after (setup ;; loops 4) (boot env_memory_recovers)))
     = [EvNaptInit 300 5; EvNaptEnable 1].
Proof. vm_compute. repeat split. Qed.

(** C5 as stated fails: the re-enable bound is not above the trigger;
    one and the same reading, 7000, triggers the cleanup and passes the
    re-enable check of the same cycle. *)
Lemma reenable_bound_not_above_trigger :
  ~ (LOW_MEMORY < REENABLE_MEMORY)
  /\ wrap_int32 (reading world_between_bounds 0) < LOW_MEMORY
  /\ REENABLE_MEMORY < reading world_between_bounds 1
  /\ nth_error (emitted checkMemory world_between_bounds) 5
     = Some (EvSerial "Re-enabling NAPT with minimal memory")
  /\ naptOK (glob (after checkMemory world_between_bounds)) = true.
Proof.
  split; [unfold LOW_MEMORY, REENABLE_MEMORY; lia|].
  vm_compute. repeat split.
Qed.

(** ** The theorems at concrete worlds *)

(** C10 at power-up, where both flags are down. *)
Lemma testInternet_without_prerequisites_witness :
  (stationOK (glob (boot healthy_env)) = false
   \/ naptOK (glob (boot healthy_env)) = false)
  /\ testInternet (boot healthy_env)
     = Ret false (set_glob (with_internetOK false (glob (boot healthy_env)))
                           (boot healthy_env))
  /\ internetOK (glob (after testInternet (boot healthy_env))) = false
  /\ emitted testInternet (boot healthy_env) = []
  /\ n_connect (cur (after testInternet (boot healthy_env)))
     = n_connect (cur (boot healthy_env)).
Proof.
  split; [left; reflexivity|].
  apply (testInternet_without_prerequisites (boot healthy_env)).
  left; reflexivity.
Defined.

(** C7 on the scenario of the specification: the first endpoint fails,
    the second connects, the third is never tried. *)
Lemma testInternet_first_success_wins_witness :
  stationOK (glob world_second_endpoint) = true
  /\ naptOK (glob world_second_endpoint) = true
  /\ (let answer (i : nat) :=
        connect_at (env world_second_endpoint)
                   (n_connect (cur world_second_endpoint) + i) in
      exists (ok : bool) (k : nat) (w' : World),
        testInternet world_second_endpoint = Ret ok w'
        /\ connects (emitted testInternet world_second_endpoint)
           = firstn k [("8.8.8.8"%string, 53); ("1.1.1.1"%string, 53);
                       ("google.com"%string, 80)]
        /\ (1 <= k <= 3)%nat
        /\ (forall i : nat, (i + 1 < k)%nat -> answer i = false)
        /\ n_connect (cur w') = (n_connect (cur world_second_endpoint) + k)%nat
        /\ internetOK (glob w') = ok
        /\ (ok = true -> answer (k - 1)%nat = true)
        /\ (ok = false -> k = 3%nat /\ answer 2%nat = false)
        /\ stationOK (glob w') = true
        /\ naptOK (glob w') = true).
Proof.
  split; [reflexivity|]. split; [reflexivity|].
  apply (testInternet_first_success_wins world_second_endpoint); reflexivity.
Defined.

(** The run the probe makes there. *)
Example second_endpoint_scenario :
  connects (emitted testInternet world_second_endpoint)
  = [("8.8.8.8"%string, 53); ("1.1.1.1"%string, 53)]
  /\ internetOK (glob (after testInternet world_second_endpoint)) = true
  /\ restarted (testInternet world_second_endpoint) = false.
Proof. vm_compute. repeat split. Qed.

(** C2 with the link gone for good: three consecutive cycles, the third
    forcing a reconnect that fails. *)
Lemma three_misses_force_one_reconnect_witness :
  failCount (stat world_link_lost) = 0
  /\ INT_MIN <= reconnectCount (glob world_link_lost) < INT_MAX
  /\ link_down world_link_lost
  /\ carries_counters (after connectionWatchdog world_link_lost)
                      (after connectionWatchdog world_link_lost)
  /\ link_down (after connectionWatchdog world_link_lost)
  /\ carries_counters
       (after connectionWatchdog (after connectionWatchdog world_link_lost))
       (after connectionWatchdog (after connectionWatchdog world_link_lost))
  /\ link_down
       (after connectionWatchdog (after connectionWatchdog world_link_lost))
  /\ count is_disconnect
       (emitted connectionWatchdog
          (after connectionWatchdog (after connectionWatchdog world_link_lost)))
     = 1%nat
  /\ count is_begin
       (emitted connectionWatchdog
          (after connectionWatchdog (after connectionWatchdog world_link_lost)))
     = 1%nat
  /\ failCount
       (stat (after connectionWatchdog
                (after connectionWatchdog
                   (after connectionWatchdog world_link_lost))))
     = 0
  /\ reconnectCount
       (glob (after connectionWatchdog
                (after connectionWatchdog
                   (after connectionWatchdog world_link_lost))))
     = reconnectCount (glob world_link_lost) + 1.
Proof.
  assert (H0 : failCount (stat world_link_lost) = 0) by reflexivity.
  assert (H1 : INT_MIN <= reconnectCount (glob world_link_lost) < INT_MAX)
    by (vm_compute; split; [discriminate | reflexivity]).
  assert (H2 : link_down world_link_lost) by reflexivity.
  assert (H3 : carries_counters (after connectionWatchdog world_link_lost)
                                (after connectionWatchdog world_link_lost))
    by (split; reflexivity).
  assert (H4 : link_down (after connectionWatchdog world_link_lost))
    by reflexivity.
  assert (H5 : carries_counters
                 (after connectionWatchdog
                        (after connectionWatchdog world_link_lost))
                 (after connectionWatchdog
                        (after connectionWatchdog world_link_lost)))
    by (split; reflexivity).
  assert (H6 : link_down
                 (after connectionWatchdog
                        (after connectionWatchdog world_link_lost)))
    by reflexivity.
  destruct (three_misses_force_one_reconnect
              world_link_lost
              (after connectionWatchdog world_link_lost)
              (after connectionWatchdog
                     (after connectionWatchdog world_link_lost))
              H0 H1 H2 H3 H4 H5 H6)
    as (_ & _ & _ & _ & C1 & C2 & C3 & C4).
  repeat (split; [assumption|]). assumption.
Defined.

(** The low-memory branch on a cycle that reads 7000, then 7500. *)
Lemma checkMemory_low_sheds_and_retries_witness :
  wrap_int32 (reading world_low_memory 0) < LOW_MEMORY
  /\ naptOK (glob (after checkMemory world_low_memory))
     = stationOK (glob world_low_memory)
       && (reading world_low_memory 1 >? REENABLE_MEMORY)
       && napt_accepts (env world_low_memory)
                       (n_napt_init (cur world_low_memory))
                       (n_napt_enable (cur world_low_memory))
  /\ (naptOK (glob world_low_memory) = true ->
      firstn 3 (emitted checkMemory world_low_memory)
      = [EvSerial "Low memory: %d bytes - aggressive cleanup\n";
         EvSerial "Disabling NAPT to free memory"; EvDelay 1000])
  /\ (In (EvNaptInit 300 5) (emitted checkMemory world_low_memory)
      <-> stationOK (glob world_low_memory) = true
          /\ REENABLE_MEMORY < reading world_low_memory 1)
  /\ stationOK (glob (after checkMemory world_low_memory))
     = stationOK (glob world_low_memory)
  /\ internetOK (glob (after checkMemory world_low_memory))
     = internetOK (glob world_low_memory).
Proof.
  split; [reflexivity|].
  apply (checkMemory_low_sheds_and_retries world_low_memory).
  reflexivity.
Defined.

(** C5 on a heap that stays at 7000. *)
Lemma reenable_bound_below_trigger_witness :
  stationOK (glob world_between_bounds) = true
  /\ (In (EvSerial "Re-enabling NAPT with minimal memory")
         (emitted checkMemory world_between_bounds)
      <-> wrap_int32 (reading world_between_bounds 0) < LOW_MEMORY
          /\ REENABLE_MEMORY < reading world_between_bounds 1)
  /\ CRITICAL_MEMORY < REENABLE_MEMORY < LOW_MEMORY.
Proof.
  split; [reflexivity|].
  apply (reenable_bound_below_trigger world_between_bounds).
  reflexivity.
Defined.

(** * More of the sketch *)

(** ** Frames: composing what computations leave alone *)

Section Within.
Variable R : World -> World -> Prop.
Hypothesis R_refl : forall w : World, R w w.
Hypothesis R_trans : forall w1 w2 w3 : World, R w1 w2 -> R w2 w3 -> R w1 w3.

Lemma within_ret {A} (a : A) : within R (ret a).
Proof. intros w. apply R_refl. Qed.

Lemma within_bind {A B} (m : M A) (k : A -> M B) :
  within R m -> (forall a : A, within R (k a)) -> within R (bind m k).
Proof.
  intros Hm Hk w. specialize (Hm w). unfold after, bind in *.
  destruct (m w) as [a w' | w']; cbn in *; [|exact Hm].
  apply (R_trans _ _ _ Hm). apply (Hk a w').
Qed.

Lemma within_when (b : bool) (m : M unit) : within R m -> within R (when b m).
Proof. intros Hm. destruct b; [exact Hm | apply within_ret]. Qed.

Lemma within_ignore {A} (m : M A) : within R m -> within R (ignore m).
Proof.
  intros Hm. apply within_bind; [exact Hm | intros a; apply within_ret].
Qed.

Lemma within_gets {A} (f : Globals -> A) : within R (gets f).
Proof. intros w. apply R_refl. Qed.

Lemma within_gets_static {A} (f : Statics -> A) : within R (gets_static f).
Proof. intros w. apply R_refl. Qed.
End Within.

Lemma within_weaken (R1 R2 : World -> World -> Prop) {A} (m : M A) :
  (forall w w' : World, R1 w w' -> R2 w w') -> within R1 m -> within R2 m.
Proof. intros H Hm w. apply H, Hm. Qed.

(** A step of a frame proof: split a sequence, a conditional or a call
    whose result is dropped; close a single call by computation. *)
Ltac within_step Hrefl Htrans :=
  first
    [ assumption
    | apply (within_bind _ Htrans); [|intros ?]
    | apply (within_when _ Hrefl)
    | apply (within_ignore _ Hrefl Htrans)
    | apply (within_ret _ Hrefl)
    | apply (within_gets _ Hrefl)
    | apply (within_gets_static _ Hrefl)
    | match goal with
      | |- within _ (if ?c then _ else _) => destruct c
      | |- within _ (match ?r with Some _ => _ | None => _ end) => destruct r
      | |- within _ (match ?r with GetRoot => _ | GetOther => _ end) => destruct r
      end ].

Lemma only_io_refl w : only_io w w.
Proof. repeat split. Qed.
Lemma only_io_trans w1 w2 w3 : only_io w1 w2 -> only_io w2 w3 -> only_io w1 w3.
Proof.
  unfold only_io. intros (A1 & A2 & A3) (B1 & B2 & B3).
  repeat split; congruence.
Qed.

Lemma only_flags_refl w : only_flags w w.
Proof. repeat split. Qed.
Lemma only_flags_trans w1 w2 w3 :
  only_flags w1 w2 -> only_flags w2 w3 -> only_flags w1 w3.
Proof.
  unfold only_flags. intros (A1 & A2 & A3) (B1 & B2 & B3).
  repeat split; congruence.
Qed.

Lemma only_io_flags w w' : only_io w w' -> only_flags w w'.
Proof. unfold only_io, only_flags. intros (A1 & A2 & A3). rewrite A1. auto. Qed.

(** A single call that writes at most the flags. *)
Ltac flags_call :=
  let w := fresh "w" in
  intros w; unfold only_flags, bookkeeping; run; repeat split.

Ltac flags_frame :=
  repeat within_step only_flags_refl only_flags_trans; try flags_call.

Lemma await_connection_only_flags (n : nat) :
  within only_flags (await_connection n).
Proof. induction n as [|n IH]; cbn [await_connection]; flags_frame. Qed.

Lemma connectToRouter_only_flags : within only_flags connectToRouter.
Proof.
  pose proof (await_connection_only_flags 20).
  unfold connectToRouter. flags_frame.
Qed.

Lemma startAccessPoint_only_flags : within only_flags startAccessPoint.
Proof. unfold startAccessPoint. flags_frame. Qed.

Lemma enableNAPT_only_flags : within only_flags enableNAPT.
Proof. unfold enableNAPT, napt_init_and_enable. flags_frame. Qed.

Lemma try_servers_only_flags (endpoints : list (string * Z)) :
  within only_flags (try_servers endpoints).
Proof.
  induction endpoints as [|[host port] rest IH]; cbn [try_servers]; flags_frame.
Qed.

Lemma testInternet_only_flags : within only_flags testInternet.
Proof.
  pose proof (try_servers_only_flags (combine testServers testPorts)).
  unfold testInternet. flags_frame.
Qed.

Lemma checkMemory_only_flags : within only_flags checkMemory.
Proof.
  pose proof enableNAPT_only_flags.
  unfold checkMemory. flags_frame.
Qed.

Lemma checkAPStatus_only_flags : within only_flags checkAPStatus.
Proof.
  pose proof enableNAPT_only_flags. pose proof connectToRouter_only_flags.
  pose proof startAccessPoint_only_flags.
  unfold checkAPStatus. flags_frame.
Qed.

(** *** What the watchdog, the status cycle and [loop] leave alone *)

Lemma watchdog_frame_refl w : watchdog_frame w w.
Proof. repeat split. Qed.
Lemma watchdog_frame_trans w1 w2 w3 :
  watchdog_frame w1 w2 -> watchdog_frame w2 w3 -> watchdog_frame w1 w3.
Proof.
  unfold watchdog_frame. intros (A1 & A2 & A3 & A4) (B1 & B2 & B3 & B4).
  repeat split; congruence.
Qed.
Lemma only_flags_watchdog_frame w w' : only_flags w w' -> watchdog_frame w w'.
Proof.
  unfold only_flags, watchdog_frame, bookkeeping, timers.
  intros (A1 & A2 & A3). injection A1 as B1 B2 B3 B4 B5.
  rewrite A2. repeat split; congruence.
Qed.

Lemma status_frame_refl w : status_frame w w.
Proof. repeat split. Qed.
Lemma status_frame_trans w1 w2 w3 :
  status_frame w1 w2 -> status_frame w2 w3 -> status_frame w1 w3.
Proof.
  unfold status_frame.
  intros (A1 & A2 & A3 & A4 & A5 & A6) (B1 & B2 & B3 & B4 & B5 & B6).
  repeat split; congruence.
Qed.
Lemma only_flags_status_frame w w' : only_flags w w' -> status_frame w w'.
Proof.
  unfold only_flags, status_frame, bookkeeping.
  intros (A1 & A2 & A3). injection A1 as B1 B2 B3 B4 B5.
  repeat split; congruence.
Qed.

Lemma boot_frame_refl w : boot_frame w w.
Proof. repeat split. Qed.
Lemma boot_frame_trans w1 w2 w3 :
  boot_frame w1 w2 -> boot_frame w2 w3 -> boot_frame w1 w3.
Proof.
  unfold boot_frame. intros (A1 & A2) (B1 & B2). split; congruence.
Qed.
Lemma only_flags_boot_frame w w' : only_flags w w' -> boot_frame w w'.
Proof.
  unfold only_flags, boot_frame, bookkeeping.
  intros (A1 & A2 & A3). injection A1 as B1 B2 B3 B4 B5. split; congruence.
Qed.
Lemma watchdog_frame_boot_frame w w' : watchdog_frame w w' -> boot_frame w w'.
Proof.
  unfold watchdog_frame, boot_frame, timers.
  intros (A1 & A2 & A3 & A4). injection A1 as B1 B2 B3 B4. split; congruence.
Qed.
Lemma status_frame_boot_frame w w' : status_frame w w' -> boot_frame w w'.
Proof.
  unfold status_frame, boot_frame. intros (A1 & A2 & A3 & A4 & A5 & A6).
  split; congruence.
Qed.

Lemma kept_refl (P : World -> Prop) w : kept P w w.
Proof. intros H. exact H. Qed.
Lemma kept_trans (P : World -> Prop) w1 w2 w3 :
  kept P w1 w2 -> kept P w2 w3 -> kept P w1 w3.
Proof. unfold kept. auto. Qed.
Lemma only_flags_kept_failCount w w' :
  only_flags w w' -> kept failCount_in_range w w'.
Proof.
  unfold only_flags, kept, failCount_in_range. intros (_ & A2 & _).
  now rewrite A2.
Qed.

Lemma status_frame_kept_failCount w w' :
  status_frame w w' -> kept failCount_in_range w w'.
Proof.
  unfold status_frame, kept, failCount_in_range.
  intros (_ & _ & _ & _ & A5 & _). now rewrite A5.
Qed.

Lemma connectionWatchdog_frame : within watchdog_frame connectionWatchdog.
Proof.
  pose proof (within_weaken _ _ _ only_flags_watchdog_frame
                            connectToRouter_only_flags).
  pose proof (within_weaken _ _ _ only_flags_watchdog_frame
                            enableNAPT_only_flags).
  unfold connectionWatchdog.
  repeat within_step watchdog_frame_refl watchdog_frame_trans;
    intros w; unfold watchdog_frame, timers; run; repeat split.
Qed.

Lemma statusCycle_frame (now : Z) : within status_frame (statusCycle now).
Proof.
  pose proof (within_weaken _ _ _ only_flags_status_frame
                            checkAPStatus_only_flags).
  pose proof (within_weaken _ _ _ only_flags_status_frame
                            testInternet_only_flags).
  unfold statusCycle.
  repeat within_step status_frame_refl status_frame_trans;
    intros w; unfold status_frame; run; repeat split.
Qed.

Lemma handleRoot_only_io : within only_io handleRoot.
Proof.
  unfold handleRoot.
  repeat within_step only_io_refl only_io_trans;
    intros w; unfold only_io; run; repeat split.
Qed.

Lemma server_handleClient_only_io : within only_io server_handleClient.
Proof.
  pose proof handleRoot_only_io.
  unfold server_handleClient, handleNotFound.
  repeat within_step only_io_refl only_io_trans;
    intros w; unfold only_io; run; repeat split.
Qed.

Lemma loop_boot_frame : within boot_frame loop.
Proof.
  pose proof (within_weaken _ _ _ (fun w w' H => only_flags_boot_frame w w'
                                                   (only_io_flags w w' H))
                            server_handleClient_only_io).
  pose proof (within_weaken _ _ _ watchdog_frame_boot_frame
                            connectionWatchdog_frame).
  pose proof (within_weaken _ _ _ only_flags_boot_frame checkMemory_only_flags).
  pose proof (fun now => within_weaken _ _ _ status_frame_boot_frame
                                       (statusCycle_frame now)).
  unfold loop, updateLED, blink_every.
  repeat within_step boot_frame_refl boot_frame_trans;
    intros w; unfold boot_frame; run; repeat split.
Qed.

Lemma loop_keeps_failCount_in_range : within (kept failCount_in_range) loop.
Proof.
  pose proof (within_weaken _ _ _ (fun w w' H => only_flags_kept_failCount w w'
                                                   (only_io_flags w w' H))
                            server_handleClient_only_io).
  assert (within (kept failCount_in_range) connectionWatchdog)
    by (intros w; exact (watchdog_failCount_range w)).
  pose proof (within_weaken _ _ _ only_flags_kept_failCount
                            checkMemory_only_flags).
  pose proof (fun now => within_weaken _ _ _ status_frame_kept_failCount
                                       (statusCycle_frame now)).
  unfold loop, updateLED, blink_every.
  repeat within_step (kept_refl failCount_in_range)
         (kept_trans failCount_in_range);
    intros w; unfold kept, failCount_in_range; run; intros; assumption.
Qed.

(** *** What is never called *)

Lemma emits_only_refl (p : Event -> bool) w : emits_only p w w.
Proof. exists []. now rewrite app_nil_r. Qed.
Lemma emits_only_trans (p : Event -> bool) w1 w2 w3 :
  emits_only p w1 w2 -> emits_only p w2 w3 -> emits_only p w1 w3.
Proof.
  intros (e1 & A1 & A2) (e2 & B1 & B2). exists (e1 ++ e2).
  rewrite B1, A1, app_assoc, forallb_app, A2, B2. auto.
Qed.

(** The events a computation emitted, when they are known to be [evs]. *)
Lemma emits_only_these (p : Event -> bool) w w' evs :
  emits_only p w w' -> trace w' = trace w ++ evs -> forallb p evs = true.
Proof.
  intros (e1 & A1 & A2) B. rewrite A1 in B. apply app_inv_head in B.
  now subst.
Qed.

Lemma emits_only_emitted (p : Event -> bool) {A} (m : M A) w :
  emits_only p w (after m w) -> forallb p (emitted m w) = true.
Proof.
  intros (e1 & A1 & A2). unfold emitted. rewrite A1, skipn_length_app.
  exact A2.
Qed.

Lemma forallb_count_zero (p q : Event -> bool) evs :
  (forall e, p e = true -> q e = false) ->
  forallb p evs = true -> count q evs = 0%nat.
Proof.
  intros H. unfold count. induction evs as [|e evs IH]; cbn; [reflexivity|].
  intros F. apply andb_true_iff in F. destruct F as [F1 F2].
  rewrite (H e F1). auto.
Qed.

Lemma plain_not_restart e : plain e = true -> is_restart e = false.
Proof. destruct e; cbn; congruence. Qed.
Lemma plain_not_disconnect e : plain e = true -> is_disconnect e = false.
Proof. destruct e; cbn; congruence. Qed.
Lemma plain_not_server_begin e : plain e = true -> is_server_begin e = false.
Proof. destruct e; cbn; congruence. Qed.

(** A single call whose event, if any, is plain. *)
Ltac plain_call :=
  let w := fresh "w" in
  intros w; unfold emits_only; run;
  first [ exists []; rewrite app_nil_r; split; reflexivity
        | eexists; split; reflexivity ].

Ltac plain_frame :=
  repeat within_step (emits_only_refl plain) (emits_only_trans plain);
  try plain_call.

Lemma await_connection_plain (n : nat) :
  within (emits_only plain) (await_connection n).
Proof. induction n as [|n IH]; cbn [await_connection]; plain_frame. Qed.

Lemma connectToRouter_plain : within (emits_only plain) connectToRouter.
Proof.
  pose proof (await_connection_plain 20).
  unfold connectToRouter. plain_frame.
Qed.

Lemma startAccessPoint_plain : within (emits_only plain) startAccessPoint.
Proof. unfold startAccessPoint. plain_frame. Qed.

Lemma enableNAPT_plain : within (emits_only plain) enableNAPT.
Proof. unfold enableNAPT, napt_init_and_enable. plain_frame. Qed.

Lemma try_servers_plain (endpoints : list (string * Z)) :
  within (emits_only plain) (try_servers endpoints).
Proof.
  induction endpoints as [|[host port] rest IH]; cbn [try_servers]; plain_frame.
Qed.

Lemma testInternet_plain : within (emits_only plain) testInternet.
Proof.
  pose proof (try_servers_plain (combine testServers testPorts)).
  unfold testInternet. plain_frame.
Qed.

Lemma checkAPStatus_plain : within (emits_only plain) checkAPStatus.
Proof.
  pose proof enableNAPT_plain. pose proof connectToRouter_plain.
  pose proof startAccessPoint_plain.
  unfold checkAPStatus. plain_frame.
Qed.

Lemma updateLED_plain : within (emits_only plain) updateLED.
Proof. unfold updateLED, blink_every. plain_frame. Qed.

Lemma server_handleClient_plain : within (emits_only plain) server_handleClient.
Proof. unfold server_handleClient, handleRoot, handleNotFound. plain_frame. Qed.

(** ** [setup] *)

(** [setup] in full: it returns; it writes [bootTime] and, when the
    access point came up, the link and forwarding flags; with the access
    point down it returns before any connect attempt and before the web
    server is started. *)
Lemma setup_spec (w : World) :
  exists (g : Globals) (c : Cursor) (evs : list Event),
    setup w = Ret tt (mkWorld g (stat w) (env w) c (trace w ++ evs))
    /\ bootTime g = wrap_uint32 (millis_at (env w) (n_millis (cur w)))
    /\ lastCheck g = lastCheck (glob w)
    /\ lastWatchdog g = lastWatchdog (glob w)
    /\ lastMemoryCheck g = lastMemoryCheck (glob w)
    /\ reconnectCount g = reconnectCount (glob w)
    /\ internetOK g = internetOK (glob w)
    /\ count is_restart evs = 0%nat
    /\ count is_disconnect evs = 0%nat
    /\ (if access_point_starts w
        then count is_begin evs = 1%nat
             /\ count is_server_begin evs = 1%nat
             /\ (naptOK g = true -> naptOK (glob w) = true \/ stationOK g = true)
        else count is_begin evs = 0%nat
             /\ count is_server_begin evs = 0%nat
             /\ stationOK g = stationOK (glob w)
             /\ naptOK g = naptOK (glob w)).
Proof.
  unfold access_point_starts.
  unfold setup, startAccessPoint. run.
  change (String.eqb MAIN_SSID "YOUR_ROUTER_SSID") with false. run.
  destruct (softAPConfig_at (env w) (n_softAPConfig (cur w))); run;
    [destruct (softAP_at (env w) (n_softAP (cur w))); run|].
  - match goal with
    | |- context [connectToRouter ?W] =>
        destruct (connectToRouter_spec W) as (b & c & evs & E & B1 & B2 & B3)
    end.
    pose proof (forallb_count_zero _ _ _ plain_not_server_begin
                  (emits_only_these _ _ _ _ (connectToRouter_plain _)
                     (f_equal trace (f_equal world_of E)))) as S1.
    rewrite E. run. destruct b; run.
    + match goal with
      | |- context [enableNAPT ?W] =>
          destruct (enableNAPT_link_up W eq_refl)
            as (c' & evs' & E' & _ & _ & _ & _ & _ & N1 & N2 & N3 & _)
      end.
      pose proof (forallb_count_zero _ _ _ plain_not_server_begin
                    (emits_only_these _ _ _ _ (enableNAPT_plain _)
                       (f_equal trace (f_equal world_of E')))) as S2.
      rewrite E'. run. rewrite <- ?app_assoc. cbn [app].
      eexists. eexists. eexists. split; [destruct w; reflexivity|].
      unfold count in *.
      repeat (rewrite ?filter_app, ?length_app;
              cbn [filter is_restart is_disconnect is_begin is_server_begin
                          List.length]).
      rewrite B1, B2, B3, N1, N2, N3, S1, S2. cbn. repeat split. auto.
    + rewrite <- ?app_assoc. cbn [app].
      eexists. eexists. eexists. split; [destruct w; reflexivity|].
      unfold count in *.
      repeat (rewrite ?filter_app, ?length_app;
              cbn [filter is_restart is_disconnect is_begin is_server_begin
                          List.length]).
      rewrite B1, B2, B3, S1. cbn. repeat split. auto.
  - rewrite <- ?app_assoc. cbn [app].
    eexists. eexists. eexists. split; [destruct w; reflexivity|].
    cbn. repeat split.
  - rewrite <- ?app_assoc. cbn [app].
    eexists. eexists. eexists. split; [destruct w; reflexivity|].
    cbn. repeat split.
Qed.

(** ** Whole runs *)

Lemma after_bind {A B} (m : M A) (k : A -> M B) (w : World) :
  after (bind m k) w
  = match m w with
    | Ret a w' => after (k a) w'
    | Reboot w' => w'
    end.
Proof. unfold after, bind. destruct (m w); reflexivity. Qed.

Lemma bind_Ret {A B} (m : M A) (k : A -> M B) (w w' : World) (a : A) :
  m w = Ret a w' -> bind m k w = k a w'.
Proof. intros E. unfold bind. now rewrite E. Qed.

Lemma loops_within (R : World -> World -> Prop) :
  (forall w, R w w) ->
  (forall w1 w2 w3, R w1 w2 -> R w2 w3 -> R w1 w3) ->
  within R loop -> forall n : nat, within R (loops n).
Proof.
  intros Hr Ht Hl n. induction n as [|n IH]; cbn [loops].
  - apply (within_ret _ Hr).
  - apply (within_bind _ Ht); [exact Hl | intros _; exact IH].
Qed.

(** X1.  From power-up, in every outside world and after any number of
    [loop] iterations (also in the world a restart is called in), the
    watchdog's miss counter [failCount] is 0, 1 or 2. *)
Theorem failCount_in_range_always :
  forall (e : Env) (n : nat),
    failCount_in_range (after (setup ;; loops n) (boot e)).
Proof.
  intros e n. rewrite after_bind.
  destruct (setup_spec (boot e)) as (g & c & evs & E & _). rewrite E.
  apply (loops_within _ (kept_refl _) (kept_trans _)
                      loop_keeps_failCount_in_range n).
  unfold failCount_in_range. cbn. lia.
Qed.

(** X2.  From power-up, in every outside world and after any number of
    [loop] iterations, [bootTime] is the clock reading [setup] took: no
    iteration of [loop] writes it. *)
Theorem bootTime_fixed_always :
  forall (e : Env) (n : nat),
    bootTime (glob (after (setup ;; loops n) (boot e)))
    = wrap_uint32 (millis_at e 0).
Proof.
  intros e n. rewrite after_bind.
  destruct (setup_spec (boot e)) as (g & c & evs & E & B & _). rewrite E.
  destruct (loops_within _ boot_frame_refl boot_frame_trans loop_boot_frame n
              (mkWorld g (stat (boot e)) (env (boot e)) c
                       (trace (boot e) ++ evs))) as [F _].
  rewrite F. exact B.
Qed.

(** ** One iteration of [loop], continued *)

(** A computation that stays within [R] either restarts or hands its
    continuation a world related to the one it started in. *)
Lemma restarted_bind_within (R : World -> World -> Prop) {A B}
      (m : M A) (k : A -> M B) (w : World) :
  within R m ->
  (forall (a : A) (w' : World), R w w' -> restarted (k a w') = true) ->
  restarted (bind m k w) = true.
Proof.
  intros Hm Hk. specialize (Hm w). unfold after, bind in *.
  destruct (m w) as [a w' | w']; [apply Hk, Hm | reflexivity].
Qed.

(** X3.  The scheduled restart: a [loop] iteration whose clock reading
    is more than [REBOOT_INTERVAL] (12 hours) past [bootTime] ends in a
    restart, whatever the flags, the counters and the other timers are and
    whatever the watchdog, the memory guard and the status cycle do before;
    the elapsed time is taken modulo 2^32. *)
Theorem loop_maintenance_reboot :
  forall w : World,
    REBOOT_INTERVAL < usub (loop_clock w) (bootTime (glob w)) ->
    restarted (loop w) = true.
Proof.
  intros w Due. apply Z.gtb_lt in Due. unfold loop_clock in Due.
  pose proof (within_weaken _ _ _ watchdog_frame_boot_frame
                            connectionWatchdog_frame) as Hwd.
  pose proof (within_weaken _ _ _ only_flags_boot_frame checkMemory_only_flags)
    as Hmem.
  pose proof (fun now => within_weaken _ _ _ status_frame_boot_frame
                                       (statusCycle_frame now)) as Hst.
  destruct (server_handleClient_spec w) as (c1 & evs1 & E1 & M1).
  unfold loop. rewrite (bind_Ret _ _ _ _ _ E1).
  match goal with
  | |- context [bind updateLED _ ?W] =>
      destruct (updateLED_spec W) as (s2 & evs2 & E2 & _)
  end.
  rewrite (bind_Ret _ _ _ _ _ E2).
  rewrite (bind_Ret millis _ _ _ _ eq_refl).
  cbn [env cur n_millis next_millis]. rewrite M1.
  set (now := wrap_uint32 (millis_at (env w) (S (n_millis (cur w))))) in *.
  rewrite (bind_Ret (gets lastWatchdog) _ _ _ _ eq_refl).
  apply (restarted_bind_within boot_frame).
  { repeat within_step boot_frame_refl boot_frame_trans;
      intros w0; unfold boot_frame; run; repeat split. }
  intros _ w3 [B3 _]. cbn in B3.
  rewrite (bind_Ret (gets lastMemoryCheck) _ _ _ _ eq_refl).
  apply (restarted_bind_within boot_frame).
  { repeat within_step boot_frame_refl boot_frame_trans;
      intros w0; unfold boot_frame; run; repeat split. }
  intros _ w4 [B4 _].
  rewrite (bind_Ret (gets lastCheck) _ _ _ _ eq_refl).
  apply (restarted_bind_within boot_frame).
  { repeat within_step boot_frame_refl boot_frame_trans;
      intros w0; unfold boot_frame; run; repeat split. }
  intros _ w5 [B5 _].
  rewrite (bind_Ret (gets bootTime) _ _ _ _ eq_refl).
  rewrite B5, B4, B3, Due. reflexivity.
Qed.

Lemma loop_maintenance_reboot_witness :
  REBOOT_INTERVAL
  < usub (loop_clock world_half_day) (bootTime (glob world_half_day))
  /\ restarted (loop world_half_day) = true.
Proof.
  split; [reflexivity|].
  apply (loop_maintenance_reboot world_half_day). reflexivity.
Defined.

(** ** Connecting, the access point and NAPT *)

Lemma misses_le (e : Env) (n : nat) : forall i : nat, (misses e i n <= n)%nat.
Proof.
  induction n as [|n IH]; intros i; cbn [misses]; [lia|].
  destruct (is_WL_CONNECTED (wifi_status_at e i)); [lia|].
  specialize (IH (S i)). lia.
Qed.

Lemma advance_status_next (k : nat) (c : Cursor) :
  advance_status k (next_status c) = advance_status (S k) c.
Proof.
  unfold advance_status, next_status. cbn. f_equal. lia.
Qed.

(** The polling loop, exactly: it asks [polls] times and waits 500 ms
    after every miss. *)
Lemma await_connection_exact (n : nat) :
  forall w : World,
    exists evs : list Event,
      await_connection n w
      = Ret tt (mkWorld (glob w) (stat w) (env w)
                        (advance_status (polls (env w) (n_status (cur w)) n)
                                        (cur w))
                        (trace w ++ evs))
      /\ total_delay evs
         = 500 * Z.of_nat (misses (env w) (n_status (cur w)) n).
Proof.
  unfold polls. induction n as [|n IH]; intros w.
  - exists []. cbn [await_connection misses Nat.min]. run.
    rewrite app_nil_r. split; [|reflexivity].
    destruct w as [g s e c t]. destruct c. unfold advance_status. cbn.
    now rewrite Nat.add_0_r.
  - cbn [await_connection misses]. run.
    destruct (is_WL_CONNECTED (wifi_status_at (env w) (n_status (cur w)))).
    + run. exists []. rewrite app_nil_r. split; [|reflexivity].
      replace (Nat.min 1 (S n)) with 1%nat by lia.
      unfold advance_status. cbn. now rewrite Nat.add_1_r.
    + run.
      match goal with
      | |- context [await_connection n ?W] => destruct (IH W) as (evs & E & D)
      end.
      rewrite E. cbn [glob stat env cur trace n_status] in *.
      change {| n_status := S (n_status (cur w));
                n_mode := n_mode (cur w);
                n_softAPConfig := n_softAPConfig (cur w);
                n_softAP := n_softAP (cur w);
                n_napt_init := n_napt_init (cur w);
                n_napt_enable := n_napt_enable (cur w);
                n_heap := n_heap (cur w);
                n_connect := n_connect (cur w);
                n_millis := n_millis (cur w);
                n_stations := n_stations (cur w);
                n_request := n_request (cur w) |}
        with (next_status (cur w)).
      rewrite advance_status_next.
      exists ([EvDelay 500; EvSerial "."] ++ evs).
      rewrite <- !app_assoc. cbn [app]. split.
      * now rewrite <- Nat.succ_min_distr.
      * cbn [total_delay]. rewrite D. lia.
Qed.

Lemma total_delay_app (l1 l2 : list Event) :
  total_delay (l1 ++ l2) = total_delay l1 + total_delay l2.
Proof.
  induction l1 as [|e l1 IH]; cbn [app total_delay]; [reflexivity|].
  destruct e; rewrite IH; lia.
Qed.

(** [connectToRouter], exactly. *)
Lemma connectToRouter_exact (w : World) :
  exists (b : bool) (c : Cursor) (evs : list Event),
    connectToRouter w
    = Ret b (mkWorld (with_stationOK b (glob w)) (stat w) (env w) c
                     (trace w ++ evs))
    /\ b = is_WL_CONNECTED
             (wifi_status_at (env w)
                (n_status (cur w) + polls (env w) (n_status (cur w)) 20))
    /\ n_status c
       = (n_status (cur w) + polls (env w) (n_status (cur w)) 20 + 1)%nat
    /\ total_delay evs
       = (if is_WIFI_AP_STA (wifi_mode_at (env w) (n_mode (cur w)))
          then 0 else 100)
         + 500 * Z.of_nat (misses (env w) (n_status (cur w)) 20).
Proof.
  unfold connectToRouter. run.
  destruct (is_WIFI_AP_STA (wifi_mode_at (env w) (n_mode (cur w)))); run;
    match goal with
    | |- context [await_connection 20 ?W] =>
        destruct (await_connection_exact 20 W) as (evs & E & D)
    end;
    rewrite E; cbn [glob stat env cur trace n_status next_mode] in *;
    unfold advance_status at 1; run;
    match goal with
    | |- context [is_WL_CONNECTED ?x] => destruct (is_WL_CONNECTED x) eqn:U
    end;
    run; rewrite <- ?app_assoc; cbn [app];
    eexists; eexists; eexists; (split; [reflexivity|]);
    (split; [reflexivity|]); (split; [cbn; lia|]);
    cbn [total_delay]; rewrite ?total_delay_app; cbn [total_delay];
    rewrite D; lia.
Qed.

(** X4.  [connectToRouter] returns; it asks for the link status once per
    poll, at most 20 polls, and once more after the polling; its result,
    which it stores in [stationOK], is whether that last answer is
    [WL_CONNECTED]; and the time it spends in [delay] is 500 ms per missed
    poll, plus 100 ms when it had to set the WiFi mode: never more than
    10100 ms. *)
Theorem connectToRouter_bounded :
  forall w : World,
    exists (b : bool) (w' : World),
      connectToRouter w = Ret b w'
      /\ stationOK (glob w') = b
      /\ b = is_WL_CONNECTED
               (wifi_status_at (env w)
                  (n_status (cur w) + polls (env w) (n_status (cur w)) 20))
      /\ n_status (cur w')
         = (n_status (cur w) + polls (env w) (n_status (cur w)) 20 + 1)%nat
      /\ (polls (env w) (n_status (cur w)) 20 <= 20)%nat
      /\ total_delay (emitted connectToRouter w)
         = (if is_WIFI_AP_STA (wifi_mode_at (env w) (n_mode (cur w)))
            then 0 else 100)
           + 500 * Z.of_nat (misses (env w) (n_status (cur w)) 20)
      /\ total_delay (emitted connectToRouter w) <= 10100.
Proof.
  intros w.
  pose proof (misses_le (env w) 20 (n_status (cur w))) as ML.
  destruct (connectToRouter_exact w) as (b & c & evs & E & Hb & Hn & Hd).
  exists b. eexists. split; [exact E|].
  unfold emitted, after. rewrite E. cbn [world_of trace glob cur].
  rewrite skipn_length_app.
  split; [reflexivity|]. split; [exact Hb|]. split; [exact Hn|].
  split; [unfold polls; lia|]. split; [exact Hd|].
  rewrite Hd.
  destruct (is_WIFI_AP_STA (wifi_mode_at (env w) (n_mode (cur w)))); lia.
Qed.

(** The link that comes up at the third poll: three polls and the check
    after them, 100 ms for the mode and 500 ms for each of two misses. *)
Example connectToRouter_third_poll :
  connectToRouter world_connects_slowly
  = Ret true (after connectToRouter world_connects_slowly)
  /\ n_status (cur (after connectToRouter world_connects_slowly)) = 4%nat
  /\ total_delay (emitted connectToRouter world_connects_slowly) = 1100.
Proof. vm_compute. repeat split. Qed.

(** X5.  [startAccessPoint] returns [true] exactly when
    [WiFi.softAPConfig] and [WiFi.softAP] both succeed; when the
    configuration fails, [WiFi.softAP] is not called at all; the first thing
    it does is set the mode to [WIFI_AP_STA]; it waits 1000 ms only on
    success, and it writes no global and no static. *)
Theorem startAccessPoint_result :
  forall w : World,
    exists (b : bool) (w' : World),
      startAccessPoint w = Ret b w'
      /\ b = access_point_starts w
      /\ count is_softAP (emitted startAccessPoint w)
         = (if softAPConfig_at (env w) (n_softAPConfig (cur w))
            then 1%nat else 0%nat)
      /\ hd_error (emitted startAccessPoint w) = Some (EvWiFiMode WIFI_AP_STA)
      /\ total_delay (emitted startAccessPoint w) = (if b then 1000 else 0)
      /\ only_io w w'.
Proof.
  intros w. unfold access_point_starts, emitted, after, startAccessPoint. run.
  destruct (softAPConfig_at (env w) (n_softAPConfig (cur w))); run;
    [destruct (softAP_at (env w) (n_softAP (cur w))); run|];
    rewrite <- ?app_assoc; cbn [app]; rewrite skipn_length_app;
    eexists; eexists; (split; [reflexivity|]);
    unfold only_io; cbn; repeat split.
Qed.

(** X6.  [enableNAPT] returns [true] exactly when the link flag is up and
    lwIP accepts the primary configuration (300, 5) or, failing that, the
    reduced one (200, 3).  With the link flag down it returns [false] in
    the world it was called in: it changes nothing and calls nothing.
    With it up it writes [naptOK], which ends equal to the result, and
    nothing else, and what it calls is exactly: a 500 ms pause, the primary
    attempt [ip_napt_init(300, 5)] (followed by [ip_napt_enable_no] only
    when the initialisation succeeded), and, exactly when the primary
    attempt was refused, a message, a 1000 ms pause and the reduced attempt
    [ip_napt_init(200, 3)]; one message tells the outcome.  [stationOK]
    and [internetOK] are never written. *)
Theorem enableNAPT_outcome :
  forall w : World,
    exists (b : bool) (w' : World),
      enableNAPT w = Ret b w'
      /\ b = stationOK (glob w)
             && napt_accepts (env w) (n_napt_init (cur w))
                             (n_napt_enable (cur w))
      /\ (if stationOK (glob w)
          then glob w' = with_naptOK b (glob w)
               /\ emitted enableNAPT w
                  = EvDelay 500
                    :: napt_calls 300 5
                         (napt_init_at (env w) (n_napt_init (cur w)))
                    ++ (if napt_try (env w) (n_napt_init (cur w))
                                    (n_napt_enable (cur w))
                        then [EvSerial
                                "Internet sharing enabled (memory optimized)"]
                        else EvSerial "NAPT failed - trying minimal config..."
                             :: EvDelay 1000
                             :: napt_calls 200 3
                                  (napt_init_at (env w)
                                     (S (n_napt_init (cur w))))
                             ++ [EvSerial
                                   (if b
                                    then "Internet sharing enabled (minimal config)"
                                    else "NAPT initialization failed completely")])
          else w' = w)
      /\ naptOK (glob w')
         = (if stationOK (glob w) then b else naptOK (glob w))
      /\ count is_reduced_napt_init (emitted enableNAPT w)
         = (if stationOK (glob w)
               && negb (napt_try (env w) (n_napt_init (cur w))
                                 (n_napt_enable (cur w)))
            then 1%nat else 0%nat)
      /\ total_delay (emitted enableNAPT w)
         = (if stationOK (glob w)
            then if napt_try (env w) (n_napt_init (cur w))
                             (n_napt_enable (cur w))
                 then 500 else 1500
            else 0)
      /\ only_flags w w'
      /\ stationOK (glob w') = stationOK (glob w)
      /\ internetOK (glob w') = internetOK (glob w).
Proof.
  intros w. destruct w as [g s e c t].
  destruct g as [st na io lc lw lm bt rc].
  unfold emitted, after, enableNAPT, napt_accepts, napt_try,
    napt_init_and_enable, napt_calls.
  run. destruct st; run.
  2:{ rewrite skipn_length_same. eexists. eexists.
      split; [reflexivity|]. unfold only_flags. cbn. repeat split. }
  destruct (napt_init_at e (n_napt_init c) =? ERR_OK); run;
    [destruct (napt_enable_at e (n_napt_enable c) =? ERR_OK); run|];
    try (destruct (napt_init_at e (S (n_napt_init c)) =? ERR_OK); run;
         [match goal with
          | |- context [napt_enable_at e ?j =? ERR_OK] =>
              destruct (napt_enable_at e j =? ERR_OK)
          end; run|]);
    rewrite <- ?app_assoc; cbn [app]; rewrite skipn_length_app;
    eexists; eexists; (split; [reflexivity|]);
    unfold only_flags; cbn; repeat split.
Qed.

(** ** The watchdog, continued *)

(** X7.  A transient drop: the link is reported down in two consecutive
    watchdog cycles, starting with the miss counter at 0, and up in the
    third.  No cycle forces a reconnect (no [WiFi.disconnect], no
    [WiFi.begin]); after the third cycle the miss counter is back at 0, the
    link flag is set and [reconnectCount] is what it was. *)
Theorem two_misses_then_up_no_reconnect :
  forall w0 w1 w2 : World,
    failCount (stat w0) = 0 ->
    link_down w0 ->
    carries_counters (after connectionWatchdog w0) w1 ->
    link_down w1 ->
    carries_counters (after connectionWatchdog w1) w2 ->
    link_up w2 ->
    emitted connectionWatchdog w0 = []
    /\ emitted connectionWatchdog w1 = []
    /\ count is_disconnect (emitted connectionWatchdog w2) = 0%nat
    /\ count is_begin (emitted connectionWatchdog w2) = 0%nat
    /\ restarted (connectionWatchdog w2) = false
    /\ failCount (stat (after connectionWatchdog w1)) = 2
    /\ failCount (stat (after connectionWatchdog w2)) = 0
    /\ stationOK (glob (after connectionWatchdog w2)) = true
    /\ reconnectCount (glob (after connectionWatchdog w2))
       = reconnectCount (glob w0).
Proof.
  intros w0 w1 w2 F0 D0 [C1f C1r] D1 [C2f C2r] U2.
  assert (M0 := watchdog_miss w0 D0).
  rewrite F0 in M0. specialize (M0 ltac:(vm_compute; reflexivity)).
  unfold after in *. rewrite M0 in *. cbn in C1f, C1r.
  assert (M1 := watchdog_miss w1 D1).
  rewrite C1f in M1. specialize (M1 ltac:(vm_compute; reflexivity)).
  rewrite M1 in *. cbn in C2f, C2r.
  destruct (watchdog_link_up w2 U2)
    as (g & c & evs & E & S1 & R1 & (B1 & B2 & _) & _).
  unfold emitted, after. rewrite M0, M1, E.
  cbn [world_of restarted trace stat glob failCount with_failCount].
  rewrite !skipn_length_same, skipn_length_app.
  repeat split; try assumption. congruence.
Qed.

Lemma two_misses_then_up_no_reconnect_witness :
  failCount (stat world_link_flaps) = 0
  /\ link_down world_link_flaps
  /\ link_down (after connectionWatchdog world_link_flaps)
  /\ link_up (after connectionWatchdog
                    (after connectionWatchdog world_link_flaps))
  /\ count is_begin
       (emitted connectionWatchdog
          (after connectionWatchdog
             (after connectionWatchdog world_link_flaps))) = 0%nat
  /\ failCount
       (stat (after connectionWatchdog
                (after connectionWatchdog
                   (after connectionWatchdog world_link_flaps)))) = 0
  /\ stationOK
       (glob (after connectionWatchdog
                (after connectionWatchdog
                   (after connectionWatchdog world_link_flaps)))) = true.
Proof.
  assert (H0 : failCount (stat world_link_flaps) = 0) by reflexivity.
  assert (H1 : link_down world_link_flaps) by reflexivity.
  assert (H2 : carries_counters (after connectionWatchdog world_link_flaps)
                                (after connectionWatchdog world_link_flaps))
    by (split; reflexivity).
  assert (H3 : link_down (after connectionWatchdog world_link_flaps))
    by reflexivity.
  assert (H4 : carries_counters
                 (after connectionWatchdog
                        (after connectionWatchdog world_link_flaps))
                 (after connectionWatchdog
                        (after connectionWatchdog world_link_flaps)))
    by (split; reflexivity).
  assert (H5 : link_up (after connectionWatchdog
                          (after connectionWatchdog world_link_flaps)))
    by reflexivity.
  destruct (two_misses_then_up_no_reconnect
              world_link_flaps
              (after connectionWatchdog world_link_flaps)
              (after connectionWatchdog
                     (after connectionWatchdog world_link_flaps))
              H0 H1 H2 H3 H4 H5)
    as (_ & _ & _ & C1 & _ & _ & C2 & C3 & _).
  repeat (split; [assumption|]). assumption.
Defined.




(** The states the memory guard can leave behind ([internetOK] up with
    [naptOK] down, link up) are not repaired by the watchdog: with the
    link flag up and the link reported up, the cycle changes no flag. *)
Example watchdog_keeps_stale_reachability :
  glob (after connectionWatchdog
              (world_with true false true healthy_env))
  = glob (world_with true false true healthy_env).
Proof. reflexivity. Qed.

(** ** The memory guard and the access-point check, continued *)

(** X9.  [checkMemory] writes no global but [naptOK] and no static, in
    every outcome.  A cycle whose first reading is [LOW_MEMORY] or more
    takes that one reading and does nothing else.  A cycle whose first
    reading is lower ends with [naptOK] implying [stationOK], whatever the
    flags were before: forwarding is never left or put up with the link
    flag down. *)
Theorem checkMemory_writes_only_naptOK :
  forall w : World,
    glob (after checkMemory w)
    = with_naptOK (naptOK (glob (after checkMemory w))) (glob w)
    /\ stat (after checkMemory w) = stat w
    /\ env (after checkMemory w) = env w
    /\ (if wrap_int32 (reading w 0) <? LOW_MEMORY
        then forwarding_needs_link (glob (after checkMemory w))
        else checkMemory w = Ret tt (set_cur (next_heap (cur w)) w)).
Proof.
  intros w.
  destruct (Z.ltb_spec (wrap_int32 (reading w 0)) LOW_MEMORY) as [H | H].
  - destruct (checkMemory_low w H) as (c & evs & E & _).
    unfold after. rewrite E.
    destruct (final_reading w <? CRITICAL_MEMORY);
      cbn [world_of glob stat env naptOK with_naptOK];
      (split; [destruct w as [[] ? ? ? ?]; reflexivity|]);
      (split; [reflexivity|]); (split; [reflexivity|]);
      unfold forwarding_needs_link, retries_napt; cbn; intros A;
      apply andb_true_iff in A; destruct A as [A _];
      apply andb_true_iff in A; tauto.
  - unfold after. rewrite (checkMemory_healthy w H). cbn.
    destruct w as [[] ? ? ? ?]. repeat split.
Qed.

(** [startAccessPoint] asks nothing about the link. *)
Lemma startAccessPoint_keeps_status_cursor (w : World) :
  exists (b : bool) (c : Cursor) (evs : list Event),
    startAccessPoint w
    = Ret b (mkWorld (glob w) (stat w) (env w) c (trace w ++ evs))
    /\ n_status c = n_status (cur w)
    /\ count is_begin evs = 0%nat.
Proof.
  unfold startAccessPoint. run.
  destruct (softAPConfig_at (env w) (n_softAPConfig (cur w))); run;
    [destruct (softAP_at (env w) (n_softAP (cur w))); run|];
    rewrite <- ?app_assoc; cbn [app];
    eexists; eexists; eexists; (split; [reflexivity|]); repeat split.
Qed.

(** What [checkAPStatus] calls: with the mode lost it starts with the
    message, [WiFi.mode(WIFI_AP_STA)] and the 100 ms pause of lines
    236-238, and makes one connect attempt exactly when the link is
    reported down. *)
Lemma checkAPStatus_events (w : World) :
  if is_WIFI_AP_STA (wifi_mode_at (env w) (n_mode (cur w)))
  then checkAPStatus w = Ret tt (set_cur (next_mode (cur w)) w)
  else firstn 3 (emitted checkAPStatus w)
       = [EvSerial "AP mode lost - restarting AP";
          EvWiFiMode WIFI_AP_STA; EvDelay 100]
       /\ if is_WL_CONNECTED (wifi_status_at (env w) (n_status (cur w)))
          then count is_begin (emitted checkAPStatus w) = 0%nat
               /\ glob (after checkAPStatus w) = glob w
          else count is_begin (emitted checkAPStatus w) = 1%nat.
Proof.
  unfold emitted, after, checkAPStatus. run.
  destruct (is_WIFI_AP_STA (wifi_mode_at (env w) (n_mode (cur w)))); run;
    [destruct w; reflexivity|].
  match goal with
  | |- context [startAccessPoint ?W] =>
      destruct (startAccessPoint_keeps_status_cursor W)
        as (b & c & evs & E & Sc & A1)
  end.
  rewrite E. run. cbn in Sc. rewrite Sc.
  destruct (is_WL_CONNECTED (wifi_status_at (env w) (n_status (cur w)))); run.
  - rewrite <- ?app_assoc. cbn [app]. rewrite skipn_length_app.
    split; [reflexivity|]. split; [|destruct w as [[] ? ? ? ?]; reflexivity].
    unfold count in *. cbn [filter is_begin]. exact A1.
  - match goal with
    | |- context [connectToRouter ?W] =>
        destruct (connectToRouter_spec W) as (b' & c' & evs' & E' & B1 & _)
    end.
    rewrite E'. run. destruct b'; run.
    + match goal with
      | |- context [enableNAPT ?W] =>
          destruct (enableNAPT_link_up W eq_refl)
            as (c2 & evs2 & E2 & _ & _ & _ & _ & _ & N1 & _)
      end.
      rewrite E2. run. rewrite <- ?app_assoc. cbn [app].
      rewrite skipn_length_app. split; [reflexivity|].
      unfold count in *. cbn [filter is_begin].
      rewrite !filter_app. cbn [filter is_begin].
      rewrite !filter_app, !length_app, A1, B1, N1. reflexivity.
    + rewrite <- ?app_assoc. cbn [app].
      rewrite skipn_length_app. split; [reflexivity|].
      unfold count in *. cbn [filter is_begin].
      rewrite !filter_app. cbn [filter is_begin].
      rewrite !length_app, A1, B1. reflexivity.
Qed.

(** [checkAPStatus] with the mode lost, step by step: the message, the
    mode and the pause; [startAccessPoint]; one [WiFi.status()]; and with
    the link down the message, [connectToRouter] and, when that set the
    link flag, [enableNAPT]. *)
Lemma checkAPStatus_mode_lost (w : World) :
  is_WIFI_AP_STA (wifi_mode_at (env w) (n_mode (cur w))) = false ->
  let w1 := mkWorld (glob w) (stat w) (env w) (next_mode (cur w))
                    (trace w ++ [EvSerial "AP mode lost - restarting AP";
                                 EvWiFiMode WIFI_AP_STA; EvDelay 100]) in
  let w2 := after startAccessPoint w1 in
  let w3 := mkWorld (glob w2) (stat w2) (env w2) (next_status (cur w2))
                    (trace w2
                     ++ [EvSerial "Router connection lost - reconnecting"]) in
  let w4 := after connectToRouter w3 in
  after checkAPStatus w
  = if is_WL_CONNECTED (wifi_status_at (env w) (n_status (cur w)))
    then set_cur (next_status (cur w2)) w2
    else if stationOK (glob w4) then after enableNAPT w4 else w4.
Proof.
  intros H w1 w2 w3 w4.
  unfold after at 1. unfold checkAPStatus. run. rewrite H. run.
  match goal with
  | |- context [startAccessPoint ?W] =>
      replace W with w1
        by (unfold w1; rewrite <- !app_assoc; reflexivity)
  end.
  destruct (startAccessPoint_keeps_status_cursor w1)
    as (b & c & evs & E & Sc & _).
  assert (E2 : w2 = mkWorld (glob w1) (stat w1) (env w1) c (trace w1 ++ evs))
    by (unfold w2, after; rewrite E; reflexivity).
  rewrite E. cbv delta [w1]. run. cbv delta [w1] in Sc. cbn in Sc.
  rewrite <- Sc.
  destruct (is_WL_CONNECTED (wifi_status_at (env w) (n_status c))); run.
  - rewrite E2. cbv delta [w1]. run. reflexivity.
  - match goal with
    | |- context [connectToRouter ?W] =>
        replace W with w3
          by (unfold w3; rewrite E2; cbv delta [w1]; run; reflexivity)
    end.
    unfold w4, after.
    destruct (connectToRouter_spec w3) as (b' & c' & evs' & E' & _).
    rewrite E'. run.
    destruct b'; [|reflexivity].
    match goal with
    | |- context [enableNAPT ?W] => destruct (enableNAPT W); reflexivity
    end.
Qed.

(** X10.  [checkAPStatus] returns (it never restarts the chip), never
    calls [WiFi.disconnect()], and writes nothing but [stationOK] and
    [naptOK].  With the mode still [WIFI_AP_STA] it only asks for the mode.
    With the mode lost it restarts the access point: it prints the
    message, sets the mode to [WIFI_AP_STA], waits 100 ms and runs
    [startAccessPoint]; then it asks for the link status once.  If the link
    is reported up that is all: no connect attempt, and the globals are as
    they were.  If it is reported down it prints a message and runs
    [connectToRouter] (exactly one [WiFi.begin]), and [enableNAPT] after it
    exactly when [connectToRouter] left the link flag up. *)
Theorem checkAPStatus_behaviour :
  forall w : World,
    restarted (checkAPStatus w) = false
    /\ only_flags w (after checkAPStatus w)
    /\ internetOK (glob (after checkAPStatus w)) = internetOK (glob w)
    /\ forallb plain (emitted checkAPStatus w) = true
    /\ (if is_WIFI_AP_STA (wifi_mode_at (env w) (n_mode (cur w)))
        then checkAPStatus w = Ret tt (set_cur (next_mode (cur w)) w)
        else
          let w1 := mkWorld (glob w) (stat w) (env w) (next_mode (cur w))
                            (trace w
                             ++ [EvSerial "AP mode lost - restarting AP";
                                 EvWiFiMode WIFI_AP_STA; EvDelay 100]) in
          let w2 := after startAccessPoint w1 in
          let w3 := mkWorld (glob w2) (stat w2) (env w2)
                            (next_status (cur w2))
                            (trace w2
                             ++ [EvSerial
                                   "Router connection lost - reconnecting"]) in
          let w4 := after connectToRouter w3 in
          firstn 3 (emitted checkAPStatus w)
          = [EvSerial "AP mode lost - restarting AP";
             EvWiFiMode WIFI_AP_STA; EvDelay 100]
          /\ if is_WL_CONNECTED (wifi_status_at (env w) (n_status (cur w)))
             then after checkAPStatus w = set_cur (next_status (cur w2)) w2
                  /\ count is_begin (emitted checkAPStatus w) = 0%nat
                  /\ glob (after checkAPStatus w) = glob w
             else after checkAPStatus w
                  = (if stationOK (glob w4) then after enableNAPT w4 else w4)
                  /\ count is_begin (emitted checkAPStatus w) = 1%nat).
Proof.
  intros w.
  split.
  { destruct (checkAPStatus_spec w) as (g & c & evs & E & _). now rewrite E. }
  split; [apply checkAPStatus_only_flags|].
  split.
  { destruct (checkAPStatus_spec w) as (g & c & evs & E & _ & I & _).
    unfold after. now rewrite E. }
  split; [apply emits_only_emitted, checkAPStatus_plain|].
  pose proof (checkAPStatus_events w) as Ev.
  pose proof (checkAPStatus_mode_lost w) as Chain.
  destruct (is_WIFI_AP_STA (wifi_mode_at (env w) (n_mode (cur w))));
    [exact Ev|].
  specialize (Chain eq_refl). cbv zeta in Chain |- *.
  destruct Ev as [F3 Ev]. split; [exact F3|].
  destruct (is_WL_CONNECTED (wifi_status_at (env w) (n_status (cur w)))).
  - destruct Ev as [B G]. repeat split; assumption.
  - split; assumption.
Qed.

(** ** The probe and the indicator, continued *)

(** X11.  [testInternet] returns (it never restarts the chip) and its
    result is the value it leaves in [internetOK], the only thing it
    writes; the result is [true] only if the link and forwarding flags were
    both up; it makes at most three connection attempts and spends at most
    3000 ms in [delay]. *)
Theorem testInternet_result :
  forall w : World,
    exists (b : bool) (w' : World),
      testInternet w = Ret b w'
      /\ glob w' = with_internetOK b (glob w)
      /\ stat w' = stat w
      /\ env w' = env w
      /\ b && negb (stationOK (glob w) && naptOK (glob w)) = false
      /\ (List.length (connects (emitted testInternet w)) <= 3)%nat
      /\ 0 <= total_delay (emitted testInternet w) <= 3000
      /\ forallb plain (emitted testInternet w) = true.
Proof.
  intros w.
  pose proof (emits_only_emitted _ _ _ (testInternet_plain w)) as P.
  revert P. unfold emitted, after.
  destruct w as [g s e c t]. destruct g as [st na io lc lw lm bt rc].
  unfold testInternet, testServers, testPorts. cbn [combine try_servers]. run.
  destruct st, na; run;
    try (rewrite skipn_length_same; intros P; eexists; eexists;
         split; [reflexivity|]; cbn; repeat split; lia).
  destruct (connect_at e (n_connect c)); run;
    [|destruct (connect_at e (S (n_connect c))); run;
      [|destruct (connect_at e (S (S (n_connect c)))); run]];
    rewrite <- ?app_assoc; cbn [app]; rewrite skipn_length_app;
    intros P; eexists; eexists; (split; [reflexivity|]);
    cbn; repeat split; try lia; exact P.
Qed.

(** X12.  The indicator.  [updateLED] reads the clock once.  With all
    three flags up it drives the LED on ([LOW]) and leaves its blink phase
    alone.  Otherwise the flags select a period (1000 ms with link and
    forwarding up, 300 ms with the link up only, 100 ms with the link down):
    when more than the period has passed since the last toggle, computed
    modulo 2^32, it inverts [ledState], drives the LED accordingly and
    records the clock reading in [lastBlink]; else it does nothing. *)
Theorem updateLED_indicator :
  forall w : World,
    exists s' : Statics,
      updateLED w
      = Ret tt (mkWorld (glob w) s' (env w) (next_millis (cur w))
                        (trace w ++ emitted updateLED w))
      /\ failCount s' = failCount (stat w)
      /\ match blink_period (glob w) with
         | None =>
             emitted updateLED w = [EvDigitalWrite LOW]
             /\ s' = stat w
         | Some period =>
             if usub (led_clock w) (lastBlink (stat w)) >? period
             then emitted updateLED w
                  = [EvDigitalWrite
                       (if ledState (stat w) then HIGH else LOW)]
                  /\ ledState s' = negb (ledState (stat w))
                  /\ lastBlink s' = led_clock w
             else emitted updateLED w = [] /\ s' = stat w
         end.
Proof.
  intros w. unfold blink_period, led_clock, emitted, after.
  destruct w as [g s e c t]. destruct g as [st na io lc lw lm bt rc].
  destruct s as [fc lb ls].
  unfold updateLED, blink_every. run.
  destruct st, na, io; run;
    try match goal with
      | |- context [usub ?a ?b >? ?p] => destruct (usub a b >? p)
      end;
    run; rewrite ?skipn_length_app, ?skipn_length_same, ?app_nil_r;
    eexists; (split; [reflexivity|]); cbn; repeat split;
    destruct ls; reflexivity.
Qed.

(** ** The status page, continued *)

Lemma string_append_assoc (s1 s2 s3 : string) :
  append (append s1 s2) s3 = append s1 (append s2 s3).
Proof. induction s1 as [|a s1 IH]; cbn; [reflexivity | now rewrite IH]. Qed.

(** X13.  [server.handleClient()] returns, writes no global and no
    static, and answers a waiting request with exactly one response: 404
    [text/plain] "Not found" for any path but the root, and for the root a
    200 [text/html] page that opens with the fixed head followed by the
    banner of the flags: "Internet Working" only with all three flags up,
    "Testing Internet" with link and forwarding up, "No Connection"
    otherwise.  With no request waiting it sends nothing. *)
Theorem server_handleClient_responses :
  forall w : World,
    restarted (server_handleClient w) = false
    /\ only_io w (after server_handleClient w)
    /\ match request_at (env w) (n_request (cur w)) with
       | None => emitted server_handleClient w = []
       | Some GetOther =>
           emitted server_handleClient w
           = [EvServerSend 404 "text/plain" "Not found"]
       | Some GetRoot =>
           exists rest : string,
             emitted server_handleClient w
             = [EvServerSend 200 "text/html"
                  (append page_head (append (status_banner (glob w)) rest))]
       end.
Proof.
  intros w.
  split.
  { destruct (server_handleClient_spec w) as (c & evs & E & _). now rewrite E. }
  split; [apply server_handleClient_only_io|].
  unfold emitted, after, server_handleClient, handleRoot, handleNotFound,
    status_banner, page_head.
  run.
  destruct (request_at (env w) (n_request (cur w))) as [[|]|]; run.
  - rewrite skipn_length_app.
    destruct (stationOK (glob w)), (naptOK (glob w)), (internetOK (glob w));
      cbn [andb]; eexists; rewrite !string_append_assoc; reflexivity.
  - rewrite skipn_length_app. reflexivity.
  - apply skipn_length_same.
Qed.


(** ** [setup], continued *)

(** X14.  When the access point does not come up ([WiFi.softAPConfig] or
    [WiFi.softAP] fails), [setup] returns right there: it makes no connect
    attempt, does not start the web server, and leaves the link and
    forwarding flags as they were; only [bootTime] was written. *)
Theorem setup_without_access_point :
  forall w : World,
    access_point_starts w = false ->
    restarted (setup w) = false
    /\ count is_begin (emitted setup w) = 0%nat
    /\ count is_server_begin (emitted setup w) = 0%nat
    /\ glob (after setup w)
       = with_bootTime (wrap_uint32 (millis_at (env w) (n_millis (cur w))))
                       (glob w)
    /\ stat (after setup w) = stat w.
Proof.
  intros w H.
  destruct (setup_spec w)
    as (g & c & evs & E & B & L1 & L2 & L3 & Rc & Io & _ & _ & A).
  rewrite H in A. destruct A as (A1 & A2 & A3 & A4).
  unfold emitted, after. rewrite E. cbn [restarted world_of trace glob stat].
  rewrite skipn_length_app. repeat split; try assumption.
  destruct g as [st na io lc lw lm bt rc]. destruct w as [[] ? ? ? ?].
  cbn in *. subst. reflexivity.
Qed.

Lemma setup_without_access_point_witness :
  access_point_starts (boot env_no_access_point) = false
  /\ restarted (setup (boot env_no_access_point)) = false
  /\ count is_begin (emitted setup (boot env_no_access_point)) = 0%nat
  /\ count is_server_begin (emitted setup (boot env_no_access_point)) = 0%nat
  /\ glob (after setup (boot env_no_access_point))
     = with_bootTime
         (wrap_uint32 (millis_at (env (boot env_no_access_point))
                                 (n_millis (cur (boot env_no_access_point)))))
         (glob (boot env_no_access_point))
  /\ stat (after setup (boot env_no_access_point)) = stat (boot env_no_access_point).
Proof.
  split; [reflexivity|].
  apply (setup_without_access_point (boot env_no_access_point)).
  reflexivity.
Defined.

(** X15.  The state [setup] hands to [loop], from power-up in any outside
    world: [setup] has returned without a restart and without a
    [WiFi.disconnect]; [bootTime] is the clock reading it took and the
    other timestamps and both counters are 0; [internetOK] is down;
    [naptOK] implies [stationOK]; and the web server was started, with
    exactly one connect attempt made, exactly when the access point came
    up. *)
Theorem setup_from_boot :
  forall e : Env,
    restarted (setup (boot e)) = false
    /\ count is_disconnect (emitted setup (boot e)) = 0%nat
    /\ bookkeeping (glob (after setup (boot e)))
       = (0, 0, 0, wrap_uint32 (millis_at e 0), 0)
    /\ stat (after setup (boot e)) = mkStatics 0 0 false
    /\ internetOK (glob (after setup (boot e))) = false
    /\ forwarding_needs_link (glob (after setup (boot e)))
    /\ count is_server_begin (emitted setup (boot e))
       = (if access_point_starts (boot e) then 1%nat else 0%nat)
    /\ count is_begin (emitted setup (boot e))
       = (if access_point_starts (boot e) then 1%nat else 0%nat).
Proof.
  intros e.
  destruct (setup_spec (boot e))
    as (g & c & evs & E & B & L1 & L2 & L3 & Rc & Io & R0 & D0 & A).
  unfold emitted, after. rewrite E.
  cbn [restarted world_of trace glob stat boot] in *.
  rewrite skipn_length_app. unfold bookkeeping, forwarding_needs_link.
  rewrite B, L1, L2, L3, Rc, Io.
  destruct (access_point_starts (boot e)).
  - destruct A as (A1 & A2 & A3). repeat split; try assumption.
    intros N. destruct (A3 N) as [F | F]; [discriminate F | exact F].
  - destruct A as (A1 & A2 & A3 & A4). repeat split; try assumption.
    rewrite A4. discriminate.
Qed.

(** ** One iteration of [loop]: the timers *)

(** With no request waiting, [server.handleClient()] only looks. *)
Lemma server_handleClient_none (w : World) :
  request_at (env w) (n_request (cur w)) = None ->
  server_handleClient w = Ret tt (set_cur (next_request (cur w)) w).
Proof. intros H. unfold server_handleClient. run. now rewrite H. Qed.

(** X16.  An idle iteration: with no request waiting and none of the four
    timers due at the iteration's clock reading, [loop] returns having
    done nothing but [updateLED] and [yield]: every global and [failCount]
    are as they were, and the outside world was asked for nothing but the
    pending request and the clock (twice). *)
Theorem loop_idle_iteration :
  forall w : World,
    request_at (env w) (n_request (cur w)) = None ->
    usub (loop_clock w) (lastWatchdog (glob w)) <= CONNECTION_WATCHDOG ->
    usub (loop_clock w) (lastMemoryCheck (glob w)) <= 10000 ->
    usub (loop_clock w) (lastCheck (glob w)) <= STATUS_INTERVAL ->
    usub (loop_clock w) (bootTime (glob w)) <= REBOOT_INTERVAL ->
    exists w' : World,
      loop w = Ret tt w'
      /\ glob w' = glob w
      /\ failCount (stat w') = failCount (stat w)
      /\ env w' = env w
      /\ cur w' = next_millis (next_millis (next_request (cur w)))
      /\ emitted loop w
         = emitted updateLED (set_cur (next_request (cur w)) w) ++ [EvYield].
Proof.
  intros w Hr H1 H2 H3 H4. unfold loop_clock in *.
  assert (G : forall a b : Z, a <= b -> (a >? b) = false)
    by (intros a b L; rewrite Z.gtb_ltb; now apply Z.ltb_ge).
  apply G in H1, H2, H3, H4.
  unfold emitted at 1, after, loop.
  rewrite (bind_Ret _ _ _ _ _ (server_handleClient_none w Hr)).
  destruct (updateLED_spec (set_cur (next_request (cur w)) w))
    as (s2 & evs2 & E2 & F2).
  rewrite (bind_Ret _ _ _ _ _ E2).
  unfold emitted, after. rewrite E2. run.
  rewrite H1. run. rewrite H2. run. rewrite H3. run. rewrite H4. run.
  rewrite <- ?app_assoc. rewrite !skipn_length_app.
  eexists. split; [reflexivity|]. cbn.
  repeat split; assumption.
Qed.

Lemma loop_idle_iteration_witness :
  request_at (env world_idle) (n_request (cur world_idle)) = None
  /\ usub (loop_clock world_idle) (lastWatchdog (glob world_idle))
     <= CONNECTION_WATCHDOG
  /\ usub (loop_clock world_idle) (lastMemoryCheck (glob world_idle)) <= 10000
  /\ usub (loop_clock world_idle) (lastCheck (glob world_idle))
     <= STATUS_INTERVAL
  /\ usub (loop_clock world_idle) (bootTime (glob world_idle))
     <= REBOOT_INTERVAL
  /\ exists w' : World,
      loop world_idle = Ret tt w'
      /\ glob w' = glob world_idle
      /\ failCount (stat w') = failCount (stat world_idle)
      /\ env w' = env world_idle
      /\ cur w' = next_millis (next_millis (next_request (cur world_idle)))
      /\ emitted loop world_idle
         = emitted updateLED
                   (set_cur (next_request (cur world_idle)) world_idle)
           ++ [EvYield].
Proof.
  assert (H0 : request_at (env world_idle) (n_request (cur world_idle)) = None)
    by reflexivity.
  assert (H1 : usub (loop_clock world_idle) (lastWatchdog (glob world_idle))
               <= CONNECTION_WATCHDOG)
    by (vm_compute; discriminate).
  assert (H2 : usub (loop_clock world_idle)
                    (lastMemoryCheck (glob world_idle)) <= 10000)
    by (vm_compute; discriminate).
  assert (H3 : usub (loop_clock world_idle) (lastCheck (glob world_idle))
               <= STATUS_INTERVAL)
    by (vm_compute; discriminate).
  assert (H4 : usub (loop_clock world_idle) (bootTime (glob world_idle))
               <= REBOOT_INTERVAL)
    by (vm_compute; discriminate).
  repeat (split; [assumption|]).
  exact (loop_idle_iteration world_idle H0 H1 H2 H3 H4).
Defined.

Lemma after_bind_Ret {A B} (m : M A) (k : A -> M B) (w w' : World) (a : A) :
  m w = Ret a w' -> after (bind m k) w = after (k a) w'.
Proof. intros E. rewrite after_bind, E. reflexivity. Qed.

Lemma lastWatchdog_frame_refl w : lastWatchdog_frame w w.
Proof. reflexivity. Qed.
Lemma lastWatchdog_frame_trans w1 w2 w3 :
  lastWatchdog_frame w1 w2 -> lastWatchdog_frame w2 w3 ->
  lastWatchdog_frame w1 w3.
Proof. unfold lastWatchdog_frame. congruence. Qed.
Lemma only_flags_lastWatchdog_frame w w' :
  only_flags w w' -> lastWatchdog_frame w w'.
Proof.
  unfold only_flags, lastWatchdog_frame, bookkeeping.
  intros (A1 & _). injection A1 as B1 B2 B3 B4 B5. exact B2.
Qed.
Lemma status_frame_lastWatchdog_frame w w' :
  status_frame w w' -> lastWatchdog_frame w w'.
Proof. unfold status_frame, lastWatchdog_frame. tauto. Qed.

(** The elapsed time [now - last] on [unsigned long] is the true elapsed
    time, also when the clock has wrapped since [last]. *)
Lemma usub_elapsed (last d : Z) :
  0 <= last < 2 ^ 32 -> 0 <= d < 2 ^ 32 ->
  usub (wrap_uint32 (last + d)) last = d.
Proof.
  intros H1 H2. unfold usub, wrap_uint32.
  rewrite Zminus_mod_idemp_l.
  replace (last + d - last) with d by lia.
  apply Z.mod_small. lia.
Qed.

(** X17.  The watchdog timer across clock wrap-around.  If the clock
    reading of a [loop] iteration is [d] milliseconds past [lastWatchdog],
    counted modulo 2^32 as the 32-bit [millis()] counts, then the iteration
    re-arms the watchdog timer at its clock reading exactly when [d]
    exceeds [CONNECTION_WATCHDOG] (10000), and leaves [lastWatchdog] alone
    otherwise; this holds whether the iteration returns or ends in a
    restart. *)
Theorem loop_watchdog_timer :
  forall (w : World) (d : Z),
    0 <= lastWatchdog (glob w) < 2 ^ 32 ->
    0 <= d < 2 ^ 32 ->
    loop_clock w = wrap_uint32 (lastWatchdog (glob w) + d) ->
    lastWatchdog (glob (after loop w))
    = (if d >? CONNECTION_WATCHDOG
       then loop_clock w
       else lastWatchdog (glob w)).
Proof.
  intros w d Hl Hd Hc.
  assert (El : usub (loop_clock w) (lastWatchdog (glob w)) = d)
    by (rewrite Hc; now apply usub_elapsed).
  unfold loop_clock in *.
  pose proof (within_weaken _ _ _ only_flags_lastWatchdog_frame
                            checkMemory_only_flags) as Hmem.
  pose proof (fun now => within_weaken _ _ _ status_frame_lastWatchdog_frame
                                       (statusCycle_frame now)) as Hst.
  destruct (server_handleClient_spec w) as (c1 & evs1 & E1 & M1).
  unfold loop. rewrite (after_bind_Ret _ _ _ _ _ E1).
  match goal with
  | |- context [bind updateLED _] =>
      match goal with
      | |- context [after _ ?W] =>
          destruct (updateLED_spec W) as (s2 & evs2 & E2 & _)
      end
  end.
  rewrite (after_bind_Ret _ _ _ _ _ E2).
  rewrite (after_bind_Ret millis _ _ _ _ eq_refl).
  cbv beta delta [set_cur next_millis].
  cbn [glob stat env cur trace n_millis]. rewrite M1.
  set (now := wrap_uint32 (millis_at (env w) (S (n_millis (cur w))))) in *.
  rewrite (after_bind_Ret (gets lastWatchdog) _ _ _ _ eq_refl).
  cbv beta. cbn [glob stat env cur trace]. rewrite El.
  destruct (d >? CONNECTION_WATCHDOG).
  - match goal with
    | |- context [after _ ?W] =>
        destruct (connectionWatchdog_spec W)
          as (g3 & s3 & c3 & evs3 & E3 & T3 & _)
    end.
    unfold when.
    rewrite (after_bind_Ret _ _ _ _ _
               (bind_Ret _ (fun _ => modify (with_lastWatchdog now)) _ _ _ E3)).
    match goal with
    | |- lastWatchdog (glob (after ?m ?W)) = _ =>
        assert (F : within lastWatchdog_frame m)
          by (repeat within_step lastWatchdog_frame_refl
                     lastWatchdog_frame_trans;
              intros w0; unfold lastWatchdog_frame; run; reflexivity);
        rewrite (F W)
    end.
    reflexivity.
  - unfold when at 1.
    rewrite (after_bind_Ret (ret tt) _ _ _ _ eq_refl).
    match goal with
    | |- lastWatchdog (glob (after ?m ?W)) = _ =>
        assert (F : within lastWatchdog_frame m)
          by (repeat within_step lastWatchdog_frame_refl
                     lastWatchdog_frame_trans;
              intros w0; unfold lastWatchdog_frame; run; reflexivity);
        rewrite (F W)
    end.
    reflexivity.
Qed.

Lemma loop_watchdog_timer_witness :
  0 <= lastWatchdog (glob world_clock_wrapped) < 2 ^ 32
  /\ 0 <= 12000 < 2 ^ 32
  /\ loop_clock world_clock_wrapped
     = wrap_uint32 (lastWatchdog (glob world_clock_wrapped) + 12000)
  /\ lastWatchdog (glob (after loop world_clock_wrapped))
     = (if 12000 >? CONNECTION_WATCHDOG
        then loop_clock world_clock_wrapped
        else lastWatchdog (glob world_clock_wrapped)).
Proof.
  assert (H0 : 0 <= lastWatchdog (glob world_clock_wrapped) < 2 ^ 32)
    by (vm_compute; split; [discriminate | reflexivity]).
  assert (H1 : 0 <= 12000 < 2 ^ 32)
    by (vm_compute; split; [discriminate | reflexivity]).
  assert (H2 : loop_clock world_clock_wrapped
               = wrap_uint32 (lastWatchdog (glob world_clock_wrapped) + 12000))
    by reflexivity.
  repeat (split; [assumption|]).
  exact (loop_watchdog_timer world_clock_wrapped 12000 H0 H1 H2).
Defined.

(** After the wrap the watchdog did run: the timer now holds the new,
    small clock reading. *)
Example watchdog_runs_after_wrap :
  lastWatchdog (glob world_clock_wrapped) = 4294962296
  /\ loop_clock world_clock_wrapped = 7000
  /\ lastWatchdog (glob (after loop world_clock_wrapped)) = 7000
  /\ restarted (loop world_clock_wrapped) = false.
Proof. vm_compute. repeat split. Qed.

(** X18.  The restart over the reconnect ceiling, seen from [loop]: an
    iteration that starts with [reconnectCount] above 10 and whose clock
    reading makes the status timer due ends in a restart, whatever the
    watchdog and the memory guard do before the status cycle runs. *)
Theorem loop_over_ceiling_restarts :
  forall w : World,
    10 < reconnectCount (glob w) < INT_MAX ->
    STATUS_INTERVAL < usub (loop_clock w) (lastCheck (glob w)) ->
    restarted (loop w) = true.
Proof. intros w. exact (loop_restarts_over_ceiling w). Qed.

Lemma loop_over_ceiling_restarts_witness :
  10 < reconnectCount (glob world_over_ceiling) < INT_MAX
  /\ STATUS_INTERVAL
     < usub (loop_clock world_over_ceiling) (lastCheck (glob world_over_ceiling))
  /\ restarted (loop world_over_ceiling) = true.
Proof.
  assert (H0 : 10 < reconnectCount (glob world_over_ceiling) < INT_MAX)
    by (vm_compute; split; reflexivity).
  assert (H1 : STATUS_INTERVAL
               < usub (loop_clock world_over_ceiling)
                      (lastCheck (glob world_over_ceiling)))
    by reflexivity.
  repeat (split; [assumption|]).
  exact (loop_over_ceiling_restarts world_over_ceiling H0 H1).
Defined.

(** ** What a whole run never calls twice *)

Lemma emits_only_weaken (p q : Event -> bool) w w' :
  (forall e, p e = true -> q e = true) ->
  emits_only p w w' -> emits_only q w w'.
Proof.
  intros H (evs & A1 & A2). exists evs. split; [exact A1|].
  rewrite forallb_forall in *. auto.
Qed.

Lemma plain_no_server_begin e : plain e = true -> no_server_begin e = true.
Proof. destruct e; cbn; congruence. Qed.

Ltac no_server_frame :=
  repeat within_step (emits_only_refl no_server_begin)
         (emits_only_trans no_server_begin);
  try plain_call.

Lemma plain_within_no_server {A} (m : M A) :
  within (emits_only plain) m -> within (emits_only no_server_begin) m.
Proof.
  apply within_weaken. intros w w'.
  apply emits_only_weaken, plain_no_server_begin.
Qed.

Lemma connectionWatchdog_no_server :
  within (emits_only no_server_begin) connectionWatchdog.
Proof.
  pose proof (plain_within_no_server _ connectToRouter_plain).
  pose proof (plain_within_no_server _ enableNAPT_plain).
  unfold connectionWatchdog. no_server_frame.
Qed.

Lemma checkMemory_no_server :
  within (emits_only no_server_begin) checkMemory.
Proof.
  pose proof (plain_within_no_server _ enableNAPT_plain).
  unfold checkMemory. no_server_frame.
Qed.

Lemma statusCycle_no_server (now : Z) :
  within (emits_only no_server_begin) (statusCycle now).
Proof.
  pose proof (plain_within_no_server _ checkAPStatus_plain).
  pose proof (plain_within_no_server _ testInternet_plain).
  unfold statusCycle. no_server_frame.
Qed.

Lemma loop_no_server : within (emits_only no_server_begin) loop.
Proof.
  pose proof (plain_within_no_server _ server_handleClient_plain).
  pose proof (plain_within_no_server _ updateLED_plain).
  pose proof connectionWatchdog_no_server.
  pose proof checkMemory_no_server.
  pose proof statusCycle_no_server.
  unfold loop. no_server_frame.
Qed.

(** X19.  From power-up, in every outside world and after any number of
    [loop] iterations, up to and including a restart, the web server has
    been started ([server.begin()]) exactly once when the access point
    came up in [setup], and never when it did not: no path of [loop]
    starts it. *)
Theorem web_server_started_once :
  forall (e : Env) (n : nat),
    count is_server_begin (trace (after (setup ;; loops n) (boot e)))
    = (if access_point_starts (boot e) then 1 else 0)%nat.
Proof.
  intros e n. rewrite after_bind.
  destruct (setup_spec (boot e))
    as (g & c & evs & E & _ & _ & _ & _ & _ & _ & _ & _ & S).
  rewrite E.
  destruct (loops_within _ (emits_only_refl no_server_begin)
                         (emits_only_trans no_server_begin) loop_no_server n
              (mkWorld g (stat (boot e)) (env (boot e)) c
                       (trace (boot e) ++ evs))) as (evs' & T & F).
  rewrite T. cbn [trace boot app].
  rewrite count_app.
  rewrite (forallb_count_zero no_server_begin is_server_begin evs').
  - rewrite Nat.add_0_r.
    destruct (access_point_starts (boot e)).
    + destruct S as (_ & S & _). exact S.
    + destruct S as (_ & S & _). exact S.
  - intros ev. unfold no_server_begin. now destruct (is_server_begin ev).
  - exact F.
Qed.

(** X20.  What the helper steps never call: [connectToRouter],
    [startAccessPoint], [enableNAPT], [testInternet], [checkAPStatus],
    [updateLED] and the request handler emit, from any world, neither
    [ESP.restart()], nor [WiFi.disconnect()], nor [server.begin()]. *)
Theorem helpers_emit_plain_events :
  forall w : World,
    forallb plain (emitted connectToRouter w) = true
    /\ forallb plain (emitted startAccessPoint w) = true
    /\ forallb plain (emitted enableNAPT w) = true
    /\ forallb plain (emitted testInternet w) = true
    /\ forallb plain (emitted checkAPStatus w) = true
    /\ forallb plain (emitted updateLED w) = true
    /\ forallb plain (emitted server_handleClient w) = true.
Proof.
  intros w.
  repeat split; apply emits_only_emitted.
  - apply connectToRouter_plain.
  - apply startAccessPoint_plain.
  - apply enableNAPT_plain.
  - apply testInternet_plain.
  - apply checkAPStatus_plain.
  - apply updateLED_plain.
  - apply server_handleClient_plain.
Qed.

(** ** The reconnect counter over a run *)

Lemma reconnectCount_frame_refl w : reconnectCount_frame w w.
Proof. reflexivity. Qed.
Lemma reconnectCount_frame_trans w1 w2 w3 :
  reconnectCount_frame w1 w2 -> reconnectCount_frame w2 w3 ->
  reconnectCount_frame w1 w3.
Proof. unfold reconnectCount_frame. congruence. Qed.
Lemma only_flags_reconnectCount_frame w w' :
  only_flags w w' -> reconnectCount_frame w w'.
Proof.
  unfold only_flags, reconnectCount_frame, bookkeeping.
  intros (A1 & _). injection A1 as B1 B2 B3 B4 B5. exact B5.
Qed.
Lemma status_frame_reconnectCount_frame w w' :
  status_frame w w' -> reconnectCount_frame w w'.
Proof. unfold status_frame, reconnectCount_frame. tauto. Qed.

(** One iteration of [loop] adds at most one to [reconnectCount], whether
    it returns or ends in a restart. *)
Lemma loop_reconnectCount_step (w : World) :
  reconnectCount (glob (after loop w)) = reconnectCount (glob w)
  \/ reconnectCount (glob (after loop w))
     = wrap_int32 (reconnectCount (glob w) + 1).
Proof.
  pose proof (within_weaken _ _ _ only_flags_reconnectCount_frame
                            checkMemory_only_flags) as Hmem.
  pose proof (fun now => within_weaken _ _ _ status_frame_reconnectCount_frame
                                       (statusCycle_frame now)) as Hst.
  destruct (server_handleClient_spec w) as (c1 & evs1 & E1 & M1).
  unfold loop. rewrite (after_bind_Ret _ _ _ _ _ E1).
  match goal with
  | |- context [bind updateLED _] =>
      match goal with
      | |- context [after _ ?W] =>
          destruct (updateLED_spec W) as (s2 & evs2 & E2 & _)
      end
  end.
  rewrite (after_bind_Ret _ _ _ _ _ E2).
  rewrite (after_bind_Ret millis _ _ _ _ eq_refl).
  cbv beta delta [set_cur next_millis].
  cbn [glob stat env cur trace n_millis].
  match goal with
  | |- context [bind (gets lastWatchdog) (fun lw => when (usub ?n lw >? _) _ ;; _)] =>
      set (now := n)
  end.
  rewrite (after_bind_Ret (gets lastWatchdog) _ _ _ _ eq_refl).
  cbv beta. cbn [glob stat env cur trace].
  destruct (usub now (lastWatchdog (glob w)) >? CONNECTION_WATCHDOG).
  - match goal with
    | |- context [after _ ?W] =>
        destruct (connectionWatchdog_spec W)
          as (g3 & s3 & c3 & evs3 & E3 & _ & R3)
    end.
    unfold when.
    rewrite (after_bind_Ret _ _ _ _ _
               (bind_Ret _ (fun _ => modify (with_lastWatchdog now)) _ _ _ E3)).
    match goal with
    | |- reconnectCount (glob (after ?m ?W)) = _ \/ _ =>
        assert (F : within reconnectCount_frame m)
          by (repeat within_step reconnectCount_frame_refl
                     reconnectCount_frame_trans;
              intros w0; unfold reconnectCount_frame; run; reflexivity);
        rewrite (F W)
    end.
    exact R3.
  - unfold when at 1.
    rewrite (after_bind_Ret (ret tt) _ _ _ _ eq_refl).
    match goal with
    | |- reconnectCount (glob (after ?m ?W)) = _ \/ _ =>
        assert (F : within reconnectCount_frame m)
          by (repeat within_step reconnectCount_frame_refl
                     reconnectCount_frame_trans;
              intros w0; unfold reconnectCount_frame; run; reflexivity);
        rewrite (F W)
    end.
    left. reflexivity.
Qed.

Lemma loops_reconnectCount_bound (n : nat) :
  forall (w : World) (k : Z),
    0 <= reconnectCount (glob w) <= k ->
    k + Z.of_nat n <= INT_MAX ->
    0 <= reconnectCount (glob (after (loops n) w)) <= k + Z.of_nat n.
Proof.
  induction n as [|n IH]; intros w k Hk Hn.
  - cbn [loops]. unfold after, ret. cbn. lia.
  - cbn [loops]. rewrite after_bind.
    assert (S1 : 0 <= reconnectCount (glob (after loop w)) <= k + 1).
    { destruct (loop_reconnectCount_step w) as [R | R]; rewrite R; [lia|].
      rewrite wrap_int32_small; unfold INT_MIN, INT_MAX in *; lia. }
    unfold after in S1.
    destruct (loop w) as [[] w' | w']; cbn [world_of] in S1.
    + specialize (IH w' (k + 1) S1). unfold INT_MAX in *. lia.
    + lia.
Qed.

(** X21.  From power-up, in every outside world, [reconnectCount] after
    [n] iterations of [loop] lies between 0 and [n]: [setup] leaves it at
    0 and an iteration adds at most one.  Within [INT_MAX] iterations the
    counter therefore never wraps to a negative value. *)
Theorem reconnectCount_bounded_by_iterations :
  forall (e : Env) (n : nat),
    Z.of_nat n <= INT_MAX ->
    0 <= reconnectCount (glob (after (setup ;; loops n) (boot e)))
      <= Z.of_nat n.
Proof.
  intros e n Hn. rewrite after_bind.
  destruct (setup_spec (boot e))
    as (g & c & evs & E & _ & _ & _ & _ & R & _).
  rewrite E.
  apply (loops_reconnectCount_bound n _ 0); [|lia].
  cbn [glob]. rewrite R. cbn. lia.
Qed.

Lemma reconnectCount_bounded_by_iterations_witness :
  Z.of_nat 3 <= INT_MAX
  /\ 0 <= reconnectCount (glob (after (setup ;; loops 3) (boot env_link_lost)))
       <= Z.of_nat 3.
Proof.
  assert (H : Z.of_nat 3 <= INT_MAX) by (vm_compute; discriminate).
  split; [exact H|].
  exact (reconnectCount_bounded_by_iterations env_link_lost 3 H).
Defined.
